(** * pyog.dit: a shallow embedding of the DataConduIT adapter

    The module [scripts/pyog/dit.py] wraps the WMI provider of a
    physical-access-control host.  Pure parts (status tables, query-string
    parsing, error decoding) are embedded as functions; every call that
    leaves the module (COM, WMI, the [pyog._wmii] base classes) is an
    external call of a small free monad, so that a statement about "what is
    sent to the provider, and when" is a statement about the trace of a
    program under an arbitrary provider. *)

From Stdlib Require Import ZArith String Ascii List Lia Bool.
From Stdlib Require Import Numbers.DecimalString.
From Stdlib Require Import Numbers.HexadecimalString.
From stdpp Require Import base option list gmap strings.

Set Warnings "-register-all".
Local Open Scope Z_scope.

(** ** Python values *)

(** The values that cross the provider boundary.  [PObj] is an embedded WMI
    object, seen through its [Properties_] collection. *)
Inductive pyval : Type :=
| PNone
| PBool (b : bool)
| PInt (z : Z)
| PStr (s : string)
| PObj (props : list (string * pyval)).

(** The double-quote character, as a string. *)
Definition dquote : string := String (ascii_of_nat 34) EmptyString.

(** Truthiness, as [if x:] evaluates it. *)
Definition truthy (v : pyval) : bool :=
  match v with
  | PNone => false
  | PBool b => b
  | PInt z => negb (z =? 0)
  | PStr s => negb (String.eqb s "")
  | PObj _ => true
  end.

(** ** Ordered dictionaries

    [collections.OrderedDict] with integer keys: an association list in
    insertion order.  Assigning to an existing key keeps its position. *)
Module OD.

Definition t := list (Z * string).

Fixpoint setitem (k : Z) (v : string) (d : t) : t :=
  match d with
  | [] => [(k, v)]
  | (k', v') :: d' =>
      if k' =? k then (k', v) :: d' else (k', v') :: setitem k v d'
  end.

Fixpoint getitem (d : t) (k : Z) : option string :=
  match d with
  | [] => None
  | (k', v') :: d' => if k' =? k then Some v' else getitem d' k
  end.

Definition keys (d : t) : list Z := map fst d.

(** [OrderedDict(pairs)] inserts the pairs from left to right. *)
Definition of_pairs (l : list (Z * string)) : t :=
  fold_left (fun d kv => setitem (fst kv) (snd kv) d) l [].

End OD.

(** ** Exceptions *)

(** [sys.exc_info()[1]] inside an [except _COMI_ERROR] block: a
    [pywintypes.com_error], whose [args] are
    [(hresult, strerror, excepinfo, argerror)], or a [_wmii.x_wmi] that may
    carry one in its [com_error] attribute. *)
Record excepinfo := Excepinfo {
  ex_wcode : pyval;
  ex_source : pyval;
  ex_description : pyval;
  ex_helpfile : pyval;
  ex_helpcontext : pyval;
  ex_scode : pyval
}.

Record com_error := Com_error {
  hresult : Z;
  strerror : pyval;
  excepinfo_of : option excepinfo;
  argerror : pyval
}.

Inductive comi_error : Type :=
| Pywin_com_error (c : com_error)
| X_wmi (info : string) (c : option com_error).

(** The object [dit_error_info] wraps: the provider's [SWbemLastError]. *)
Record lnl_error := Lnl_error {
  Operation : pyval;
  ParameterInfo : pyval;
  Description : pyval;
  GetObjectText_ : string
}.

(** The attributes [COMError.__init__] and [DITError.__init__] assign;
    [args] is [(code, description, source, param_info)]. *)
Record error_info := Error_info {
  err_source : pyval;
  err_description : pyval;
  err_code : string;
  err_operation : string;
  err_param_info : pyval;
  err_additional_info : option excepinfo;
  err_handle : comi_error + lnl_error;
  err_args : string * pyval * pyval * pyval
}.

Inductive exn : Type :=
| ValueError (msg : string)
| KeyError (key : Z)
| KeyErrorStr (key : string)
| IndexError (msg : string)
| AttributeError (msg : string)
| Comi (e : comi_error)
| COMError (i : error_info)
| DITError (i : error_info).

Definition result (A : Type) : Type := exn + A.
Definition Ok {A} (a : A) : result A := inr a.
Definition Err {A} (e : exn) : result A := inl e.

Fixpoint mapM_result {A B} (f : A -> result B) (l : list A) : result (list B) :=
  match l with
  | [] => Ok []
  | a :: l' =>
      match f a with
      | inl e => Err e
      | inr b =>
          match mapM_result f l' with
          | inl e => Err e
          | inr bs => Ok (b :: bs)
          end
      end
  end.

(** ** Status tables (region "Status" of dit.py) *)
Module Status.

(** Which [decode] the method resolution order of a table's class finds:
    [HWStatus.decode], or the override of [_OutputStatus] that
    [_InputStatus] inherits. *)
Inductive decode_method := HWStatus_decode | OutputStatus_decode.

Record hwstatus := HWStatus {
  decode_of : decode_method;
  items : OD.t
}.

Definition lookup_or_raise (d : OD.t) (k : Z) : result string :=
  match OD.getitem d k with
  | Some v => Ok v
  | None => Err (KeyError k)
  end.

(** [code & status or code == 0] *)
Definition selects (status code : Z) : bool :=
  negb (Z.land code status =? 0) || (code =? 0).

(** [[self[code] for code in self if code & status or code == 0]] *)
Definition HWStatus_decode_body (self : OD.t) (status : Z) : result (list string) :=
  mapM_result (lookup_or_raise self) (filter (fun code => selects status code = true) (OD.keys self)).

(** [[self[status]]] *)
Definition OutputStatus_decode_body (self : OD.t) (status : Z) : result (list string) :=
  match lookup_or_raise self status with
  | inl e => Err e
  | inr v => Ok [v]
  end.

Definition decode (self : hwstatus) (status : Z) : result (list string) :=
  match decode_of self with
  | HWStatus_decode => HWStatus_decode_body (items self) status
  | OutputStatus_decode => OutputStatus_decode_body (items self) status
  end.

Definition _DeviceStatus : OD.t :=
  OD.of_pairs [
    (0x1, "ONLINE_STATUS");
    (0x2, "OPTIONS_MISMATCH_STATUS");
    (0x4, "CABINET_TAMPER");
    (0x8, "POWER_FAIL") ].

Definition _PanelStatus : OD.t :=
  OD.setitem 0x10 "DOWNLOADING_FIRMWARE" _DeviceStatus.

Definition _AlarmPanelStatus : OD.t := _DeviceStatus.

Definition _ReaderStatus : OD.t :=
  OD.of_pairs [
    (0x1, "RDRSTATUS_ONLINE");
    (0x2, "RDRSTATUS_OPTION_MISTMATCH");
    (0x4, "RDRSTATUS_CNTTAMPER");
    (0x8, "RDRSTATUS_PWR_FAIL");
    (0x10, "RDRSTATUS_TAMPER");
    (0x20, "RDRSTATUS_FORCED");
    (0x40, "RDRSTATUS_HELD ");
    (0x80, "RDRSTATUS_AUX ");
    (0x100, "RDRSTATUS_AUX2");
    (0x400, "RDRSTATUS_AUX3");
    (0x800, "RDRSTATUS_BIO_VERIFY");
    (0x1000, "RDRSTATUS_DC_GND_FLT");
    (0x2000, "RDRSTATUS_DC_SHRT_FLT");
    (0x4000, "RDRSTATUS_DC_OPEN_FLT");
    (0x8000, "RDRSTATUS_DC_GEN_FLT");
    (0x10000, "RDRSTATUS_RX_GND_FLT");
    (0x20000, "RDRSTATUS_RX_SHRT_FLT");
    (0x40000, "RDRSTATUS_RX_OPEN_FLT");
    (0x80000, "RDRSTATUS_RX_GEN_FLT");
    (0x100000, "RDRSTATUS_FIRST_CARD_UNLOCK");
    (0x200000, "RDRSTATUS_EXTENDED_HELD_MODE");
    (0x400000, "RDRSTATUS_CIPHER_MODE");
    (0x800000, "RDRSTATUS_LOW_BATTERY");
    (0x1000000, "RDRSTATUS_MOTOR_STALLED");
    (0x2000000, "RDRSTATUS_READHEAD_OFFLINE");
    (0x4000000, "MRDT_ORDRSTATUS_MRDT_OFFLINEFFLINE");
    (0x8000000, "RDRSTATUS_DOOR_CONTACT_OFFLINE") ].

Definition _OutputStatus : OD.t :=
  OD.setitem 0x1 "ALRM_STATUS_ACTIVE "
    (OD.setitem 0x0 "ALRM_STATUS_SECURE" (OD.of_pairs [])).

Definition _InputStatus : OD.t :=
  OD.setitem 0x100 "ALRM_STATUS_MASKED"
    (OD.setitem 0x5 "ALRM_STATUS_GEN_FLT"
      (OD.setitem 0x4 "ALRM_STATUS_OPEN_FLT"
        (OD.setitem 0x3 "ALRM_STATUS_SHRT_FLT"
          (OD.setitem 0x2 "ALRM_STATUS_GND_FLT" _OutputStatus)))).

Definition PANEL_STATUS := HWStatus HWStatus_decode _PanelStatus.
Definition ALARM_PANEL_STATUS := HWStatus HWStatus_decode _AlarmPanelStatus.
Definition READER_STATUS := HWStatus HWStatus_decode _ReaderStatus.
Definition OUTPUT_STATUS := HWStatus OutputStatus_decode _OutputStatus.
Definition INPUT_STATUS := HWStatus OutputStatus_decode _InputStatus.

Definition _status_cls : list (string * hwstatus) := [
  ("Lnl_Panel", PANEL_STATUS);
  ("Lnl_AlarmPanel", ALARM_PANEL_STATUS);
  ("Lnl_Reader", READER_STATUS);
  ("Lnl_AlarmInput", INPUT_STATUS);
  ("Lnl_AlarmOutput", OUTPUT_STATUS);
  ("Lnl_ReaderInput", INPUT_STATUS);
  ("Lnl_ReaderInput1", INPUT_STATUS);
  ("Lnl_ReaderInput2", INPUT_STATUS);
  ("Lnl_ReaderOutput", OUTPUT_STATUS);
  ("Lnl_ReaderOutput1", OUTPUT_STATUS);
  ("Lnl_ReaderOutput2", OUTPUT_STATUS) ].

Fixpoint status_cls_get (d : list (string * hwstatus)) (k : string) : option hwstatus :=
  match d with
  | [] => None
  | (k', v) :: d' => if String.eqb k' k then Some v else status_cls_get d' k
  end.

(** [decode_status(device, dit_status)], with the device seen through
    [device.wmi_class()] and [device.derivation()]. *)
Fixpoint first_known (parents : list string) : option hwstatus :=
  match parents with
  | [] => None
  | p :: ps =>
      match status_cls_get _status_cls p with
      | Some t => Some t
      | None => first_known ps
      end
  end.

Definition decode_status (device_cls : string) (derivation : list string)
    (dit_status : Z) : result (list string) :=
  match status_cls_get _status_cls device_cls with
  | Some status_dic => decode status_dic dit_status
  | None =>
      match first_known derivation with
      | Some status_dic => decode status_dic dit_status
      | None => Err (ValueError ("Unknown hardware device " +:+ dquote +:+ device_cls +:+ dquote))
      end
  end.

End Status.

(** ** Python strings

    [str] is embedded as [string]; the methods below are the ASCII fragment
    of [str.lower], [str.upper], [str.strip], [str.split], [str.index] and
    slicing (characters above 127 are left as they are). *)
Module Str.

Definition lower_char (c : ascii) : ascii :=
  let n := nat_of_ascii c in
  if ((65 <=? n) && (n <=? 90))%nat then ascii_of_nat (n + 32) else c.

Definition upper_char (c : ascii) : ascii :=
  let n := nat_of_ascii c in
  if ((97 <=? n) && (n <=? 122))%nat then ascii_of_nat (n - 32) else c.

Fixpoint lower (s : string) : string :=
  match s with
  | EmptyString => EmptyString
  | String c s' => String (lower_char c) (lower s')
  end.

Fixpoint upper (s : string) : string :=
  match s with
  | EmptyString => EmptyString
  | String c s' => String (upper_char c) (upper s')
  end.

(** [str.isspace] on ASCII: tab, LF, VT, FF, CR, the four separators
    FS, GS, RS, US, and the blank. *)
Definition is_space (c : ascii) : bool :=
  let n := nat_of_ascii c in
  (((9 <=? n) && (n <=? 13)) || ((28 <=? n) && (n <=? 32)))%nat.

Fixpoint all_space (s : string) : bool :=
  match s with
  | EmptyString => true
  | String c s' => is_space c && all_space s'
  end.

Fixpoint lstrip (s : string) : string :=
  match s with
  | EmptyString => EmptyString
  | String c s' => if is_space c then lstrip s' else s
  end.

Fixpoint rstrip (s : string) : string :=
  match s with
  | EmptyString => EmptyString
  | String c s' => if all_space s then EmptyString else String c (rstrip s')
  end.

Definition strip (s : string) : string := rstrip (lstrip s).

(** [s.split(sep)] for a one-character separator. *)
Fixpoint split (sep : ascii) (s : string) : list string :=
  match s with
  | EmptyString => [EmptyString]
  | String c s' =>
      if Ascii.eqb c sep then EmptyString :: split sep s'
      else match split sep s' with
           | [] => [String c EmptyString]
           | p :: ps => String c p :: ps
           end
  end.

(** [s.index(sub)]: position of the first occurrence, [None] standing for
    the [ValueError] of a missing substring. *)
Fixpoint find (sub s : string) : option nat :=
  if String.prefix sub s then Some 0%nat
  else match s with
       | EmptyString => None
       | String _ s' => option_map S (find sub s')
       end.

Fixpoint take (n : nat) (s : string) : string :=
  match n, s with
  | S n', String c s' => String c (take n' s')
  | _, _ => EmptyString
  end.

Fixpoint drop (n : nat) (s : string) : string :=
  match n, s with
  | O, _ => s
  | S n', String _ s' => drop n' s'
  | S _, EmptyString => EmptyString
  end.

(** [s[i:j]] for non-negative [i] and [j]: the characters at positions
    [i] to [j - 1] that exist. *)
Definition slice (i j : nat) (s : string) : string := drop i (take j s).

(** [sep.join(l)] *)
Fixpoint join (sep : string) (l : list string) : string :=
  match l with
  | [] => EmptyString
  | [x] => x
  | x :: l' => x +:+ sep +:+ join sep l'
  end.

Fixpoint contains_char (c : ascii) (s : string) : bool :=
  match s with
  | EmptyString => false
  | String a s' => Ascii.eqb a c || contains_char c s'
  end.

Definition starts_with_space (s : string) : bool :=
  match s with
  | EmptyString => false
  | String c _ => is_space c
  end.

Fixpoint ends_with_space (s : string) : bool :=
  match s with
  | EmptyString => false
  | String c EmptyString => is_space c
  | String _ s' => ends_with_space s'
  end.

Definition is_digit (c : ascii) : bool :=
  let n := nat_of_ascii c in ((48 <=? n) && (n <=? 57))%nat.

Fixpoint take_digits (s : string) : string :=
  match s with
  | EmptyString => EmptyString
  | String c s' => if is_digit c then String c (take_digits s') else EmptyString
  end.

Fixpoint all_digits (s : string) : bool :=
  match s with
  | EmptyString => true
  | String c s' => is_digit c && all_digits s'
  end.

Definition starts_with_digit (s : string) : bool :=
  match s with
  | EmptyString => false
  | String c _ => is_digit c
  end.

(** [int(digits)] for a run of decimal digits. *)
Definition int_of_digits (s : string) : Z :=
  fold_left (fun acc c => 10 * acc + (Z.of_nat (nat_of_ascii c) - 48))
            (list_ascii_of_string s) 0.

(** [hex(n)] *)
Definition hex (n : Z) : string :=
  let digits := HexadecimalString.NilZero.string_of_uint (N.to_hex_uint (Z.to_N (Z.abs n))) in
  if n <? 0 then "-0x" +:+ digits else "0x" +:+ digits.

(** [str(n)] for an integer. *)
Definition of_int (n : Z) : string :=
  DecimalString.NilZero.string_of_int (Z.to_int n).

(** Equality up to ASCII case. *)
Fixpoint eq_nocase (s t : string) : bool :=
  match s, t with
  | EmptyString, EmptyString => true
  | String a s', String b t' => Ascii.eqb (lower_char a) (lower_char b) && eq_nocase s' t'
  | _, _ => false
  end.

End Str.

(** [re.search(r"(?<=StatusCode = )\d+", text)]: the leftmost place that
    follows the literal "StatusCode = " and starts with a digit, with the
    longest run of digits from there. *)
Fixpoint search_stat_code (text : string) : option string :=
  match text with
  | EmptyString => None
  | String _ text' =>
      if String.prefix "StatusCode = " text
         && negb (String.eqb (Str.take_digits (Str.drop 13 text)) "")
      then Some (Str.take_digits (Str.drop 13 text))
      else search_stat_code text'
  end.

(** [str(v)], as an f-string formats a value. *)
Definition py_str (v : pyval) : string :=
  match v with
  | PNone => "None"
  | PBool true => "True"
  | PBool false => "False"
  | PInt z => Str.of_int z
  | PStr s => s
  | PObj _ => "<COMObject <unknown>>"
  end.


(** ** The provider boundary *)

(** COM objects live on the other side: the module holds references only. *)
Definition handle := N.

(** What a call into COM or [pyog._wmii] hands back: a value, or the
    [com_error] / [x_wmi] it raises. *)
Definition comres (A : Type) : Type := (comi_error + A)%type.

(** What [_wmi_watcher.__call__] delivers: the event instance through its
    [Properties_], and its [previous] attribute. *)
Record wmi_event := Wmi_event {
  Properties_ : list (string * pyval);
  previous : option (list (string * pyval))
}.

(** A member of an instance [__dict__]: a COM reference or a plain value. *)
Inductive member : Type :=
| MHandle (h : handle)
| MVal (v : pyval).

(** External calls, indexed by the type of their reply. *)
Inductive ext : Type -> Type :=
| CoInitialize : ext (comres unit)
| Dispatch (progid : string) : ext (comres handle)
| ConnectServer (locator : handle) (server namespace username password : string) :
    ext (comres handle)
| WMI (wbemsvc : handle) : ext (comres handle)
| SWbemLastError : ext (option lnl_error)
| query (namespace : handle) (wql : string) : ext (comres (list handle))
| Get (namespace : handle) (path : string) : ext (comres handle)
| SpawnInstance_ (cls : handle) : ext (comres handle)
| ExecNotificationQuery (namespace : handle) (wql : string) : ext (comres handle)
| NextEvent (watcher : handle) (is_extrinsic : bool) : ext (comres wmi_event)
| wmi_object_init (ole_object : option handle) : ext (comres (gmap string member))
| getattr (ole_object : handle) (name : string) : ext (comres pyval)
| property_set (ole_object : handle) (name : string) (value : pyval) : ext (comres unit)
| Path (ole_object : handle) : ext string
| Put_ (ole_object : handle) : ext (comres string)
| method (ole_object : handle) (name : string) : ext (comres pyval).

(** Programs: return, raise, or call out and continue with the reply. *)
Inductive prog (R : Type) : Type :=
| Ret (r : R)
| Raise (e : exn)
| Vis {X : Type} (c : ext X) (k : X -> prog R).

Arguments Ret {R} r.
Arguments Raise {R} e.
Arguments Vis {R X} c k.

Fixpoint bind {A B} (p : prog A) (f : A -> prog B) : prog B :=
  match p with
  | Ret a => f a
  | Raise e => Raise e
  | Vis c k => Vis c (fun x => bind (k x) f)
  end.

#[global] Instance prog_ret : MRet prog := @Ret.
#[global] Instance prog_bind : MBind prog := fun A B f p => bind p f.

(** A call whose failure propagates as the raw [com_error] / [x_wmi]. *)
Definition call {X} (c : ext (comres X)) : prog X :=
  Vis c (fun r => match r with inl e => Raise (Comi e) | inr x => Ret x end).

(** A call that cannot fail (a local read). *)
Definition ask {X} (c : ext X) : prog X := Vis c Ret.

(** One external call together with the reply it got. *)
Inductive event : Type :=
| Ev {X : Type} (c : ext X) (reply : X).

(** Running a program against a provider with state [W]: the outcome, the
    provider's final state and the calls made, in order. *)
Section Run.
Context {W : Type}.
Variable provider : forall X, ext X -> W -> X * W.

Fixpoint run {R} (p : prog R) (w : W) : result R * W * list event :=
  match p with
  | Ret r => (Ok r, w, [])
  | Raise e => (Err e, w, [])
  | Vis c k =>
      let '(x, w') := provider _ c w in
      let '(r, w'', tr) := run (k x) w' in
      (r, w'', Ev c x :: tr)
  end.

Definition outcome {R} (p : prog R) (w : W) : result R := fst (fst (run p w)).
Definition trace {R} (p : prog R) (w : W) : list event := snd (run p w).
End Run.

(** Event classifiers. *)
Definition is_Put_ (e : event) : bool :=
  match e with Ev (Put_ _) _ => true | _ => false end.

Definition is_property_set (e : event) : bool :=
  match e with Ev (property_set _ _ _) _ => true | _ => false end.

Definition is_ExecNotificationQuery (e : event) : bool :=
  match e with Ev (ExecNotificationQuery _ _) _ => true | _ => false end.

Definition is_CoInitialize (e : event) : bool :=
  match e with Ev CoInitialize _ => true | _ => false end.

Definition is_query (e : event) : bool :=
  match e with Ev (query _ _) _ => true | _ => false end.

Definition is_method (e : event) : bool :=
  match e with Ev (method _ _) _ => true | _ => false end.

(** The COM calls proper, as opposed to [CoInitialize] itself. *)
Definition touches_COM (e : event) : bool := negb (is_CoInitialize e).

(** ** The parts of [pyog._wmii] that dit.py builds on *)

(** [_wmii.signed_to_unsigned] and the two setters [DITElement] inherits
    from [_wmii._wmi_object] are not part of dit.py: they are an interface
    the module is written against. *)
Class Wmii := {
  signed_to_unsigned : Z -> Z;
  super_setattr : gmap string member -> string -> pyval -> prog unit;
  super_set : gmap string member -> list (string * pyval) -> prog unit
}.

(** ** dit.py *)

(** Hardware and software event classes. *)
Definition HWEvent : string := "Lnl_SecurityEvent".
Definition HWAccessEvent : string := "Lnl_AccessEvent".
Definition HWFunctionEvent : string := "Lnl_FunctionExecEvent".
Definition HWStatusEvent : string := "Lnl_StatusChangeEvent".
Definition HWOtherEvent : string := "Lnl_OtherSecurityEvent".
Definition SWOperationEvent : string := "__InstanceOperationEvent".
Definition SWCreationEvent : string := "__InstanceCreationEvent".
Definition SWModificationEvent : string := "__InstanceModificationEvent".
Definition SWDeletionEvent : string := "__InstanceDeletionEvent".

(** [DITConnection]: the namespace it manages. *)
Record DITConnection := Build_DITConnection { _namespace : handle }.

Definition namespace (self : DITConnection) : handle := _namespace self.

(** What [_wmi_watcher.__init__] keeps of its arguments. *)
Record watcher := Build_watcher { wmi_event_of : handle; is_extrinsic : bool }.

(** The value under a key of the dict a watcher returns: a property value,
    or a nested dict made by [_to_dict]. *)
Inductive dict_value : Type :=
| DVal (v : pyval)
| DDict (d : gmap string pyval).

(** An item of a [data_query] tuple: a property value or a [DITElement],
    the latter seen through its [__dict__]. *)
Inductive query_item : Type :=
| QVal (v : pyval)
| QElem (e : gmap string member).

(** [{p.Name: p.Value for p in wmi_obj.Properties_}]: a later property of
    the same name overwrites an earlier one. *)
Definition _to_dict (props : list (string * pyval)) : gmap string pyval :=
  fold_left (fun d p => <[fst p := snd p]> d) props ∅.

Definition nonempty (s : string) : bool := negb (String.eqb s "").

(** The four-tuple [COMError.__init__] unpacks: [err.args] of a
    [com_error], [err.com_error.args] of an [x_wmi]. *)
Definition com_error_args (err : comi_error) : option com_error :=
  match err with
  | Pywin_com_error c => Some c
  | X_wmi _ c => c
  end.

Section Dit.
Context `{Wmii}.

Local Abbreviation element := (gmap string member).

(** *** Errors *)

(** [COMError.__init__]: [err] is [exc_info()[1]]; unpacking [err.args]
    into four names works for a [com_error] and fails for an [x_wmi],
    whose [com_error] attribute is then used. *)
Definition COMError_init (err : comi_error) : result error_info :=
  match com_error_args err with
  | None => Err (AttributeError "'NoneType' object has no attribute 'args'")
  | Some c =>
      let source :=
        match excepinfo_of c with Some ei => ex_source ei | None => PStr "" end in
      let description :=
        match excepinfo_of c with Some ei => ex_description ei | None => strerror c end in
      let code := Str.hex (signed_to_unsigned (hresult c)) in
      Ok {| err_source := source;
            err_description := description;
            err_code := code;
            err_operation := "";
            err_param_info := PStr "";
            err_additional_info := excepinfo_of c;
            err_handle := inl err;
            err_args := (code, description, source, PStr "") |}
  end.

(** [DITError.__init__] *)
Definition DITError_init (dit_err : lnl_error) (err : comi_error) : result error_info :=
  match COMError_init err with
  | inl e => Err e
  | inr base =>
      let source :=
        if truthy (Operation dit_err) then Operation dit_err else err_source base in
      let param_info := ParameterInfo dit_err in
      let description :=
        if truthy (Description dit_err) then Description dit_err
        else err_description base in
      let code :=
        match search_stat_code (GetObjectText_ dit_err) with
        | Some digits => Str.hex (Str.int_of_digits digits)
        | None => err_code base
        end in
      Ok {| err_source := source;
            err_description := description;
            err_code := code;
            err_operation := err_operation base;
            err_param_info := param_info;
            err_additional_info := err_additional_info base;
            err_handle := inr dit_err;
            err_args := (code, description, source, param_info) |}
  end.

(** [dit_error_info()] *)
Definition dit_error_info : prog (option lnl_error) := ask SWbemLastError.

(** [handle_error()], called while [err] is being handled. *)
Definition handle_error {R} (err : comi_error) : prog R :=
  dit_error_info ≫= fun dc_e =>
    match dc_e with
    | Some dit_err =>
        match DITError_init dit_err err with
        | inl e => Raise e
        | inr i => Raise (DITError i)
        end
    | None =>
        match COMError_init err with
        | inl e => Raise e
        | inr i => Raise (COMError i)
        end
    end.

(** [try: p  except _COMI_ERROR: handle_error()] *)
Fixpoint try_except_COMI {R} (p : prog R) : prog R :=
  match p with
  | Ret r => Ret r
  | Raise (Comi e) => handle_error e
  | Raise e => Raise e
  | Vis c k => Vis c (fun x => try_except_COMI (k x))
  end.

(** *** DITElement *)

Definition member_handle (self : element) (name : string) : prog handle :=
  match self !! name with
  | Some (MHandle h) => Ret h
  | _ => Raise (AttributeError name)
  end.

(** Modelled from the spec: [_wmii._wmi_object.__init__] is missing from
    the sources.  It is taken to keep the wrapped OLE object in the
    instance dictionary under [ole_object], next to whatever else it
    caches from the provider; dit.py relies on the dictionary holding the
    whole state of the wrapper when it renews it in [__refresh]. *)
Definition wmi_object___init__ (ole_object : option handle) : prog element :=
  call (wmi_object_init ole_object) ≫= fun cache =>
    Ret (<["ole_object" := match ole_object with
                           | Some o => MHandle o
                           | None => MVal PNone
                           end]> cache).

(** [DITElement.__init__], up to the decision to call [set]. *)
Definition DITElement_init_base (connection : DITConnection + handle)
    (lnl_class : string) (ole_obj : option handle) : prog element :=
  let connection :=
    match connection with inl c => namespace c | inr ns => ns end in
  try_except_COMI (
    (if nonempty lnl_class
     then call (Get connection lnl_class) ≫= fun cls =>
          call (SpawnInstance_ cls) ≫= fun o => Ret (Some o)
     else Ret ole_obj) ≫= fun ole_object =>
    wmi_object___init__ ole_object) ≫= fun self =>
  Ret (<["_namespace" := MHandle connection]> self).

(** [DITElement.__refresh] *)
Definition DITElement__refresh (self : element) (obj_path : string) : prog element :=
  member_handle self "_namespace" ≫= fun ns =>
  try_except_COMI (call (Get ns obj_path)) ≫= fun new_obj =>
  DITElement_init_base (inr ns) "" (Some new_obj) ≫= fun fresh =>
  Ret (fresh ∪ self).

(** [DITElement._commit] *)
Definition DITElement__commit (self : element) : prog element :=
  member_handle self "ole_object" ≫= fun ole =>
  ask (Path ole) ≫= fun obj_path =>
  if nonempty obj_path then DITElement__refresh self obj_path
  else
    try_except_COMI (call (Put_ ole)) ≫= fun obj_path =>
    DITElement__refresh self obj_path.

(** [DITElement.set] *)
Definition DITElement_set (self : element) (kwargs : list (string * pyval)) : prog element :=
  try_except_COMI (super_set self kwargs) ≫= fun _ =>
  DITElement__commit self.

(** [DITElement.__setattr__] *)
Definition DITElement___setattr__ (self : element) (key : string) (value : pyval) : prog element :=
  try_except_COMI (super_setattr self key value) ≫= fun _ =>
  DITElement__commit self.

(** [DITElement.__init__] *)
Definition DITElement_init (connection : DITConnection + handle)
    (lnl_class : string) (ole_obj : option handle)
    (kwargs : list (string * pyval)) : prog element :=
  match ole_obj with
  | None =>
      DITElement_init_base connection lnl_class ole_obj ≫= fun self =>
      DITElement_set self kwargs
  | Some _ => DITElement_init_base connection lnl_class ole_obj
  end.

(** *** Watchers *)

(** [_DITWatcher.__init__] *)
Definition DITWatcher_init (connection : handle) (notification_wql : string)
    (is_extrinsic : bool) : prog watcher :=
  try_except_COMI (call (ExecNotificationQuery connection notification_wql)) ≫= fun wmi_event =>
  Ret (Build_watcher wmi_event is_extrinsic).

(** [_DITWatcher.__call__] *)
Definition DITWatcher_call (self : watcher) : prog wmi_event :=
  try_except_COMI (call (NextEvent (wmi_event_of self) (is_extrinsic self))).

(** [HWatcher.__init__] *)
Definition HWatcher_init (connection : handle) (EventClass : string) : prog watcher :=
  DITWatcher_init connection ("SELECT * FROM " +:+ EventClass) true.

(** [HWatcher.__call__] *)
Definition HWatcher_call (self : watcher) : prog (gmap string dict_value) :=
  DITWatcher_call self ≫= fun event =>
  let dict_evt := _to_dict (Properties_ event) in
  match dict_evt !! "Alarm" with
  | None => Raise (KeyErrorStr "Alarm")
  | Some (PObj alarm) => Ret (<["Alarm" := DDict (_to_dict alarm)]> (DVal <$> dict_evt))
  | Some _ => Raise (AttributeError "Properties_")
  end.

(** [SWatcher.targets] *)
Definition targets : list string :=
  ["lnl_cardholder"; "lnl_visitor"; "lnl_badge"; "lnl_account"].

(** [SWatcher.__init__] *)
Definition SWatcher_init (connection : handle) (TargetCls operation : string) : prog watcher :=
  if negb (existsb (String.eqb (Str.lower TargetCls)) targets)
  then Raise (ValueError ("Invalid target class: " +:+ TargetCls))
  else DITWatcher_init connection
         ("select * from " +:+ operation +:+ " where TargetInstance ISA '" +:+ TargetCls +:+ "'")
         false.

(** [SWatcher.__call__] *)
Definition SWatcher_call (self : watcher) : prog (gmap string dict_value) :=
  DITWatcher_call self ≫= fun event =>
  let dict_evt := _to_dict (Properties_ event) in
  Ret (<["previous" := match previous event with
                       | Some prev => DDict (_to_dict prev)
                       | None => DVal PNone
                       end]> (DVal <$> dict_evt)).

(** *** DITConnection *)

(** [[p.strip() for p in wql[7:wql.lower().index(' from')].split(',')]] *)
Definition properties_of (wql : string) : result (list string) :=
  match Str.find " from" (Str.lower wql) with
  | None => Err (ValueError "substring not found")
  | Some i => Ok (map Str.strip (Str.split "," (Str.slice 7 i wql)))
  end.

(** [DITConnection.data_query] *)
Definition data_query (self : DITConnection) (wql : string) : prog (list (list query_item)) :=
  try_except_COMI (
    call (query (_namespace self) wql) ≫= fun results =>
    match properties_of wql with
    | inl e => Raise e
    | inr properties =>
        match properties with
        | [] => Raise (IndexError "list index out of range")
        | p0 :: _ =>
            if String.eqb p0 "*" then
              mapM (fun r => DITElement_init (inr (_namespace self)) "" (Some r) []) results
                ≫= fun elems => Ret [map QElem elems]
            else
              mapM (fun r => mapM (fun p => call (getattr r (Str.upper p))) properties) results
                ≫= fun final_results => Ret (map (map QVal) final_results)
        end
    end).

(** [DITConnection._not_found_error] *)
Definition _not_found_error {R} (obj qualifier : string) : prog R :=
  Raise (Comi (X_wmi (obj +:+ " " +:+ dquote +:+ qualifier +:+ dquote +:+ " not found.") None)).

(** [x[0]] on a list or tuple. *)
Definition item0 {A} (kind : string) (l : list A) : prog A :=
  match l with
  | [] => Raise (IndexError (kind +:+ " index out of range"))
  | a :: _ => Ret a
  end.

Definition str_item (x : query_item) : string :=
  match x with
  | QVal v => py_str v
  | QElem _ => "<DITElement>"
  end.

(** A method reached through a tuple item: only a [DITElement] has any. *)
Definition call_method (x : query_item) (name : string) : prog pyval :=
  match x with
  | QElem e => member_handle e "ole_object" ≫= fun ole => call (method ole name)
  | QVal _ => Raise (AttributeError name)
  end.

(** [DITConnection.open_door] *)
Definition open_door (self : DITConnection) (panel reader : string) : prog unit :=
  data_query self ("select ID from Lnl_Panel where NAME = " +:+ dquote +:+ panel +:+ dquote)
    ≫= fun panel_id =>
  match panel_id with
  | _ :: _ =>
      item0 "list" panel_id ≫= fun row =>
      item0 "tuple" row ≫= fun id =>
      data_query self ("select * from Lnl_Reader where PanelID = " +:+ str_item id
                       +:+ " and Name = " +:+ dquote +:+ reader +:+ dquote) ≫= fun lnl_reader =>
      match lnl_reader with
      | _ :: _ =>
          item0 "list" lnl_reader ≫= fun row =>
          item0 "tuple" row ≫= fun rdr =>
          call_method rdr "OpenDoor" ≫= fun _ => Ret tt
      | [] => _not_found_error "panel" panel
      end
  | [] => _not_found_error "reader" reader
  end.

(** [DITConnection.hardware_events] *)
Definition hardware_events (self : DITConnection) (EventClass : option string) : prog watcher :=
  HWatcher_init (_namespace self) (default HWEvent EventClass).

(** [DITConnection.software_events] *)
Definition software_events (self : DITConnection) (TargetCls : string)
    (operation : option string) : prog watcher :=
  SWatcher_init (_namespace self) TargetCls (default SWOperationEvent operation).

(** *** Connection bootstrap *)

(** [_connect_dit]; an omitted argument is [None]. *)
Definition _connect_dit (server username password : option string)
    (coinitialize : option bool) : prog DITConnection :=
  try_except_COMI (
    (if default false coinitialize then call CoInitialize else Ret tt) ≫= fun _ =>
    call (Dispatch "WbemScripting.SWbemLocator") ≫= fun locator =>
    call (ConnectServer locator (default "." server) "Root\OnGuard"
            (default "" username) (default "" password)) ≫= fun wbemsvc =>
    call (WMI wbemsvc)) ≫= fun conn =>
  Ret (Build_DITConnection conn).

Definition DIT := _connect_dit.

End Dit.

Arguments handle_error {_ R} err : simpl never.

(** *** Sequences of mutations of one element *)

Inductive mutation : Type :=
| Assign (key : string) (value : pyval)
| SetKw (kwargs : list (string * pyval)).

Section Mutations.
Context `{Wmii}.

Definition apply_mutation (self : gmap string member) (m : mutation) :
    prog (gmap string member) :=
  match m with
  | Assign key value => DITElement___setattr__ self key value
  | SetKw kwargs => DITElement_set self kwargs
  end.

Fixpoint apply_mutations (self : gmap string member) (ms : list mutation) :
    prog (gmap string member) :=
  match ms with
  | [] => Ret self
  | m :: ms' => apply_mutation self m ≫= fun self' => apply_mutations self' ms'
  end.
End Mutations.

(** ** A model of the missing base class *)

(** Modelled from the spec: [_wmii._wmi_object.__setattr__] is missing from
    the sources.  Following the comment in [DITElement.__setattr__] ("If
    path exists _wmii._wmi_object.__setattr__() will call
    SWbemObject.Put_()"), it stages the value on the local OLE object and
    writes the object back when the object has a path. *)
Definition model_setattr (self : gmap string member) (key : string) (value : pyval) :
    prog unit :=
  match self !! "ole_object" with
  | Some (MHandle ole) =>
      call (property_set ole key value) ≫= fun _ =>
      ask (Path ole) ≫= fun path =>
      if nonempty path then call (Put_ ole) ≫= fun _ => Ret tt else Ret tt
  | _ => Raise (AttributeError "ole_object")
  end.

(** Modelled from the spec: [_wmii._wmi_object.set] is missing from the
    sources.  As the batch counterpart of the setter ("Sets properties in
    batch"), it stages every keyword on the local OLE object and then writes
    the object back once when the object has a path; without keywords it
    does nothing. *)
Definition model_set (self : gmap string member) (kwargs : list (string * pyval)) :
    prog unit :=
  match kwargs with
  | [] => Ret tt
  | _ :: _ =>
      match self !! "ole_object" with
      | Some (MHandle ole) =>
          mapM (fun kv => call (property_set ole (fst kv) (snd kv))) kwargs ≫= fun _ =>
          ask (Path ole) ≫= fun path =>
          if nonempty path then call (Put_ ole) ≫= fun _ => Ret tt else Ret tt
      | _ => Raise (AttributeError "ole_object")
      end
  end.

(** Modelled from the spec: [_wmii.signed_to_unsigned] is missing from the
    sources; it is taken to reinterpret a signed 32-bit HRESULT as
    unsigned. *)
Definition model_signed_to_unsigned (z : Z) : Z := z mod 2 ^ 32.

Definition wmii_model : Wmii := {|
  signed_to_unsigned := model_signed_to_unsigned;
  super_setattr := model_setattr;
  super_set := model_set
|}.

(** ** Reading traces *)

(** The staging and writing calls of a trace, in order. *)
Inductive write_event : Type :=
| Staged (name : string) (value : pyval)
| Written.

Definition write_of (e : event) : option write_event :=
  match e with
  | Ev (property_set _ name value) _ => Some (Staged name value)
  | Ev (Put_ _) _ => Some Written
  | _ => None
  end.

Definition writes (tr : list event) : list write_event := omap write_of tr.

Definition writes_of (m : mutation) : list write_event :=
  match m with
  | Assign key value => [Staged key value; Written]
  | SetKw kwargs => map (fun kv => Staged (fst kv) (snd kv)) kwargs ++ [Written]
  end.

Definition staged_of (m : mutation) : list write_event :=
  match m with
  | Assign key value => [Staged key value]
  | SetKw kwargs => map (fun kv => Staged (fst kv) (snd kv)) kwargs
  end.

(** What one call may show of staging and writing when it is its own
    commit point: its properties staged and then one write of the object;
    a [set] call without keywords stages nothing and writes at most
    once. *)
Definition commits_alone (m : mutation) (c : list write_event) : Prop :=
  c = writes_of m \/ (m = SetKw [] /\ c = []).

(** The servers and namespaces a trace connects to, with the credentials
    used. *)
Definition connect_target (e : event) : option (string * string * string * string) :=
  match e with
  | Ev (ConnectServer _ server ns username password) _ =>
      Some (server, ns, username, password)
  | _ => None
  end.

Definition connect_targets (tr : list event) : list (string * string * string * string) :=
  omap connect_target tr.

(** A provider call that was answered with an error. *)
Definition failed (e : event) : bool :=
  match e with
  | Ev CoInitialize (inl _) => true
  | Ev (Dispatch _) (inl _) => true
  | Ev (ConnectServer _ _ _ _ _) (inl _) => true
  | Ev (WMI _) (inl _) => true
  | Ev (query _ _) (inl _) => true
  | Ev (Get _ _) (inl _) => true
  | Ev (SpawnInstance_ _) (inl _) => true
  | Ev (ExecNotificationQuery _ _) (inl _) => true
  | Ev (NextEvent _ _) (inl _) => true
  | Ev (wmi_object_init _) (inl _) => true
  | Ev (getattr _ _) (inl _) => true
  | Ev (property_set _ _ _) (inl _) => true
  | Ev (Put_ _) (inl _) => true
  | Ev (method _ _) (inl _) => true
  | _ => false
  end.

(** ** Sample providers *)

(** The reply of a provider where nothing goes wrong and nothing is
    stored: fresh objects have no path, queries find nothing. *)
Definition quiet_reply {X} (c : ext X) : X :=
  match c in ext X return X with
  | CoInitialize => inr tt
  | Dispatch _ => inr 1%N
  | ConnectServer _ _ _ _ _ => inr 2%N
  | WMI _ => inr 3%N
  | SWbemLastError => None
  | query _ _ => inr []
  | Get _ _ => inr 10%N
  | SpawnInstance_ _ => inr 11%N
  | ExecNotificationQuery _ _ => inr 20%N
  | NextEvent _ _ => inr (Wmi_event [] None)
  | wmi_object_init _ => inr ∅
  | getattr _ _ => inr PNone
  | property_set _ _ _ => inr tt
  | Path _ => ""
  | Put_ _ => inr "Lnl_Cardholder.ID=1"
  | method _ _ => inr PNone
  end.

Definition quiet_provider : forall X, ext X -> unit -> X * unit :=
  fun X c w => (quiet_reply c, w).

(** A failed call with exception info, and a provider that reports
    status 2147749896 for it. *)
Definition sample_com_error : com_error :=
  Com_error (-2147352567) (PStr "Exception occurred.")
    (Some (Excepinfo (PInt 0) (PStr "SWbemObjectEx") (PStr "Generic failure")
             PNone (PInt 0) (PInt (-2147217407))))
    PNone.

Definition sample_lnl_error : lnl_error :=
  Lnl_error (PStr "PutInstance") (PStr "Lnl_Cardholder") (PStr "Invalid badge")
    "instance of Lnl_Error { Description = x; StatusCode = 2147749896; };".

Definition reporting_provider : forall X, ext X -> unit -> X * unit :=
  fun X c w =>
    match c in ext X return X * unit with
    | SWbemLastError => (Some sample_lnl_error, w)
    | c' => (quiet_reply c', w)
    end.

(** A wrapper around a new, pathless instance. *)
Definition sample_element : gmap string member :=
  <["CITY" := MVal (PStr "Rome")]>
    (<["_namespace" := MHandle 3%N]> (<["ole_object" := MHandle 11%N]> ∅)).

(** A provider that knows one stored cardholder: the new instance behind
    handle 11 has no path yet, every other object has one. *)
Definition store_path (o : handle) : string :=
  if (o =? 11)%N then "" else "\\MS5\root\onguard:Lnl_Cardholder.ID=1".

Definition store_provider : forall X, ext X -> unit -> X * unit :=
  fun X c w =>
    match c in ext X return X * unit with
    | Path o => (store_path o, w)
    | c' => (quiet_reply c', w)
    end.

(** A hardware event as the module's docstring shows one, and a provider
    that delivers it to every watcher. *)
Definition sample_event : wmi_event :=
  Wmi_event
    [("AccessResult", PInt 2);
     ("Alarm", PObj [("Description", PStr "Granted Access"); ("ID", PInt 1);
                     ("IsActive", PBool false); ("Priority", PInt 50)]);
     ("CardNumber", PStr "258963");
     ("Description", PStr "Access Granted")]
    None.

Definition event_provider : forall X, ext X -> unit -> X * unit :=
  fun X c w =>
    match c in ext X return X * unit with
    | NextEvent _ _ => (inr sample_event, w)
    | c' => (quiet_reply c', w)
    end.

(** [elem.set(CITY=..., ZIP=...)] followed by [elem.STATE = ...], and two
    assignments in a row. *)
Definition batch_then_assign : list mutation :=
  [SetKw [("CITY", PStr "Rochester"); ("ZIP", PStr "14604")];
   Assign "STATE" (PStr "NY")].

Definition two_assignments : list mutation :=
  [Assign "CITY" (PStr "Rochester"); Assign "ZIP" (PStr "14604")].

(** A provider with two cardholder rows behind handles 101 and 102. *)
Definition rows_value (r : handle) (name : string) : pyval :=
  if String.eqb name "LASTNAME" then PStr (if (r =? 101)%N then "Lake" else "Twain")
  else if String.eqb name "FIRSTNAME" then PStr (if (r =? 101)%N then "Lisa" else "Mark")
  else if String.eqb name "ID" then PInt (Z.of_N r)
  else PNone.

Definition rows_provider : forall X, ext X -> unit -> X * unit :=
  fun X c w =>
    match c in ext X return X * unit with
    | query _ _ => (inr [101%N; 102%N], w)
    | getattr r name => (inr (rows_value r name), w)
    | c' => (quiet_reply c', w)
    end.

(** A provider that knows panel "3300" (one row, ID 101) and no reader. *)
Definition door_provider : forall X, ext X -> unit -> X * unit :=
  fun X c w =>
    match c in ext X return X * unit with
    | query _ wql =>
        (inr (if String.prefix "select ID from Lnl_Panel" wql then [101%N] else []), w)
    | getattr r name => (inr (rows_value r name), w)
    | c' => (quiet_reply c', w)
    end.

(** Reading a path is a pure function of the provider's state, and writing
    an object that has a path leaves it with a path. *)
Definition stable_paths {W : Type} (provider : forall X, ext X -> W -> X * W) : Prop :=
  exists path_of : W -> handle -> string,
    (forall o w, provider _ (Path o) w = (path_of w o, w))
    /\ (forall o w, nonempty (path_of w o) = true ->
                    nonempty (path_of (snd (provider _ (Put_ o) w)) o) = true).

(** The reading of "staged until a commit point, then committed as a
    batch" for a sequence of mutations: every property of the sequence is
    staged before the single write. *)
Definition commits_as_one_batch `{Wmii} {W : Type}
    (provider : forall X, ext X -> W -> X * W)
    (self : gmap string member) (ms : list mutation) (w : W) : Prop :=
  writes (trace provider (apply_mutations self ms) w)
  = concat (map staged_of ms) ++ [Written].

(** The members of a fresh wrapper around [new_obj], as [__refresh] builds
    it from the provider's [cache]. *)
Definition fresh_members (ns new_obj : handle) (cache : gmap string member) :
    gmap string member :=
  <["_namespace" := MHandle ns]> (<["ole_object" := MHandle new_obj]> cache).

(** ** Kinds of provider calls *)

Inductive call_kind : Type :=
| KCoInitialize | KDispatch | KConnectServer | KWMI | KLastError
| Kquery | KGet | KSpawnInstance | KExecNotificationQuery | KNextEvent
| Kinit | Kgetattr | Kproperty_set | KPath | KPut | Kmethod.

Definition kind_of (e : event) : call_kind :=
  match e with
  | Ev CoInitialize _ => KCoInitialize
  | Ev (Dispatch _) _ => KDispatch
  | Ev (ConnectServer _ _ _ _ _) _ => KConnectServer
  | Ev (WMI _) _ => KWMI
  | Ev SWbemLastError _ => KLastError
  | Ev (query _ _) _ => Kquery
  | Ev (Get _ _) _ => KGet
  | Ev (SpawnInstance_ _) _ => KSpawnInstance
  | Ev (ExecNotificationQuery _ _) _ => KExecNotificationQuery
  | Ev (NextEvent _ _) _ => KNextEvent
  | Ev (wmi_object_init _) _ => Kinit
  | Ev (getattr _ _) _ => Kgetattr
  | Ev (property_set _ _ _) _ => Kproperty_set
  | Ev (Path _) _ => KPath
  | Ev (Put_ _) _ => KPut
  | Ev (method _ _) _ => Kmethod
  end.

Definition kind_eqb (a b : call_kind) : bool :=
  match a, b with
  | KCoInitialize, KCoInitialize | KDispatch, KDispatch
  | KConnectServer, KConnectServer | KWMI, KWMI | KLastError, KLastError
  | Kquery, Kquery | KGet, KGet | KSpawnInstance, KSpawnInstance
  | KExecNotificationQuery, KExecNotificationQuery | KNextEvent, KNextEvent
  | Kinit, Kinit | Kgetattr, Kgetattr | Kproperty_set, Kproperty_set
  | KPath, KPath | KPut, KPut | Kmethod, Kmethod => true
  | _, _ => false
  end.

(** Every call of the trace is of one of the given kinds. *)
Definition only_calls (allowed : list call_kind) (tr : list event) : bool :=
  forallb (fun e => existsb (kind_eqb (kind_of e)) allowed) tr.

(** How many calls of a kind the trace has. *)
Definition count_calls (k : call_kind) (tr : list event) : nat :=
  length (filter (fun e => kind_eqb (kind_of e) k = true) tr).

(** A provider where every call that can fail does, with the sample COM
    error, and that has no error information of its own. *)
Definition failing_reply {X} (c : ext X) : X :=
  match c in ext X return X with
  | CoInitialize => inl (Pywin_com_error sample_com_error)
  | Dispatch _ => inl (Pywin_com_error sample_com_error)
  | ConnectServer _ _ _ _ _ => inl (Pywin_com_error sample_com_error)
  | WMI _ => inl (Pywin_com_error sample_com_error)
  | SWbemLastError => None
  | query _ _ => inl (Pywin_com_error sample_com_error)
  | Get _ _ => inl (Pywin_com_error sample_com_error)
  | SpawnInstance_ _ => inl (Pywin_com_error sample_com_error)
  | ExecNotificationQuery _ _ => inl (Pywin_com_error sample_com_error)
  | NextEvent _ _ => inl (Pywin_com_error sample_com_error)
  | wmi_object_init _ => inl (Pywin_com_error sample_com_error)
  | getattr _ _ => inl (Pywin_com_error sample_com_error)
  | property_set _ _ _ => inl (Pywin_com_error sample_com_error)
  | Path _ => EmptyString
  | Put_ _ => inl (Pywin_com_error sample_com_error)
  | method _ _ => inl (Pywin_com_error sample_com_error)
  end.

Definition failing_provider : forall X, ext X -> unit -> X * unit :=
  fun X c w => (failing_reply c, w).

(** A software event without a previous state and without an alarm. *)
Definition plain_event : wmi_event :=
  Wmi_event [("ID", PInt 314); ("FIRSTNAME", PStr "Valentina")] None.

Definition plain_event_provider : forall X, ext X -> unit -> X * unit :=
  fun X c w =>
    match c in ext X return X * unit with
    | NextEvent _ _ => (inr plain_event, w)
    | c' => (quiet_reply c', w)
    end.

(** ** The class of a wrapped object *)

Definition is_newline (c : ascii) : bool := (nat_of_ascii c =? 10)%nat.

(** The characters up to the end of the line: what [.+] can match. *)
Fixpoint take_line (s : string) : string :=
  match s with
  | EmptyString => EmptyString
  | String c s' => if is_newline c then EmptyString else String c (take_line s')
  end.

Fixpoint no_newline (s : string) : bool :=
  match s with
  | EmptyString => true
  | String c s' => negb (is_newline c) && no_newline s'
  end.

Definition at_line_end (s : string) : bool :=
  match s with
  | EmptyString => true
  | String c _ => is_newline c
  end.

(** [re.search(r"(?<=instance of ).+", text)]: the leftmost place that
    follows the literal "instance of " and is not the end of a line, with
    the rest of that line. *)
Fixpoint search_cls (text : string) : option string :=
  match text with
  | EmptyString => None
  | String _ text' =>
      if String.prefix "instance of " text
         && nonempty (take_line (Str.drop 12 text))
      then Some (take_line (Str.drop 12 text))
      else search_cls text'
  end.

(** [DITElement.wmi_class], on the text [GetObjectText_()] returns: without
    a match, [.group] is looked up on [None]. *)
Definition wmi_class (object_text : string) : result string :=
  match search_cls object_text with
  | Some cls => Ok cls
  | None => Err (AttributeError "'NoneType' object has no attribute 'group'")
  end.

(** [decode_status(device, dit_status)] for a device given by its object
    text and its derivation. *)
Definition decode_status_of (object_text : string) (derivation : list string)
    (dit_status : Z) : result (list string) :=
  match wmi_class object_text with
  | inl e => Err e
  | inr device_cls => Status.decode_status device_cls derivation dit_status
  end.

(** ** Failures in a trace *)

(** No call of the trace was answered with an error. *)
Definition clean (tr : list event) : bool := forallb (fun e => negb (failed e)) tr.

(** After the first call that was answered with an error, the only thing
    asked is the provider's last error. *)
Fixpoint fails_fast (tr : list event) : bool :=
  match tr with
  | [] => true
  | e :: rest =>
      if failed e
      then match rest with
           | [Ev SWbemLastError _] => true
           | _ => false
           end
      else fails_fast rest
  end.

(** The exceptions [handle_error] ends with: the two error classes of the
    module, or the [AttributeError] of [COMError.__init__] on an [x_wmi]
    that carries no [com_error]. *)
Definition is_decoded (e : exn) : bool :=
  match e with
  | DITError _ | COMError _ => true
  | AttributeError msg => String.eqb msg "'NoneType' object has no attribute 'args'"
  | _ => false
  end.

(** A program that stops at the first failed call, raising that call's
    error as it is; its other exceptions are in [S]. *)
Definition stops_at_failure {W : Type} (provider : forall X, ext X -> W -> X * W)
    (S : exn -> Prop) {R} (p : prog R) : Prop :=
  forall w,
    match run provider p w with
    | (inl e, _, tr) =>
        match e with
        | Comi err =>
            exists pre X (c : ext (comres X)),
              tr = pre ++ [Ev c (inl err)] /\ clean pre = true
              /\ failed (Ev c (inl err)) = true
        | _ => fails_fast tr = true /\ S e
        end
    | (inr _, _, tr) => clean tr = true
    end.

(** A program whose failed calls are decoded by [handle_error]; its other
    exceptions are in [S]. *)
Definition decodes {W : Type} (provider : forall X, ext X -> W -> X * W)
    (S : exn -> Prop) {R} (p : prog R) : Prop :=
  forall w,
    match run provider p w with
    | (inl e, _, tr) => fails_fast tr = true /\ (is_decoded e = true \/ S e)
    | (inr _, _, tr) => clean tr = true
    end.

(** A tuple item that is a wrapped object. *)
Definition is_elem (x : query_item) : bool :=
  match x with QElem _ => true | QVal _ => false end.

(** A property read that stays within the given rows and names. *)
Definition reads_within (rows : list handle) (names : list string) (e : event) : bool :=
  match e with
  | Ev (getattr r name) _ => bool_decide (r ∈ rows) && bool_decide (name ∈ names)
  | _ => true
  end.

(** Error information that names neither an operation nor a description
    and whose text has no status code, and a provider that reports it. *)
Definition bare_lnl_error : lnl_error :=
  Lnl_error PNone (PStr "Lnl_Reader") (PStr "") "instance of Lnl_Error { };".

Definition bare_provider : forall X, ext X -> unit -> X * unit :=
  fun X c w =>
    match c in ext X return X * unit with
    | SWbemLastError => (Some bare_lnl_error, w)
    | c' => (quiet_reply c', w)
    end.

(** ** Reference notions the statements use *)

(** The notification query of a software subscription. *)
Definition notification_wql (TargetCls : string) (operation : option string) : string :=
  "select * from " +:+ default SWOperationEvent operation
    +:+ " where TargetInstance ISA '" +:+ TargetCls +:+ "'".

(** The two queries of [open_door]. *)
Definition panel_wql (panel : string) : string :=
  "select ID from Lnl_Panel where NAME = " +:+ dquote +:+ panel +:+ dquote.

Definition reader_wql (id : pyval) (reader : string) : string :=
  "select * from Lnl_Reader where PanelID = " +:+ py_str id
    +:+ " and Name = " +:+ dquote +:+ reader +:+ dquote.

(** The message of [_not_found_error]. *)
Definition not_found (obj qualifier : string) : exn :=
  Comi (X_wmi (obj +:+ " " +:+ dquote +:+ qualifier +:+ dquote +:+ " not found.") None).

(** [kw] is the keyword " from" in some mix of cases. *)
Definition is_from (kw : string) : Prop := Str.eq_nocase kw " from" = true.

(** [before] is the part of [wql] in front of the first " from". *)
Definition first_from (wql before : string) : Prop :=
  (exists kw rest, wql = before +:+ kw +:+ rest /\ is_from kw)
  /\ (forall b kw rest, wql = b +:+ kw +:+ rest -> is_from kw ->
        (String.length before <= String.length b)%nat).

(** [tok] is [raw] without its leading and trailing whitespace. *)
Definition trimmed (raw tok : string) : Prop :=
  exists l r,
    raw = l +:+ tok +:+ r
    /\ Str.all_space l = true /\ Str.all_space r = true
    /\ Str.starts_with_space tok = false /\ Str.ends_with_space tok = false.

(** [pieces] are the fields of [text] between its commas. *)
Definition comma_separated (text : string) (pieces : list string) : Prop :=
  Str.join "," pieces = text
  /\ pieces <> []
  /\ Forall (fun p => Str.contains_char "," p = false) pieces.

(** The property names of a data query, in the spec's words: the
    comma-separated, whitespace-trimmed tokens between character position 7
    and the first " from" in any case. *)
Definition select_tokens (wql : string) (properties : list string) : Prop :=
  exists before pieces,
    first_from wql before
    /\ comma_separated (Str.drop 7 before) pieces
    /\ Forall2 trimmed pieces properties.

(** A code is encoded in a status word when it is the zero code or shares a
    set bit with the word. *)
Definition encodes (status code : Z) : Prop :=
  code = 0 \/ exists i, 0 <= i /\ Z.testbit code i = true /\ Z.testbit status i = true.

(** [picks P d l]: [l] lists, in the order of [d], the values of exactly
    the entries of [d] whose key satisfies [P]. *)
Inductive picks (P : Z -> Prop) : OD.t -> list string -> Prop :=
| picks_nil : picks P [] []
| picks_take k v d l : P k -> picks P d l -> picks P ((k, v) :: d) (v :: l)
| picks_skip k v d l : ~ P k -> picks P d l -> picks P ((k, v) :: d) l.

(** A code with exactly one bit set. *)
Definition single_bit (c : Z) : bool := (0 <? c) && (c =? 2 ^ Z.log2 c).

(** The status word that ORs the codes of a selection of entries. *)
Definition or_codes (sel : OD.t) : Z :=
  fold_right (fun kv acc => Z.lor (fst kv) acc) 0 sel.

(** * Properties *)

(** ** Status tables *)
Module StatusFacts.
Import Status.

Lemma land_nonzero_bit a b :
  Z.land a b <> 0 <->
  exists i, 0 <= i /\ Z.testbit a i = true /\ Z.testbit b i = true.
Proof.
  split.
  - intros Hne.
    assert (Hbit : exists i, 0 <= i /\ Z.testbit (Z.land a b) i = true).
    { destruct (Z.lt_trichotomy (Z.land a b) 0) as [Hneg | [H0 | Hpos]].
      - exists (Z.succ (Z.log2 (Z.abs (Z.land a b)))). split.
        + pose proof (Z.log2_nonneg (Z.abs (Z.land a b))). lia.
        + apply Z.bits_iff_neg; [lia | exact Hneg].
      - contradiction.
      - exists (Z.log2 (Z.land a b)). split.
        + apply Z.log2_nonneg.
        + apply Z.bit_log2. exact Hpos. }
    destruct Hbit as (i & Hi & Hb).
    rewrite Z.land_spec in Hb. apply andb_true_iff in Hb.
    exists i. tauto.
  - intros (i & Hi & Ha & Hb) H0.
    assert (Hl : Z.testbit (Z.land a b) i = true)
      by (rewrite Z.land_spec, Ha, Hb; reflexivity).
    rewrite H0, Z.bits_0 in Hl. discriminate.
Qed.

Lemma selects_encodes status code :
  selects status code = true <-> encodes status code.
Proof.
  unfold selects, encodes. rewrite orb_true_iff, negb_true_iff, Z.eqb_neq, Z.eqb_eq.
  rewrite land_nonzero_bit. tauto.
Qed.

Lemma getitem_app_notin pre k v suf :
  k ∉ OD.keys pre -> OD.getitem (pre ++ (k, v) :: suf) k = Some v.
Proof.
  induction pre as [| [k' v'] pre IH]; simpl; intros Hk.
  - rewrite Z.eqb_refl. reflexivity.
  - destruct (Z.eqb_spec k' k) as [-> | Hne].
    + exfalso. apply Hk. left.
    + apply IH. intros Hin. apply Hk. right. exact Hin.
Qed.

Lemma decode_body_suffix pre suf status :
  NoDup (OD.keys (pre ++ suf)) ->
  exists l,
    mapM_result (lookup_or_raise (pre ++ suf))
      (filter (fun code => selects status code = true) (OD.keys suf)) = Ok l
    /\ picks (encodes status) suf l.
Proof.
  revert pre. induction suf as [| [k v] suf IH]; intros pre Hnd.
  - exists []. split; [reflexivity | constructor].
  - assert (Hk : k ∉ OD.keys pre).
    { unfold OD.keys in *. rewrite map_app in Hnd. simpl in Hnd.
      apply NoDup_app in Hnd as (_ & Hdisj & _).
      intros Hin. apply (Hdisj k Hin). left. }
    specialize (IH (pre ++ [(k, v)])).
    rewrite <- app_assoc in IH. simpl in IH.
    destruct (IH Hnd) as (l & Hl & Hp).
    simpl. rewrite filter_cons.
    destruct (decide (selects status k = true)) as [Hs | Hs].
    + exists (v :: l). split.
      * simpl. unfold lookup_or_raise at 1.
        rewrite (getitem_app_notin pre k v suf Hk).
        unfold Ok at 1. rewrite Hl. reflexivity.
      * apply picks_take; [apply selects_encodes; exact Hs | exact Hp].
    + exists l. split.
      * exact Hl.
      * apply picks_skip; [rewrite <- selects_encodes; exact Hs | exact Hp].
Qed.

Lemma picks_functional P d l1 l2 : picks P d l1 -> picks P d l2 -> l1 = l2.
Proof.
  intros H1. revert l2.
  induction H1; intros l2 H2; inversion H2; subst; try contradiction; auto.
  f_equal. auto.
Qed.

Lemma picks_selection P d sel :
  NoDup (OD.keys d) -> sel `sublist_of` d ->
  (forall k, k ∈ OD.keys d -> (P k <-> k ∈ OD.keys sel)) ->
  picks P d (map snd sel).
Proof.
  intros Hnd Hsub. induction Hsub as [| [k v] l1 l2 Hsub IH | [k v] l1 l2 Hsub IH];
    intros HP; simpl in *.
  - constructor.
  - apply NoDup_cons in Hnd as [Hk Hnd].
    apply picks_take.
    + apply HP; left.
    + apply IH; [exact Hnd |]. intros k' Hk'.
      rewrite (HP k') by (right; exact Hk').
      rewrite elem_of_cons. split; [| tauto].
      intros [-> | ?]; [contradiction | assumption].
  - apply NoDup_cons in Hnd as [Hk Hnd].
    apply picks_skip.
    + rewrite (HP k) by left. intros Hin. apply Hk.
      unfold OD.keys in *. apply list_elem_of_fmap in Hin as (kv & -> & Hin).
      apply list_elem_of_fmap. exists kv. split; [reflexivity |].
      eapply elem_of_sublist; eauto.
    + apply IH; [exact Hnd |]. intros k' Hk'. apply HP. right. exact Hk'.
Qed.

Lemma or_codes_bit sel i :
  Z.testbit (or_codes sel) i = true <->
  exists c, c ∈ OD.keys sel /\ Z.testbit c i = true.
Proof.
  induction sel as [| [k v] sel IH]; simpl.
  - rewrite Z.bits_0. split; [discriminate |].
    intros (c & Hc & _). inversion Hc.
  - rewrite Z.lor_spec, orb_true_iff, IH. split.
    + intros [Hk | (c & Hc & Hb)].
      * exists k. split; [left | exact Hk].
      * exists c. split; [right; exact Hc | exact Hb].
    + intros (c & Hc & Hb). apply elem_of_cons in Hc as [-> | Hc].
      * left; exact Hb.
      * right. exists c. tauto.
Qed.

Lemma single_bit_spec c :
  single_bit c = true ->
  c <> 0 /\ forall i, Z.testbit c i = true <-> i = Z.log2 c.
Proof.
  unfold single_bit. rewrite andb_true_iff, Z.ltb_lt, Z.eqb_eq.
  intros [Hpos Hc]. split; [lia |].
  intros i. rewrite Hc at 1.
  rewrite Z.pow2_bits_eqb by apply Z.log2_nonneg.
  rewrite Z.eqb_eq. split; congruence.
Qed.

Lemma encodes_or_codes d sel k :
  Forall (fun c => single_bit c = true) (OD.keys d) ->
  sel `sublist_of` d -> k ∈ OD.keys d ->
  encodes (or_codes sel) k <-> k ∈ OD.keys sel.
Proof.
  intros Hsb Hsub Hk. rewrite Forall_forall in Hsb.
  assert (Hkeys : forall c, c ∈ OD.keys sel -> c ∈ OD.keys d).
  { intros c Hc. unfold OD.keys in *.
    apply list_elem_of_fmap in Hc as (kv & -> & Hin).
    apply list_elem_of_fmap. exists kv. split; [reflexivity |].
    eapply elem_of_sublist; eauto. }
  destruct (single_bit_spec k (Hsb k Hk)) as [Hk0 Hkb].
  unfold encodes. split.
  - intros [H0 | (i & Hi & Hki & Hsi)]; [contradiction |].
    apply or_codes_bit in Hsi as (c & Hc & Hci).
    destruct (single_bit_spec c (Hsb c (Hkeys c Hc))) as [_ Hcb].
    apply Hkb in Hki. apply Hcb in Hci.
    assert (Hck : c = k).
    { pose proof (Hsb c (Hkeys c Hc)) as Hsc. pose proof (Hsb k Hk) as Hsk.
      unfold single_bit in Hsc, Hsk.
      apply andb_true_iff in Hsc as [_ Hsc]. apply andb_true_iff in Hsk as [_ Hsk].
      apply Z.eqb_eq in Hsc, Hsk. rewrite Hsc, Hsk. congruence. }
    subst c. exact Hc.
  - intros Hin. right. exists (Z.log2 k). split; [apply Z.log2_nonneg |]. split.
    + apply Hkb. reflexivity.
    + apply or_codes_bit. exists k. split; [exact Hin | apply Hkb; reflexivity].
Qed.

Lemma keys_in_iff (d : OD.t) k : k ∈ OD.keys d <-> is_Some (OD.getitem d k).
Proof.
  induction d as [| [k' v'] d IH]; simpl.
  - split; [intros Hin; inversion Hin | intros [? ?]; discriminate].
  - rewrite elem_of_cons. destruct (Z.eqb_spec k' k) as [-> | Hne].
    + split; [intros _; eauto | intros _; left; reflexivity].
    + rewrite <- IH. split; [intros [-> | ?]; [contradiction | assumption] | tauto].
Qed.

(** C6 (as amended): a table that inherits [HWStatus.decode] returns, in
    insertion order, the value of exactly the entries whose code is zero or
    shares a set bit with the status word; when the codes are single bits,
    decoding the OR of any selection of entries gives back that
    selection. *)
Theorem decode_inherited_lists_encoded (self : hwstatus) (status : Z) :
  decode_of self = HWStatus_decode ->
  NoDup (OD.keys (items self)) ->
  (exists l, decode self status = Ok l /\ picks (encodes status) (items self) l)
  /\ (Forall (fun c => single_bit c = true) (OD.keys (items self)) ->
      forall sel, sel `sublist_of` items self ->
        decode self (or_codes sel) = Ok (map snd sel)).
Proof.
  intros Hm Hnd. unfold decode. rewrite Hm. unfold HWStatus_decode_body. split.
  - apply (decode_body_suffix [] (items self) status Hnd).
  - intros Hsb sel Hsub.
    destruct (decode_body_suffix [] (items self) (or_codes sel) Hnd) as (l & Hl & Hp).
    simpl in Hl. rewrite Hl. f_equal.
    eapply picks_functional; [exact Hp |].
    apply picks_selection; [exact Hnd | exact Hsub |].
    intros k Hk. eapply encodes_or_codes; eauto.
Qed.

(** The word 0x301 on the reader table: bits 0x1 and 0x100 are reader
    codes, bit 0x200 is not. *)
Lemma decode_inherited_lists_encoded_witness :
  decode_of READER_STATUS = HWStatus_decode
  /\ NoDup (OD.keys (items READER_STATUS))
  /\ (exists l, decode READER_STATUS 0x301 = Ok l
                /\ picks (encodes 0x301) (items READER_STATUS) l).
Proof.
  assert (Hnd : NoDup (OD.keys (items READER_STATUS))).
  { apply (bool_decide_unpack _). vm_compute. exact I. }
  split; [reflexivity |]. split; [exact Hnd |].
  exact (proj1 (decode_inherited_lists_encoded READER_STATUS 0x301 eq_refl Hnd)).
Defined.

(** C6 as stated fails on the input table: 6 is no key of it, and its
    [decode] raises instead of returning a list. *)
Lemma decode_every_table_counterexample :
  ~ (forall (self : hwstatus) (status : Z),
       exists l, decode self status = Ok l /\ picks (encodes status) (items self) l).
Proof.
  intros Hall. destruct (Hall INPUT_STATUS 6) as (l & Hl & _).
  vm_compute in Hl. discriminate.
Qed.

(** The built-in tables that inherit [decode] have distinct single-bit
    codes, so the round trip applies to each of them. *)
Lemma builtin_tables_single_bit :
  Forall (fun t => decode_of t = HWStatus_decode
                   /\ NoDup (OD.keys (items t))
                   /\ Forall (fun c => single_bit c = true) (OD.keys (items t)))
         [PANEL_STATUS; ALARM_PANEL_STATUS; READER_STATUS].
Proof.
  repeat constructor; try (apply (bool_decide_unpack _); vm_compute; exact I).
Qed.

(** C10: a table with the [_OutputStatus] override answers with the one
    value stored under the status when the status is a key, and raises
    [KeyError] for every other integer; these are the tables of the alarm
    and reader input and output classes. *)
Theorem decode_output_input_exact (self : hwstatus) (status : Z) :
  self = OUTPUT_STATUS \/ self = INPUT_STATUS ->
  (status ∈ OD.keys (items self) ->
     exists v, OD.getitem (items self) status = Some v /\ decode self status = Ok [v])
  /\ (status ∉ OD.keys (items self) -> decode self status = Err (KeyError status))
  /\ Forall (fun c => status_cls_get _status_cls c = Some INPUT_STATUS)
       ["Lnl_AlarmInput"; "Lnl_ReaderInput"; "Lnl_ReaderInput1"; "Lnl_ReaderInput2"]
  /\ Forall (fun c => status_cls_get _status_cls c = Some OUTPUT_STATUS)
       ["Lnl_AlarmOutput"; "Lnl_ReaderOutput"; "Lnl_ReaderOutput1"; "Lnl_ReaderOutput2"].
Proof.
  intros Hself.
  assert (Hm : decode_of self = OutputStatus_decode) by (destruct Hself; subst; reflexivity).
  unfold decode. rewrite Hm. unfold OutputStatus_decode_body, lookup_or_raise.
  split; [| split; [| split]].
  - intros Hin. apply keys_in_iff in Hin as [v Hv]. exists v. rewrite Hv. auto.
  - intros Hnin. destruct (OD.getitem (items self) status) as [v |] eqn:Hv; [| reflexivity].
    exfalso. apply Hnin. apply keys_in_iff. eauto.
  - repeat constructor.
  - repeat constructor.
Qed.

(** 3 is a key of the input table (although 3 = 1 | 2), 6 is not. *)
Lemma decode_output_input_exact_witness :
  decode INPUT_STATUS 3 = Ok ["ALRM_STATUS_SHRT_FLT"]
  /\ decode INPUT_STATUS 6 = Err (KeyError 6).
Proof.
  destruct (decode_output_input_exact INPUT_STATUS 3 (or_intror eq_refl))
    as (H3 & _).
  destruct (decode_output_input_exact INPUT_STATUS 6 (or_intror eq_refl))
    as (_ & H6 & _).
  split.
  - destruct H3 as (v & Hv & Hd).
    + apply (bool_decide_unpack _). vm_compute. exact I.
    + vm_compute in Hv. injection Hv as <-. exact Hd.
  - apply H6. apply (bool_decide_unpack _). vm_compute. exact I.
Defined.

End StatusFacts.

(** ** Strings *)
Module StrFacts.

Lemma append_cons c s t : String c s +:+ t = String c (s +:+ t).
Proof. reflexivity. Qed.

Lemma append_nil_l t : "" +:+ t = t.
Proof. reflexivity. Qed.

Lemma append_nil_r s : s +:+ "" = s.
Proof. induction s as [| c s IH]; [reflexivity |]. rewrite append_cons, IH. reflexivity. Qed.

Lemma append_assoc a b c : (a +:+ b) +:+ c = a +:+ (b +:+ c).
Proof.
  induction a as [| x a IH]; [reflexivity |].
  rewrite !append_cons, IH. reflexivity.
Qed.

Lemma length_append a b :
  String.length (a +:+ b) = (String.length a + String.length b)%nat.
Proof.
  induction a as [| x a IH]; [reflexivity |].
  rewrite append_cons. cbn [String.length]. rewrite IH. reflexivity.
Qed.

Lemma append_inj_length a a' b b' :
  a +:+ b = a' +:+ b' -> String.length a = String.length a' -> a = a' /\ b = b'.
Proof.
  revert a'. induction a as [| x a IH]; intros [| x' a'] Heq Hlen; try discriminate.
  - auto.
  - rewrite !append_cons in Heq. injection Heq as -> Heq.
    injection Hlen as Hlen. destruct (IH a' Heq Hlen) as [-> ->]. auto.
Qed.

Lemma take_drop n s : Str.take n s +:+ Str.drop n s = s.
Proof.
  revert s. induction n as [| n IH]; intros [| c s]; try reflexivity.
  cbn [Str.take Str.drop]. rewrite append_cons, IH. reflexivity.
Qed.

Lemma length_take n s : String.length (Str.take n s) = Nat.min n (String.length s).
Proof.
  revert s. induction n as [| n IH]; intros [| c s]; try reflexivity.
  cbn [Str.take String.length]. rewrite IH. reflexivity.
Qed.

Lemma take_append a b : Str.take (String.length a) (a +:+ b) = a.
Proof.
  induction a as [| x a IH]; [destruct b; reflexivity |].
  rewrite append_cons. cbn [String.length Str.take]. rewrite IH. reflexivity.
Qed.

Lemma drop_append a b : Str.drop (String.length a) (a +:+ b) = b.
Proof.
  induction a as [| x a IH]; [reflexivity |].
  rewrite append_cons. cbn [String.length Str.drop]. exact IH.
Qed.

Lemma prefix_split p s :
  String.prefix p s = true -> s = p +:+ Str.drop (String.length p) s.
Proof.
  revert s. induction p as [| a p IH]; intros s Hp.
  - reflexivity.
  - destruct s as [| b s]; [discriminate |].
    cbn [String.prefix] in Hp.
    destruct (Ascii.ascii_dec a b) as [Hab | Hne]; [| discriminate].
    subst b. cbn [String.length Str.drop].
    rewrite (IH s Hp) at 1. reflexivity.
Qed.

Lemma prefix_append p t : String.prefix p (p +:+ t) = true.
Proof.
  induction p as [| a p IH]; [destruct t; reflexivity |].
  rewrite append_cons. cbn [String.prefix].
  destruct (Ascii.ascii_dec a a) as [_ | Hne]; [exact IH | contradiction].
Qed.

(** [find] returns the position of the first occurrence. *)
Lemma find_first sub s i :
  Str.find sub s = Some i ->
  exists pre post,
    s = pre +:+ sub +:+ post /\ String.length pre = i
    /\ forall pre' post', s = pre' +:+ sub +:+ post' -> (i <= String.length pre')%nat.
Proof.
  revert i. induction s as [| c s IH]; intros i.
  - cbn [Str.find]. destruct (String.prefix sub "") eqn:Hp; [| discriminate].
    intros [= <-]. exists "", (Str.drop (String.length sub) "").
    split; [apply (prefix_split _ _ Hp) |]. split; [reflexivity |]. intros; lia.
  - cbn [Str.find]. destruct (String.prefix sub (String c s)) eqn:Hp.
    + intros [= <-]. exists "", (Str.drop (String.length sub) (String c s)).
      split; [apply (prefix_split _ _ Hp) |]. split; [reflexivity |]. intros; lia.
    + destruct (Str.find sub s) as [i' |] eqn:Hf; [| discriminate].
      intros [= <-]. destruct (IH i' eq_refl) as (pre & post & -> & Hlen & Hmin).
      exists (String c pre), post. split; [reflexivity |].
      split; [cbn [String.length]; lia |].
      intros [| c' pre'] post' Heq.
      * rewrite append_nil_l in Heq. rewrite Heq, prefix_append in Hp. discriminate.
      * rewrite append_cons in Heq. injection Heq as -> Heq.
        specialize (Hmin pre' post' Heq). cbn [String.length]. lia.
Qed.

Lemma find_none sub s :
  Str.find sub s = None -> forall pre post, s <> pre +:+ sub +:+ post.
Proof.
  induction s as [| c s IH]; cbn [Str.find].
  - destruct (String.prefix sub "") eqn:Hp; [discriminate |].
    intros _ [| c' pre] post Heq; [| destruct sub; discriminate].
    rewrite append_nil_l in Heq. rewrite Heq, prefix_append in Hp. discriminate.
  - destruct (String.prefix sub (String c s)) eqn:Hp; [discriminate |].
    destruct (Str.find sub s) eqn:Hf; [discriminate |].
    intros _ [| c' pre] post Heq.
    + rewrite append_nil_l in Heq. rewrite Heq, prefix_append in Hp. discriminate.
    + rewrite append_cons in Heq. injection Heq as -> Heq.
      exact (IH eq_refl pre post Heq).
Qed.

Lemma lower_append a b : Str.lower (a +:+ b) = Str.lower a +:+ Str.lower b.
Proof.
  induction a as [| x a IH]; [reflexivity |].
  rewrite append_cons. cbn [Str.lower]. rewrite IH, append_cons. reflexivity.
Qed.

Lemma length_lower s : String.length (Str.lower s) = String.length s.
Proof. induction s as [| c s IH]; [reflexivity |]. cbn [Str.lower String.length]. lia. Qed.

Lemma eq_nocase_lower s t : Str.eq_nocase s t = true <-> Str.lower s = Str.lower t.
Proof.
  revert t. induction s as [| a s IH]; intros [| b t]; cbn [Str.eq_nocase Str.lower];
    try (split; [discriminate | discriminate]); [tauto |].
  rewrite andb_true_iff, Ascii.eqb_eq, IH. split.
  - intros [-> ->]. reflexivity.
  - intros [= -> ->]. auto.
Qed.

(** The first " from" of the lowered query marks the first " from", in
    any case, of the query itself. *)
Lemma find_first_from wql i :
  Str.find " from" (Str.lower wql) = Some i -> first_from wql (Str.take i wql).
Proof.
  intros Hf. destruct (find_first _ _ _ Hf) as (pre & post & Hlow & Hlen & Hmin).
  assert (Hi : (i <= String.length wql)%nat).
  { rewrite <- (length_lower wql), Hlow, length_append. lia. }
  assert (Hd : String.length (Str.drop i wql) = (String.length wql - i)%nat).
  { pose proof (f_equal String.length (take_drop i wql)) as Hl.
    rewrite length_append, length_take in Hl. lia. }
  assert (Hpost : (5 <= String.length wql - i)%nat).
  { pose proof (f_equal String.length Hlow) as Hl.
    rewrite length_lower, !length_append in Hl. cbn [String.length] in Hl. lia. }
  assert (Hsplit : wql = Str.take i wql +:+ Str.take 5 (Str.drop i wql)
                           +:+ Str.drop 5 (Str.drop i wql)).
  { rewrite take_drop, take_drop. reflexivity. }
  split.
  - exists (Str.take 5 (Str.drop i wql)), (Str.drop 5 (Str.drop i wql)).
    split; [exact Hsplit |].
    unfold is_from. apply eq_nocase_lower.
    rewrite Hsplit, !lower_append in Hlow.
    apply append_inj_length in Hlow as [_ Hrest].
    + apply append_inj_length in Hrest as [Hkw _]; [exact Hkw |].
      rewrite length_lower, length_take, Hd. cbn [String.length]. lia.
    + rewrite length_lower, length_take. lia.
  - intros b kw rest Heq Hkw.
    rewrite length_take, Nat.min_l by exact Hi.
    apply eq_nocase_lower in Hkw. cbn [Str.lower] in Hkw.
    assert (Hlow' : Str.lower wql = Str.lower b +:+ " from" +:+ Str.lower rest).
    { rewrite Heq, !lower_append, Hkw. reflexivity. }
    specialize (Hmin _ _ Hlow'). rewrite length_lower in Hmin. exact Hmin.
Qed.

Lemma split_nonempty sep s : Str.split sep s <> [].
Proof.
  destruct s as [| c s]; cbn [Str.split]; [discriminate |].
  destruct (Ascii.eqb c sep); [discriminate |].
  destruct (Str.split sep s); discriminate.
Qed.

(** Splitting at a character and joining with it again is the identity,
    and no field contains the character. *)
Lemma join_split sep s : Str.join (String sep "") (Str.split sep s) = s.
Proof.
  induction s as [| c s IH]; [reflexivity |].
  cbn [Str.split]. destruct (Ascii.eqb_spec c sep) as [-> | Hne].
  - pose proof (split_nonempty sep s) as Hs.
    destruct (Str.split sep s) as [| p ps] eqn:Hsp; [contradiction |].
    cbn [Str.join] in *. rewrite append_nil_l, append_cons, append_nil_l, IH.
    reflexivity.
  - pose proof (split_nonempty sep s) as Hs.
    destruct (Str.split sep s) as [| p ps] eqn:Hsp; [contradiction |].
    destruct ps as [| p' ps].
    + cbn [Str.join] in *. rewrite IH. reflexivity.
    + cbn [Str.join] in *. rewrite append_cons, IH. reflexivity.
Qed.

Lemma split_fields sep s :
  Forall (fun p => Str.contains_char sep p = false) (Str.split sep s).
Proof.
  induction s as [| c s IH]; [repeat constructor |].
  cbn [Str.split]. destruct (Ascii.eqb c sep) eqn:Hc.
  - constructor; [reflexivity | exact IH].
  - destruct (Str.split sep s) as [| p ps].
    + constructor; [| constructor]. cbn [Str.contains_char]. rewrite Hc. reflexivity.
    + apply Forall_cons in IH as [Hp Hps]. constructor; [| exact Hps].
      cbn [Str.contains_char]. rewrite Hc, Hp. reflexivity.
Qed.

Lemma lstrip_split s :
  exists l, s = l +:+ Str.lstrip s /\ Str.all_space l = true
            /\ Str.starts_with_space (Str.lstrip s) = false.
Proof.
  induction s as [| c s (l & Hs & Hl & Hst)].
  - exists "". auto.
  - cbn [Str.lstrip]. destruct (Str.is_space c) eqn:Hc.
    + exists (String c l). rewrite append_cons, <- Hs.
      cbn [Str.all_space]. rewrite Hc, Hl. auto.
    + exists "". cbn [Str.starts_with_space]. auto.
Qed.

Lemma rstrip_empty s : Str.all_space s = true -> Str.rstrip s = "".
Proof. destruct s as [| c s]; [reflexivity |]. cbn [Str.rstrip]. intros ->. reflexivity. Qed.

Lemma rstrip_split s :
  exists r, s = Str.rstrip s +:+ r /\ Str.all_space r = true
            /\ Str.ends_with_space (Str.rstrip s) = false
            /\ Str.starts_with_space (Str.rstrip s)
               = Str.starts_with_space s && negb (Str.all_space s).
Proof.
  induction s as [| c s (r & Hs & Hr & Hend & Hst)].
  - exists "". auto.
  - cbn [Str.rstrip]. destruct (Str.all_space (String c s)) eqn:Hall.
    + exists (String c s). rewrite andb_false_r. auto.
    + exists r. rewrite append_cons, <- Hs. rewrite andb_true_r.
      split; [reflexivity |]. split; [exact Hr |]. split; [| reflexivity].
      cbn [Str.ends_with_space].
      destruct (Str.rstrip s) as [| c' s'] eqn:Hrs; [| exact Hend].
      cbn [Str.all_space] in Hall. apply andb_false_iff in Hall as [Hc | Hsp]; [exact Hc |].
      exfalso. rewrite append_nil_l in Hs. subst r. congruence.
Qed.

(** [strip] removes exactly the whitespace at both ends. *)
Lemma strip_trimmed s : trimmed s (Str.strip s).
Proof.
  unfold trimmed, Str.strip.
  destruct (lstrip_split s) as (l & Hs & Hl & Hst).
  destruct (rstrip_split (Str.lstrip s)) as (r & Hr & Hrs & Hend & Hstart).
  exists l, r. split; [| split; [| split; [| split]]]; auto.
  - rewrite <- Hr. exact Hs.
  - rewrite Hstart, Hst. reflexivity.
Qed.

(** The property names [data_query] works with are the tokens of the
    select list in the sense of [select_tokens]; without a " from" in
    the query there are none, and the parse fails. *)
Lemma properties_of_select_tokens wql :
  match properties_of wql with
  | inr properties => select_tokens wql properties
  | inl _ => forall before kw rest, wql = before +:+ kw +:+ rest -> ~ is_from kw
  end.
Proof.
  unfold properties_of.
  destruct (Str.find " from" (Str.lower wql)) as [i |] eqn:Hf.
  - exists (Str.take i wql), (Str.split "," (Str.slice 7 i wql)).
    split; [exact (find_first_from wql i Hf) |]. split.
    + unfold comma_separated, Str.slice.
      split; [apply (join_split ","%char) |].
      split; [apply split_nonempty | apply split_fields].
    + induction (Str.split "," (Str.slice 7 i wql)) as [| p ps IH]; constructor.
      * apply strip_trimmed.
      * exact IH.
  - intros before kw rest Heq Hkw.
    apply eq_nocase_lower in Hkw. cbn [Str.lower] in Hkw.
    apply (find_none _ _ Hf (Str.lower before) (Str.lower rest)).
    rewrite Heq, !lower_append, Hkw. reflexivity.
Qed.

End StrFacts.

(** ** Running programs *)
Section RunFacts.
Context `{Wmii} {W : Type} (provider : forall X, ext X -> W -> X * W).

Lemma run_bind {A B} (p : prog A) (f : A -> prog B) (w : W) :
  run provider (p ≫= f) w =
  match run provider p w with
  | (inr a, w', tr) =>
      let '(r, w'', tr') := run provider (f a) w' in (r, w'', tr ++ tr')
  | (inl e, w', tr) => (inl e, w', tr)
  end.
Proof.
  unfold mbind, prog_bind. revert w.
  induction p as [a | e | X c k IH]; intros w; simpl.
  - destruct (run provider (f a) w) as [[r w''] tr']. reflexivity.
  - reflexivity.
  - destruct (provider X c w) as [x w']. rewrite IH.
    destruct (run provider (k x) w') as [[[e | a] w''] tr]; [reflexivity |].
    destruct (run provider (f a) w'') as [[r w3] tr']. reflexivity.
Qed.

Lemma run_try_except_COMI {R} (p : prog R) (w : W) :
  run provider (try_except_COMI p) w =
  match run provider p w with
  | (inl (Comi err), w', tr) =>
      let '(r, w'', tr') := run provider (handle_error err) w' in (r, w'', tr ++ tr')
  | other => other
  end.
Proof.
  revert w. induction p as [a | e | X c k IH]; intros w.
  - reflexivity.
  - destruct e; try reflexivity.
    change (run provider (@handle_error _ R e) w =
            let '(r, w'', tr') := run provider (@handle_error _ R e) w in
            (r, w'', [] ++ tr')).
    destruct (run provider (@handle_error _ R e) w) as [[r w''] tr']. reflexivity.
  - cbn [try_except_COMI run].
    destruct (provider X c w) as [x w']. rewrite IH.
    destruct (run provider (k x) w') as [[[e | a] w''] tr]; [| reflexivity].
    destruct e; try reflexivity.
    destruct (run provider (handle_error e) w'') as [[r w3] tr']. reflexivity.
Qed.

Lemma run_ret {R} (r : R) (w : W) : run provider (Ret r) w = (Ok r, w, []).
Proof. reflexivity. Qed.

Lemma run_mret {R} (r : R) (w : W) : run provider (mret r) w = (Ok r, w, []).
Proof. reflexivity. Qed.

Lemma run_raise {R} (e : exn) (w : W) : run provider (@Raise R e) w = (Err e, w, []).
Proof. reflexivity. Qed.

Lemma run_handle_error {R} (err : comi_error) (w : W) :
  exists e,
    run provider (@handle_error _ R err) w =
    (Err e, snd (provider _ SWbemLastError w),
     [Ev SWbemLastError (fst (provider _ SWbemLastError w))]).
Proof.
  unfold handle_error, dit_error_info, ask, mbind, prog_bind. simpl.
  destruct (provider _ SWbemLastError w) as [[dit_err |] w']; simpl.
  - destruct (DITError_init dit_err err); simpl; eauto.
  - destruct (COMError_init err); simpl; eauto.
Qed.

Lemma run_call {X} (c : ext (comres X)) (w : W) :
  run provider (call c) w =
  match provider _ c w with
  | (inl err, w') => (Err (Comi err), w', [Ev c (inl err)])
  | (inr x, w') => (Ok x, w', [Ev c (inr x)])
  end.
Proof.
  unfold call. simpl. destruct (provider _ c w) as [[err | x] w']; reflexivity.
Qed.

Lemma run_ask {X} (c : ext X) (w : W) :
  run provider (ask c) w =
  let '(x, w') := provider _ c w in (Ok x, w', [Ev c x]).
Proof. unfold ask. simpl. destruct (provider _ c w). reflexivity. Qed.

(** [handle_error] never returns. *)
Lemma handle_error_raises {R} (err : comi_error) (w : W) :
  exists e, outcome provider (@handle_error _ R err) w = Err e.
Proof.
  unfold outcome, handle_error, dit_error_info, ask, mbind, prog_bind. simpl.
  destruct (provider _ SWbemLastError w) as [[dit_err |] w']; simpl.
  - destruct (DITError_init dit_err err); simpl; eauto.
  - destruct (COMError_init err); simpl; eauto.
Qed.

End RunFacts.

(** ** Decoding wrapped errors *)
Section ErrorFacts.
Context `{Wmii} {W : Type} (provider : forall X, ext X -> W -> X * W).

Lemma take_digits_split s :
  exists rest, s = Str.take_digits s +:+ rest
               /\ Str.all_digits (Str.take_digits s) = true
               /\ Str.starts_with_digit rest = false.
Proof.
  induction s as [| c s (rest & Hs & Hd & Hr)]; simpl.
  - exists EmptyString. auto.
  - destruct (Str.is_digit c) eqn:Hc.
    + exists rest. simpl. rewrite Hc, Hd.
      split; [rewrite StrFacts.append_cons; f_equal; exact Hs | auto].
    + exists (String c s). simpl. rewrite Hc. auto.
Qed.

(** What the status-code pattern finds is a maximal run of digits right
    after the literal. *)
Lemma search_stat_code_sound text digits :
  search_stat_code text = Some digits ->
  exists before rest,
    text = before +:+ "StatusCode = " +:+ digits +:+ rest
    /\ digits <> EmptyString
    /\ Str.all_digits digits = true
    /\ Str.starts_with_digit rest = false.
Proof.
  induction text as [| c text IH]; [discriminate |].
  cbn [search_stat_code].
  destruct (String.prefix "StatusCode = " (String c text)
            && negb (String.eqb (Str.take_digits (Str.drop 13 (String c text))) ""))
    eqn:Hm.
  - intros [= <-]. apply andb_true_iff in Hm as [Hp Hne].
    apply StrFacts.prefix_split in Hp.
    destruct (take_digits_split (Str.drop 13 (String c text))) as (rest & Hs & Hd & Hr).
    exists EmptyString, rest. split; [| split; [| split]].
    + change (String.length "StatusCode = ") with 13%nat in Hp.
      exact (eq_trans Hp (f_equal (String.append "StatusCode = ") Hs)).
    + apply negb_true_iff, String.eqb_neq in Hne. exact Hne.
    + exact Hd.
    + exact Hr.
  - intros Hs. destruct (IH Hs) as (before & rest & -> & Hrest).
    exists (String c before), rest. split; [reflexivity | exact Hrest].
Qed.

(** C4: while a failed COM/WMI call is being handled, [handle_error]
    raises a [DITError] carrying the provider's Operation, ParameterInfo,
    Description and the status code found in the error text, exactly when
    the provider has a last-error object, and otherwise a [COMError] built
    from the HRESULT and the exception info of the failure; it never
    returns. *)
Theorem handle_error_decodes {R} (err : comi_error) (c : com_error) (w : W) :
  com_error_args err = Some c ->
  match fst (provider _ SWbemLastError w) with
  | Some dit_err =>
      exists i,
        outcome provider (@handle_error _ R err) w = Err (DITError i)
        /\ (truthy (Operation dit_err) = true -> err_source i = Operation dit_err)
        /\ err_param_info i = ParameterInfo dit_err
        /\ (truthy (Description dit_err) = true -> err_description i = Description dit_err)
        /\ (forall digits,
              search_stat_code (GetObjectText_ dit_err) = Some digits ->
              err_code i = Str.hex (Str.int_of_digits digits))
        /\ err_handle i = inr dit_err
        /\ err_args i = (err_code i, err_description i, err_source i, err_param_info i)
  | None =>
      exists i,
        outcome provider (@handle_error _ R err) w = Err (COMError i)
        /\ err_code i = Str.hex (signed_to_unsigned (hresult c))
        /\ err_additional_info i = excepinfo_of c
        /\ err_source i =
             match excepinfo_of c with Some ei => ex_source ei | None => PStr "" end
        /\ err_description i =
             match excepinfo_of c with Some ei => ex_description ei | None => strerror c end
        /\ err_handle i = inl err
        /\ err_args i = (err_code i, err_description i, err_source i, err_param_info i)
  end.
Proof.
  intros Hc.
  unfold outcome, handle_error, dit_error_info, ask, mbind, prog_bind. simpl.
  destruct (provider _ SWbemLastError w) as [[dit_err |] w']; simpl.
  - unfold DITError_init, COMError_init. rewrite Hc. simpl.
    eexists. split; [reflexivity |]. simpl.
    repeat split.
    + intros ->. reflexivity.
    + intros ->. reflexivity.
    + intros digits ->. reflexivity.
  - unfold COMError_init. rewrite Hc. simpl.
    eexists. split; [reflexivity |]. simpl. repeat split.
Qed.

End ErrorFacts.

Lemma handle_error_decodes_witness :
  com_error_args (X_wmi "" (Some sample_com_error)) = Some sample_com_error
  /\ (exists i,
        outcome reporting_provider
          (@handle_error wmii_model unit (X_wmi "" (Some sample_com_error))) tt
        = Err (DITError i)
        /\ err_code i = "0x80041008")
  /\ (exists i,
        outcome quiet_provider
          (@handle_error wmii_model unit (Pywin_com_error sample_com_error)) tt
        = Err (COMError i)
        /\ err_code i = "0x80020009").
Proof.
  split; [reflexivity |]. split.
  - destruct (@handle_error_decodes wmii_model unit reporting_provider unit
                (X_wmi "" (Some sample_com_error)) sample_com_error tt eq_refl)
      as (i & Ho & _ & _ & _ & Hcode & _).
    exists i. split; [exact Ho |]. exact (Hcode "2147749896" eq_refl).
  - destruct (@handle_error_decodes wmii_model unit quiet_provider unit
                (Pywin_com_error sample_com_error) sample_com_error tt eq_refl)
      as (i & Ho & Hcode & _).
    exists i. split; [exact Ho |]. rewrite Hcode. reflexivity.
Defined.


(** Rewriting a run into the runs of its parts. *)
Ltac run_simp :=
  repeat (first [ rewrite run_bind | rewrite run_try_except_COMI | rewrite run_call
                | rewrite run_ask | rewrite run_ret | rewrite run_mret | rewrite run_raise ];
          cbv beta iota zeta delta [Ok Err]).

(** ** Commit and refresh *)
Section CommitFacts.
Context `{Wmii} {W : Type} (provider : forall X, ext X -> W -> X * W).

Local Abbreviation element := (gmap string member).

Lemma run_refresh (self : element) (ns : handle) (obj_path : string) (w : W) :
  self !! "_namespace" = Some (MHandle ns) ->
  match provider _ (Get ns obj_path) w with
  | (inr new_obj, w1) =>
      match provider _ (wmi_object_init (Some new_obj)) w1 with
      | (inr cache, w2) =>
          run provider (DITElement__refresh self obj_path) w =
          (Ok (fresh_members ns new_obj cache ∪ self), w2,
           [Ev (Get ns obj_path) (inr new_obj);
            Ev (wmi_object_init (Some new_obj)) (inr cache)])
      | (inl err, w2) =>
          exists e,
            run provider (DITElement__refresh self obj_path) w =
            (Err e, snd (provider _ SWbemLastError w2),
             [Ev (Get ns obj_path) (inr new_obj);
              Ev (wmi_object_init (Some new_obj)) (inl err);
              Ev SWbemLastError (fst (provider _ SWbemLastError w2))])
      end
  | (inl err, w1) =>
      exists e,
        run provider (DITElement__refresh self obj_path) w =
        (Err e, snd (provider _ SWbemLastError w1),
         [Ev (Get ns obj_path) (inl err);
          Ev SWbemLastError (fst (provider _ SWbemLastError w1))])
  end.
Proof.
  intros Hns.
  unfold DITElement__refresh, DITElement_init_base, wmi_object___init__, member_handle.
  rewrite Hns. cbv beta iota zeta. change (nonempty "") with false. cbv beta iota.
  run_simp.
  destruct (provider _ (Get ns obj_path) w) as [[err | new_obj] w1]; cbv beta iota zeta.
  - destruct (run_handle_error provider (R := handle) err w1) as (e & ->).
    exists e. reflexivity.
  - run_simp.
    destruct (provider _ (wmi_object_init (Some new_obj)) w1) as [[err | cache] w2];
      cbv beta iota zeta.
    + destruct (run_handle_error provider (R := element) err w2) as (e & ->).
      exists e. reflexivity.
    + run_simp. reflexivity.
Qed.

Lemma run_commit (self : element) (ole ns : handle) (w : W) :
  self !! "ole_object" = Some (MHandle ole) ->
  match provider _ (Path ole) w with
  | (obj_path, w0) =>
      if nonempty obj_path then
        run provider (DITElement__commit self) w =
        let '(r, w', tr) := run provider (DITElement__refresh self obj_path) w0 in
        (r, w', Ev (Path ole) obj_path :: tr)
      else
        match provider _ (Put_ ole) w0 with
        | (inr relpath, w1) =>
            run provider (DITElement__commit self) w =
            let '(r, w', tr) := run provider (DITElement__refresh self relpath) w1 in
            (r, w', Ev (Path ole) obj_path :: Ev (Put_ ole) (inr relpath) :: tr)
        | (inl err, w1) =>
            exists e,
              run provider (DITElement__commit self) w =
              (Err e, snd (provider _ SWbemLastError w1),
               [Ev (Path ole) obj_path; Ev (Put_ ole) (inl err);
                Ev SWbemLastError (fst (provider _ SWbemLastError w1))])
        end
  end.
Proof.
  intros Hole. unfold DITElement__commit, member_handle. rewrite Hole.
  run_simp.
  destruct (provider _ (Path ole) w) as [obj_path w0]; cbv beta iota zeta.
  destruct (nonempty obj_path).
  - destruct (run provider (DITElement__refresh self obj_path) w0) as [[r w'] tr].
    reflexivity.
  - run_simp.
    destruct (provider _ (Put_ ole) w0) as [[err | relpath] w1]; cbv beta iota zeta.
    + destruct (run_handle_error provider (R := string) err w1) as (e & ->).
      exists e. reflexivity.
    + destruct (run provider (DITElement__refresh self relpath) w1) as [[r w'] tr].
      reflexivity.
Qed.

Lemma fresh_members_union (self : element) ns new_obj cache :
  (forall k m, fresh_members ns new_obj cache !! k = Some m ->
               (fresh_members ns new_obj cache ∪ self) !! k = Some m)
  /\ (fresh_members ns new_obj cache ∪ self) !! "ole_object" = Some (MHandle new_obj)
  /\ (fresh_members ns new_obj cache ∪ self) !! "_namespace" = Some (MHandle ns).
Proof.
  split; [| split].
  - intros k m Hk. apply lookup_union_Some_l. exact Hk.
  - apply lookup_union_Some_l. unfold fresh_members.
    rewrite lookup_insert_ne by discriminate. apply lookup_insert_eq.
  - apply lookup_union_Some_l. unfold fresh_members. apply lookup_insert_eq.
Qed.

Lemma refresh_outcome (self : element) (ns : handle) (pth : string) (w1 : W) r w' tr :
  self !! "_namespace" = Some (MHandle ns) ->
  run provider (DITElement__refresh self pth) w1 = (r, w', tr) ->
  (forallb (fun e => negb (failed e)) tr = true -> exists self', r = Ok self')
  /\ (forall self', r = Ok self' ->
        exists new_obj cache,
          tr = [Ev (Get ns pth) (inr new_obj);
                Ev (wmi_object_init (Some new_obj)) (inr cache)]
          /\ self' = fresh_members ns new_obj cache ∪ self).
Proof.
  intros Hns Hr.
  pose proof (run_refresh self ns pth w1 Hns) as Hf. rewrite Hr in Hf.
  destruct (provider _ (Get ns pth) w1) as [[err | new_obj] w2].
  - destruct Hf as (e & [= -> -> ->]). split; [discriminate |].
    intros self' [=].
  - destruct (provider _ (wmi_object_init (Some new_obj)) w2) as [[err | cache] w3].
    + destruct Hf as (e & [= -> -> ->]). split; [discriminate |].
      intros self' [=].
    + injection Hf as -> -> ->. split; [eauto |].
      intros self' [= <-]. eauto.
Qed.

Lemma commit_outcome (self : element) (ole ns : handle) (w : W) :
  self !! "ole_object" = Some (MHandle ole) ->
  self !! "_namespace" = Some (MHandle ns) ->
  (forallb (fun e => negb (failed e)) (trace provider (DITElement__commit self) w) = true ->
     exists self', outcome provider (DITElement__commit self) w = Ok self')
  /\ (forall self',
        outcome provider (DITElement__commit self) w = Ok self' ->
        exists obj_path new_obj cache,
          (obj_path <> "" /\
             trace provider (DITElement__commit self) w =
             [Ev (Path ole) obj_path;
              Ev (Get ns obj_path) (inr new_obj);
              Ev (wmi_object_init (Some new_obj)) (inr cache)]
           \/ trace provider (DITElement__commit self) w =
              [Ev (Path ole) ""; Ev (Put_ ole) (inr obj_path);
               Ev (Get ns obj_path) (inr new_obj);
               Ev (wmi_object_init (Some new_obj)) (inr cache)])
          /\ self' = fresh_members ns new_obj cache ∪ self
          /\ (forall k m, fresh_members ns new_obj cache !! k = Some m ->
                          self' !! k = Some m)
          /\ self' !! "ole_object" = Some (MHandle new_obj)
          /\ self' !! "_namespace" = Some (MHandle ns)).
Proof.
  intros Hole Hns. unfold trace, outcome.
  pose proof (run_commit self ole ns w Hole) as Hc.
  destruct (provider _ (Path ole) w) as [obj_path w0].
  pose proof (fun pth w1 r w' tr => refresh_outcome self ns pth w1 r w' tr Hns)
    as Hrefresh.
  destruct (nonempty obj_path) eqn:Hne.
  - destruct (run provider (DITElement__refresh self obj_path) w0) as [[r w'] tr] eqn:Hr.
    rewrite Hc. cbn [fst snd].
    destruct (Hrefresh obj_path w0 r w' tr Hr) as [Hlive Hshape]. split.
    + cbn [forallb failed negb andb]. exact Hlive.
    + intros self' Hok. destruct (Hshape self' Hok) as (new_obj & cache & -> & ->).
      exists obj_path, new_obj, cache.
      destruct (fresh_members_union self ns new_obj cache) as (Hk & Ho & Hn).
      split; [| auto].
      left. split; [| reflexivity].
      intros ->. discriminate.
  - assert (Hempty : obj_path = "").
    { unfold nonempty in Hne. apply negb_false_iff, String.eqb_eq in Hne. exact Hne. }
    subst obj_path.
    destruct (provider _ (Put_ ole) w0) as [[err | relpath] w1].
    + destruct Hc as (e & ->). cbn [fst snd]. split; [discriminate |].
      intros self' [=].
    + destruct (run provider (DITElement__refresh self relpath) w1) as [[r w'] tr] eqn:Hr.
      rewrite Hc. cbn [fst snd].
      destruct (Hrefresh relpath w1 r w' tr Hr) as [Hlive Hshape]. split.
      * cbn [forallb failed negb andb]. exact Hlive.
      * intros self' Hok. destruct (Hshape self' Hok) as (new_obj & cache & -> & ->).
        exists relpath, new_obj, cache.
        destruct (fresh_members_union self ns new_obj cache) as (Hk & Ho & Hn).
        split; [right; reflexivity | auto].
Qed.

(** Whatever the inherited setters do, an assignment or a [set] call that
    returns has run [_commit] after them. *)
Lemma setattr_then_commit (self : element) (key : string) (value : pyval)
    (w w' : W) self' tr :
  run provider (DITElement___setattr__ self key value) w = (Ok self', w', tr) ->
  exists w1 tr1 tr2,
    run provider (try_except_COMI (super_setattr self key value)) w = (Ok tt, w1, tr1)
    /\ run provider (DITElement__commit self) w1 = (Ok self', w', tr2)
    /\ tr = tr1 ++ tr2.
Proof.
  unfold DITElement___setattr__. rewrite run_bind.
  destruct (run provider (try_except_COMI (super_setattr self key value)) w)
    as [[[e | []] w1] tr1]; cbv beta iota zeta; [discriminate |].
  destruct (run provider (DITElement__commit self) w1) as [[r w2] tr2] eqn:Hc.
  intros [= -> -> <-]. exists w1, tr1, tr2. auto.
Qed.

Lemma set_then_commit (self : element) (kwargs : list (string * pyval))
    (w w' : W) self' tr :
  run provider (DITElement_set self kwargs) w = (Ok self', w', tr) ->
  exists w1 tr1 tr2,
    run provider (try_except_COMI (super_set self kwargs)) w = (Ok tt, w1, tr1)
    /\ run provider (DITElement__commit self) w1 = (Ok self', w', tr2)
    /\ tr = tr1 ++ tr2.
Proof.
  unfold DITElement_set. rewrite run_bind.
  destruct (run provider (try_except_COMI (super_set self kwargs)) w)
    as [[[e | []] w1] tr1]; cbv beta iota zeta; [discriminate |].
  destruct (run provider (DITElement__commit self) w1) as [[r w2] tr2] eqn:Hc.
  intros [= -> -> <-]. exists w1, tr1, tr2. auto.
Qed.

(** C2: a commit that succeeds ends by fetching a fresh instance from the
    namespace at the object's path (the path it already had, or the one
    [Put_] returned) and replacing the wrapper's members by the members of
    a wrapper around that instance; and a commit succeeds whenever no
    provider call fails. *)
Theorem commit_refreshes (self : element) (ole ns : handle) (w : W) :
  self !! "ole_object" = Some (MHandle ole) ->
  self !! "_namespace" = Some (MHandle ns) ->
  (forallb (fun e => negb (failed e)) (trace provider (DITElement__commit self) w) = true ->
     exists self', outcome provider (DITElement__commit self) w = Ok self')
  /\ (forall self',
        outcome provider (DITElement__commit self) w = Ok self' ->
        exists obj_path new_obj cache,
          (obj_path <> "" /\
             trace provider (DITElement__commit self) w =
             [Ev (Path ole) obj_path;
              Ev (Get ns obj_path) (inr new_obj);
              Ev (wmi_object_init (Some new_obj)) (inr cache)]
           \/ trace provider (DITElement__commit self) w =
              [Ev (Path ole) ""; Ev (Put_ ole) (inr obj_path);
               Ev (Get ns obj_path) (inr new_obj);
               Ev (wmi_object_init (Some new_obj)) (inr cache)])
          /\ self' = fresh_members ns new_obj cache ∪ self
          /\ (forall k m, fresh_members ns new_obj cache !! k = Some m ->
                          self' !! k = Some m)
          /\ self' !! "ole_object" = Some (MHandle new_obj)
          /\ self' !! "_namespace" = Some (MHandle ns)).
Proof. intros Hole Hns. exact (commit_outcome self ole ns w Hole Hns). Qed.

End CommitFacts.

Lemma commit_refreshes_witness :
  sample_element !! "ole_object" = Some (MHandle 11%N)
  /\ sample_element !! "_namespace" = Some (MHandle 3%N)
  /\ exists self',
       outcome quiet_provider (@DITElement__commit wmii_model sample_element) tt = Ok self'
       /\ self' !! "ole_object" = Some (MHandle 10%N)
       /\ self' !! "CITY" = Some (MVal (PStr "Rome")).
Proof.
  split; [reflexivity |]. split; [reflexivity |].
  destruct (@commit_refreshes wmii_model unit quiet_provider sample_element 11%N 3%N tt
              eq_refl eq_refl) as [Hlive Hshape].
  destruct (Hlive eq_refl) as (self' & Hok).
  exists self'. split; [exact Hok |].
  clear Hshape. vm_compute in Hok. injection Hok as <-. split; vm_compute; reflexivity.
Defined.

(** ** Staging and writing *)
Section MutationFacts.
Context {W : Type} (provider : forall X, ext X -> W -> X * W).
#[local] Existing Instance wmii_model.

Local Abbreviation element := (gmap string member).

Lemma writes_app tr1 tr2 : writes (tr1 ++ tr2) = writes tr1 ++ writes tr2.
Proof. unfold writes. apply omap_app. Qed.

Lemma writes_cons e tr :
  writes (e :: tr) =
  match write_of e with Some x => x :: writes tr | None => writes tr end.
Proof. reflexivity. Qed.

Lemma try_except_COMI_ok {R} (p : prog R) (w w' : W) (a : R) tr :
  run provider (try_except_COMI p) w = (Ok a, w', tr) ->
  run provider p w = (Ok a, w', tr).
Proof.
  rewrite run_try_except_COMI.
  destruct (run provider p w) as [[[e | a'] w1] tr1]; [| auto].
  destruct e; auto.
  destruct (run_handle_error provider (R := R) e w1) as (e' & ->).
  discriminate.
Qed.

Lemma run_stage_all (ole : handle) (kwargs : list (string * pyval)) (w w' : W) l tr :
  run provider (mapM (fun kv => call (property_set ole (fst kv) (snd kv))) kwargs) w
    = (Ok l, w', tr) ->
  writes tr = map (fun kv => Staged (fst kv) (snd kv)) kwargs.
Proof.
  revert w w' l tr. induction kwargs as [| [k v] kwargs IH]; intros w w' l tr.
  - cbn [mapM]. rewrite run_mret. intros [= _ _ <-]. reflexivity.
  - cbn [mapM]. run_simp.
    destruct (provider _ (property_set ole (fst (k, v)) (snd (k, v))) w)
      as [[err | []] w1]; cbv beta iota zeta; [discriminate |].
    run_simp.
    destruct (run provider
                (mapM (fun kv => call (property_set ole (fst kv) (snd kv))) kwargs) w1)
      as [[[e | l'] w2] tr'] eqn:Hrest; cbv beta iota zeta; [discriminate |].
    run_simp. intros [= _ _ <-].
    rewrite app_nil_r. cbn [app]. rewrite writes_cons. cbn [write_of map fst snd].
    f_equal. exact (IH _ _ _ _ Hrest).
Qed.

Section Stable.
Variable path_of : W -> handle -> string.
Hypothesis Hread : forall o w, provider _ (Path o) w = (path_of w o, w).
Hypothesis Hput : forall o w, nonempty (path_of w o) = true ->
                    nonempty (path_of (snd (provider _ (Put_ o) w)) o) = true.

(** After the inherited setter: either the object had a path and has
    been written, or it has none and is only staged. *)
Lemma run_tail_of_setter (ole : handle) (w w' : W) tr :
  run provider
    (ask (Path ole) ≫= fun path =>
     if nonempty path then call (Put_ ole) ≫= fun _ => Ret tt else Ret tt) w
    = (Ok tt, w', tr) ->
  (writes tr = [Written] /\ nonempty (path_of w' ole) = true)
  \/ (writes tr = [] /\ nonempty (path_of w' ole) = false).
Proof.
  run_simp. rewrite Hread. cbv beta iota zeta.
  destruct (nonempty (path_of w ole)) eqn:Hp.
  - run_simp. pose proof (Hput ole w Hp) as Hafter.
    destruct (provider _ (Put_ ole) w) as [[err | relpath] w1];
      cbv beta iota zeta; [discriminate |].
    run_simp. intros [= <- <-]. left. split; [reflexivity | exact Hafter].
  - run_simp. intros [= <- <-]. right. split; [reflexivity | exact Hp].
Qed.

Lemma run_setter (self : element) (ole : handle) (m : mutation) (w w' : W) tr :
  self !! "ole_object" = Some (MHandle ole) ->
  m <> SetKw [] ->
  run provider
    (try_except_COMI
       match m with
       | Assign key value => super_setattr self key value
       | SetKw kwargs => super_set self kwargs
       end) w = (Ok tt, w', tr) ->
  (writes tr = staged_of m ++ [Written] /\ nonempty (path_of w' ole) = true)
  \/ (writes tr = staged_of m /\ nonempty (path_of w' ole) = false).
Proof.
  intros Hole Hm Hrun. apply try_except_COMI_ok in Hrun.
  destruct m as [key value | kwargs].
  - cbn [super_setattr wmii_model] in Hrun. unfold model_setattr in Hrun.
    rewrite Hole in Hrun. rewrite run_bind, run_call in Hrun.
    destruct (provider _ (property_set ole key value) w) as [[err | []] w1];
      cbv beta iota zeta in Hrun; [discriminate |].
    destruct (run provider
                (ask (Path ole) ≫= fun path =>
                 if nonempty path then call (Put_ ole) ≫= fun _ => Ret tt else Ret tt)
                w1) as [[[e | []] w2] tr2] eqn:Htail;
      cbv beta iota zeta in Hrun; [discriminate |].
    injection Hrun as <- <-.
    cbn [app staged_of]. rewrite !writes_cons. cbn [write_of].
    destruct (run_tail_of_setter ole w1 w2 tr2 Htail) as [[-> Hp] | [-> Hp]]; auto.
  - destruct kwargs as [| kv kwargs]; [contradiction |].
    cbn [super_set wmii_model] in Hrun. unfold model_set in Hrun.
    rewrite Hole in Hrun. rewrite run_bind in Hrun.
    destruct (run provider
                (mapM (fun kv0 => call (property_set ole (fst kv0) (snd kv0)))
                   (kv :: kwargs)) w) as [[[e | l] w1] tr1] eqn:Hstage;
      cbv beta iota zeta in Hrun; [discriminate |].
    destruct (run provider
                (ask (Path ole) ≫= fun path =>
                 if nonempty path then call (Put_ ole) ≫= fun _ => Ret tt else Ret tt)
                w1) as [[[e | []] w2] tr2] eqn:Htail;
      cbv beta iota zeta in Hrun; [discriminate |].
    injection Hrun as <- <-.
    rewrite writes_app, (run_stage_all ole _ w w1 l tr1 Hstage).
    cbn [staged_of].
    destruct (run_tail_of_setter ole w1 w2 tr2 Htail) as [[-> Hp] | [-> Hp]].
    + left. auto.
    + right. rewrite app_nil_r. auto.
Qed.

(** What a successful commit writes: nothing when the object has a
    path, the object itself when it has none. *)
Lemma commit_writes (self : element) (ole ns : handle) (w w' : W) self' tr :
  self !! "ole_object" = Some (MHandle ole) ->
  self !! "_namespace" = Some (MHandle ns) ->
  run provider (DITElement__commit self) w = (Ok self', w', tr) ->
  writes tr = (if nonempty (path_of w ole) then [] else [Written])
  /\ (exists ole', self' !! "ole_object" = Some (MHandle ole'))
  /\ self' !! "_namespace" = Some (MHandle ns).
Proof.
  intros Hole Hns Hrun.
  destruct (commit_outcome provider self ole ns w Hole Hns) as [_ Hshape].
  unfold outcome, trace in Hshape. rewrite Hrun in Hshape. cbn [fst snd] in Hshape.
  destruct (Hshape self' eq_refl)
    as (obj_path & new_obj & cache & Htr & _ & _ & Ho & Hn).
  split; [| eauto].
  pose proof (run_commit provider self ole ns w Hole) as Hc.
  rewrite Hread in Hc.
  destruct (nonempty (path_of w ole)) eqn:Hp.
  - rewrite Hrun in Hc.
    destruct (run provider (DITElement__refresh self (path_of w ole)) w)
      as [[r1 w1] tr1] eqn:Hr.
    injection Hc as E1 E2 E3. subst r1 tr.
    destruct (refresh_outcome provider self ns _ w _ _ _ Hns Hr) as [_ Hs].
    destruct (Hs self' eq_refl) as (n & c & -> & _). reflexivity.
  - destruct (provider _ (Put_ ole) w) as [[err | relpath] w1].
    + destruct Hc as (e & Hc). rewrite Hrun in Hc. discriminate.
    + rewrite Hrun in Hc.
      destruct (run provider (DITElement__refresh self relpath) w1)
        as [[r1 w2] tr1] eqn:Hr.
      injection Hc as E1 E2 E3. subst r1 tr.
      destruct (refresh_outcome provider self ns _ w1 _ _ _ Hns Hr) as [_ Hs].
      destruct (Hs self' eq_refl) as (n & c & -> & _). reflexivity.
Qed.

Lemma mutation_writes (self : element) (ole ns : handle) (m : mutation)
    (w w' : W) self' tr :
  self !! "ole_object" = Some (MHandle ole) ->
  self !! "_namespace" = Some (MHandle ns) ->
  m <> SetKw [] ->
  run provider (apply_mutation self m) w = (Ok self', w', tr) ->
  writes tr = writes_of m
  /\ (exists ole', self' !! "ole_object" = Some (MHandle ole'))
  /\ self' !! "_namespace" = Some (MHandle ns).
Proof.
  intros Hole Hns Hm Hrun.
  assert (Hsplit :
    run provider
      (try_except_COMI
         match m with
         | Assign key value => super_setattr self key value
         | SetKw kwargs => super_set self kwargs
         end ≫= fun _ => DITElement__commit self) w = (Ok self', w', tr)).
  { destruct m; exact Hrun. }
  clear Hrun. rewrite run_bind in Hsplit.
  destruct (run provider
              (try_except_COMI
                 match m with
                 | Assign key value => super_setattr self key value
                 | SetKw kwargs => super_set self kwargs
                 end) w) as [[[e | []] w1] tr1] eqn:Hset;
    cbv beta iota zeta in Hsplit; [discriminate |].
  destruct (run provider (DITElement__commit self) w1) as [[r w2] tr2] eqn:Hcommit.
  injection Hsplit as -> -> <-.
  destruct (commit_writes self ole ns w1 w' self' tr2 Hole Hns Hcommit)
    as (Hw & Hmem).
  split; [| exact Hmem].
  rewrite writes_app, Hw.
  destruct (run_setter self ole m w w1 tr1 Hole Hm Hset) as [[-> Hp] | [-> Hp]];
    rewrite Hp.
  - rewrite app_nil_r. destruct m; reflexivity.
  - destruct m; reflexivity.
Qed.

Lemma mutations_writes (ms : list mutation) :
  forall (self : element) (ole ns : handle) (w w' : W) self' tr,
    self !! "ole_object" = Some (MHandle ole) ->
    self !! "_namespace" = Some (MHandle ns) ->
    Forall (fun m => m <> SetKw []) ms ->
    run provider (apply_mutations self ms) w = (Ok self', w', tr) ->
    writes tr = concat (map writes_of ms).
Proof.
  induction ms as [| m ms IH]; intros self ole ns w w' self' tr Hole Hns Hms Hrun.
  - cbn [apply_mutations] in Hrun. rewrite run_ret in Hrun.
    injection Hrun as _ _ <-. reflexivity.
  - apply Forall_cons in Hms as [Hm Hms].
    cbn [apply_mutations] in Hrun. rewrite run_bind in Hrun.
    destruct (run provider (apply_mutation self m) w) as [[[e | self1] w1] tr1] eqn:Hstep;
      cbv beta iota zeta in Hrun; [discriminate |].
    destruct (run provider (apply_mutations self1 ms) w1) as [[r w2] tr2] eqn:Hrest.
    injection Hrun as -> -> <-.
    destruct (mutation_writes self ole ns m w w1 self1 tr1 Hole Hns Hm Hstep)
      as (Hw & (ole' & Hole') & Hns').
    rewrite writes_app, Hw. cbn [map concat]. f_equal.
    exact (IH self1 ole' ns w1 w' self' tr2 Hole' Hns' Hms Hrest).
Qed.
(** A [set] call without keywords stages nothing: what it writes is what
    the commit writes. *)
Lemma empty_set_writes (self : element) (ole ns : handle) (w w' : W) self' tr :
  self !! "ole_object" = Some (MHandle ole) ->
  self !! "_namespace" = Some (MHandle ns) ->
  run provider (apply_mutation self (SetKw [])) w = (Ok self', w', tr) ->
  writes tr = (if nonempty (path_of w ole) then [] else [Written])
  /\ (exists ole', self' !! "ole_object" = Some (MHandle ole'))
  /\ self' !! "_namespace" = Some (MHandle ns).
Proof.
  intros Hole Hns Hrun. cbn [apply_mutation] in Hrun. unfold DITElement_set in Hrun.
  cbn [super_set wmii_model] in Hrun. unfold model_set in Hrun.
  rewrite run_bind, run_try_except_COMI, run_ret in Hrun.
  cbv beta iota zeta delta [Ok] in Hrun.
  destruct (run provider (DITElement__commit self) w) as [[r w2] tr2] eqn:Hc.
  injection Hrun as -> -> <-. cbn [app].
  exact (commit_writes self ole ns w w' self' tr2 Hole Hns Hc).
Qed.

Lemma mutations_chunks (ms : list mutation) :
  forall (self : element) (ole ns : handle) (w w' : W) self' tr,
    self !! "ole_object" = Some (MHandle ole) ->
    self !! "_namespace" = Some (MHandle ns) ->
    run provider (apply_mutations self ms) w = (Ok self', w', tr) ->
    exists chunks, Forall2 commits_alone ms chunks /\ writes tr = concat chunks.
Proof.
  induction ms as [| m ms IH]; intros self ole ns w w' self' tr Hole Hns Hrun.
  - cbn [apply_mutations] in Hrun. rewrite run_ret in Hrun.
    injection Hrun as _ _ <-. exists []. split; [constructor | reflexivity].
  - cbn [apply_mutations] in Hrun. rewrite run_bind in Hrun.
    destruct (run provider (apply_mutation self m) w) as [[[e | self1] w1] tr1] eqn:Hstep;
      cbv beta iota zeta in Hrun; [discriminate |].
    destruct (run provider (apply_mutations self1 ms) w1) as [[r w2] tr2] eqn:Hrest.
    injection Hrun as -> -> <-.
    assert (Hone : commits_alone m (writes tr1)
                   /\ (exists ole', self1 !! "ole_object" = Some (MHandle ole'))
                   /\ self1 !! "_namespace" = Some (MHandle ns)).
    { destruct m as [key value | [| kv kwargs]].
      - destruct (mutation_writes self ole ns (Assign key value) w w1 self1 tr1 Hole Hns
                    ltac:(discriminate) Hstep) as (Hw & Hmem).
        split; [left; exact Hw | exact Hmem].
      - destruct (empty_set_writes self ole ns w w1 self1 tr1 Hole Hns Hstep)
          as (Hw & Hmem).
        split; [| exact Hmem]. rewrite Hw.
        destruct (nonempty (path_of w ole)); [right; auto | left; reflexivity].
      - destruct (mutation_writes self ole ns (SetKw (kv :: kwargs)) w w1 self1 tr1
                    Hole Hns ltac:(discriminate) Hstep) as (Hw & Hmem).
        split; [left; exact Hw | exact Hmem]. }
    destruct Hone as (Hc & (ole' & Hole') & Hns').
    destruct (IH self1 ole' ns w1 w' self' tr2 Hole' Hns' Hrest) as (chunks & Hall & Hw).
    exists (writes tr1 :: chunks). split; [constructor; assumption |].
    rewrite writes_app, Hw. reflexivity.
Qed.
End Stable.

(** C1 (as amended): on a provider that reports object paths
    consistently, every attribute assignment and every [set] call is its
    own commit point.  Over a sequence of such calls that returns, the
    provider sees, call by call, the properties of that call being staged
    and then one write of the object: the keywords of one [set] call are
    written together, the assignments of a sequence are not.  The one
    exception is a [set] call without keywords, which stages nothing and
    writes the object at most once: alone on an element, once if the
    object has no path yet and not at all if it has one. *)
Theorem each_mutation_commits (self : element) (ole ns : handle)
    (ms : list mutation) (w : W) (self' : element) :
  stable_paths provider ->
  self !! "ole_object" = Some (MHandle ole) ->
  self !! "_namespace" = Some (MHandle ns) ->
  outcome provider (apply_mutations self ms) w = Ok self' ->
  (exists chunks,
     Forall2 commits_alone ms chunks
     /\ writes (trace provider (apply_mutations self ms) w) = concat chunks)
  /\ (Forall (fun m => m <> SetKw []) ms ->
      writes (trace provider (apply_mutations self ms) w) = concat (map writes_of ms))
  /\ (ms = [SetKw []] ->
      writes (trace provider (apply_mutations self ms) w)
      = if nonempty (fst (provider _ (Path ole) w)) then [] else [Written]).
Proof.
  intros (path_of & Hread & Hput) Hole Hns Hok.
  unfold outcome, trace in *.
  destruct (run provider (apply_mutations self ms) w) as [[r w'] tr] eqn:Hrun.
  cbn [fst snd] in *. subst r.
  split; [| split].
  - exact (mutations_chunks path_of Hread Hput ms self ole ns w w' self' tr Hole Hns Hrun).
  - intros Hms.
    exact (mutations_writes path_of Hread Hput ms self ole ns w w' self' tr
             Hole Hns Hms Hrun).
  - intros ->. cbn [apply_mutations] in Hrun. rewrite run_bind in Hrun.
    destruct (run provider (apply_mutation self (SetKw [])) w)
      as [[[e | self1] w1] tr1] eqn:Hstep;
      cbv beta iota zeta in Hrun; [discriminate |].
    rewrite run_ret in Hrun. injection Hrun as _ _ <-. rewrite app_nil_r.
    rewrite Hread. cbn [fst].
    exact (proj1 (empty_set_writes path_of Hread self ole ns w w1 self1 tr1
                    Hole Hns Hstep)).
Qed.

End MutationFacts.

Lemma store_provider_stable : stable_paths store_provider.
Proof.
  exists (fun _ o => store_path o).
  split.
  - intros o []. reflexivity.
  - intros o [] Hp. exact Hp.
Qed.

Lemma each_mutation_commits_witness :
  stable_paths store_provider
  /\ sample_element !! "ole_object" = Some (MHandle 11%N)
  /\ sample_element !! "_namespace" = Some (MHandle 3%N)
  /\ (exists self',
        outcome store_provider (@apply_mutations wmii_model sample_element batch_then_assign) tt
        = Ok self')
  /\ writes (trace store_provider
               (@apply_mutations wmii_model sample_element batch_then_assign) tt)
     = [Staged "CITY" (PStr "Rochester"); Staged "ZIP" (PStr "14604"); Written;
        Staged "STATE" (PStr "NY"); Written].
Proof.
  assert (Hall : Forall (fun m => m <> SetKw []) batch_then_assign)
    by (repeat constructor; discriminate).
  assert (Hok : exists self',
            outcome store_provider
              (@apply_mutations wmii_model sample_element batch_then_assign) tt = Ok self')
    by (eexists; vm_compute; reflexivity).
  split; [exact store_provider_stable |].
  split; [reflexivity |]. split; [reflexivity |].
  split; [exact Hok |].
  destruct Hok as (self' & Hok).
  destruct (each_mutation_commits store_provider sample_element 11%N 3%N batch_then_assign tt
              self' store_provider_stable eq_refl eq_refl Hok) as (_ & Hwrites & _).
  exact (Hwrites Hall).
Defined.

(** A [set] call without keywords on an element whose object is stored:
    it returns, and nothing is staged or written. *)
Example set_without_keywords_on_stored :
  (exists self',
     outcome store_provider
       (@apply_mutations wmii_model (<["ole_object" := MHandle 10%N]> sample_element)
          [SetKw []]) tt = Ok self')
  /\ writes (trace store_provider
               (@apply_mutations wmii_model (<["ole_object" := MHandle 10%N]> sample_element)
                  [SetKw []]) tt) = [].
Proof. split; [eexists; vm_compute; reflexivity | vm_compute; reflexivity]. Qed.

(** C1 as stated fails for two assignments in a row: both return, and the
    first property is written before the second is staged. *)
Lemma one_batch_counterexample :
  (exists self',
     outcome store_provider (@apply_mutations wmii_model sample_element two_assignments) tt
     = Ok self')
  /\ ~ @commits_as_one_batch wmii_model unit store_provider sample_element two_assignments tt.
Proof.
  split.
  - eexists. vm_compute. reflexivity.
  - unfold commits_as_one_batch. vm_compute. discriminate.
Qed.

(** ** Watchers *)
Section WatcherFacts.
Context `{Wmii} {W : Type} (provider : forall X, ext X -> W -> X * W).

Lemma to_dict_fold_notin (props : list (string * pyval)) (d : gmap string pyval) n :
  n ∉ props.*1 ->
  fold_left (fun d p => <[fst p := snd p]> d) props d !! n = d !! n.
Proof.
  revert d. induction props as [| [k x] props IH]; intros d Hn; [reflexivity |].
  cbn [fold_left fst snd]. rewrite IH.
  - apply lookup_insert_ne. intros ->. apply Hn. left.
  - intros Hin. apply Hn. right. exact Hin.
Qed.

Lemma to_dict_fold_in (props : list (string * pyval)) (d : gmap string pyval) n v :
  NoDup props.*1 -> (n, v) ∈ props ->
  fold_left (fun d p => <[fst p := snd p]> d) props d !! n = Some v.
Proof.
  revert d. induction props as [| [k x] props IH]; intros d Hnd Hin.
  - inversion Hin.
  - cbn [fmap list_fmap] in Hnd. apply NoDup_cons in Hnd as [Hk Hnd].
    cbn [fold_left fst snd].
    apply elem_of_cons in Hin as [[= -> ->] | Hin].
    + rewrite to_dict_fold_notin by exact Hk. apply lookup_insert_eq.
    + apply IH; assumption.
Qed.

(** [_to_dict] maps every property name to its value. *)
Lemma to_dict_lookup (props : list (string * pyval)) n v :
  NoDup props.*1 -> (n, v) ∈ props -> _to_dict props !! n = Some v.
Proof. apply to_dict_fold_in. Qed.

Lemma to_dict_dom (props : list (string * pyval)) n :
  n ∉ props.*1 -> _to_dict props !! n = None.
Proof. intros Hn. unfold _to_dict. rewrite to_dict_fold_notin by exact Hn. reflexivity. Qed.

Lemma run_DITWatcher_call (self : watcher) (w : W) :
  match provider _ (NextEvent (wmi_event_of self) (is_extrinsic self)) w with
  | (inr event, w1) =>
      run provider (DITWatcher_call self) w =
      (Ok event, w1, [Ev (NextEvent (wmi_event_of self) (is_extrinsic self)) (inr event)])
  | (inl err, w1) =>
      exists e,
        run provider (DITWatcher_call self) w =
        (Err e, snd (provider _ SWbemLastError w1),
         [Ev (NextEvent (wmi_event_of self) (is_extrinsic self)) (inl err);
          Ev SWbemLastError (fst (provider _ SWbemLastError w1))])
  end.
Proof.
  unfold DITWatcher_call. run_simp.
  destruct (provider _ (NextEvent (wmi_event_of self) (is_extrinsic self)) w)
    as [[err | event] w1]; cbv beta iota zeta.
  - destruct (run_handle_error provider (R := wmi_event) err w1) as (e & ->).
    exists e. reflexivity.
  - reflexivity.
Qed.

(** C3: a call waits for the provider's next notification and returns it
    as a dict of the event instance's properties; a software watcher adds
    the key "previous" (the prior state as a dict, or None), a hardware
    watcher turns the value under "Alarm" into a dict. *)
Theorem watcher_call_delivers (self : watcher) (w w1 : W) (event : wmi_event) :
  provider _ (NextEvent (wmi_event_of self) (is_extrinsic self)) w = (inr event, w1) ->
  NoDup (Properties_ event).*1 ->
  (exists d,
     run provider (SWatcher_call self) w =
     (Ok d, w1, [Ev (NextEvent (wmi_event_of self) (is_extrinsic self)) (inr event)])
     /\ (forall n v, (n, v) ∈ Properties_ event -> n <> "previous" ->
           d !! n = Some (DVal v))
     /\ d !! "previous" =
          Some (match previous event with
                | Some prev => DDict (_to_dict prev)
                | None => DVal PNone
                end))
  /\ (forall alarm,
        ("Alarm", PObj alarm) ∈ Properties_ event ->
        exists d,
          run provider (HWatcher_call self) w =
          (Ok d, w1, [Ev (NextEvent (wmi_event_of self) (is_extrinsic self)) (inr event)])
          /\ (forall n v, (n, v) ∈ Properties_ event -> n <> "Alarm" ->
                d !! n = Some (DVal v))
          /\ d !! "Alarm" = Some (DDict (_to_dict alarm))).
Proof.
  intros Hnext Hnd.
  pose proof (run_DITWatcher_call self w) as Hcall. rewrite Hnext in Hcall.
  split.
  - eexists. split; [| split].
    + unfold SWatcher_call. rewrite run_bind, Hcall. cbv beta iota zeta delta [Ok].
      rewrite run_ret. reflexivity.
    + intros n v Hin Hne. rewrite lookup_insert_ne by congruence.
      rewrite lookup_fmap, (to_dict_lookup _ n v Hnd Hin). reflexivity.
    + apply lookup_insert_eq.
  - intros alarm Halarm.
    pose proof (to_dict_lookup _ _ _ Hnd Halarm) as Hlook.
    eexists. split; [| split].
    + unfold HWatcher_call. rewrite run_bind, Hcall. cbv beta iota zeta delta [Ok].
      rewrite Hlook, run_ret. reflexivity.
    + intros n v Hin Hne. rewrite lookup_insert_ne by congruence.
      rewrite lookup_fmap, (to_dict_lookup _ n v Hnd Hin). reflexivity.
    + apply lookup_insert_eq.
Qed.

(** A failed wait is decoded by [handle_error]: nothing is returned. *)
Lemma watcher_call_failure (self : watcher) (w w1 : W) (err : comi_error) :
  provider _ (NextEvent (wmi_event_of self) (is_extrinsic self)) w = (inl err, w1) ->
  (exists e, outcome provider (SWatcher_call self) w = Err e)
  /\ (exists e, outcome provider (HWatcher_call self) w = Err e).
Proof.
  intros Hnext.
  pose proof (run_DITWatcher_call self w) as Hcall. rewrite Hnext in Hcall.
  destruct Hcall as (e & Hcall).
  unfold outcome, SWatcher_call, HWatcher_call.
  rewrite !run_bind, Hcall. cbn [fst]. eauto.
Qed.

End WatcherFacts.

Lemma watcher_call_delivers_witness :
  event_provider _ (NextEvent 20%N true) tt = (inr sample_event, tt)
  /\ NoDup (Properties_ sample_event).*1
  /\ exists d,
       outcome event_provider (@HWatcher_call wmii_model (Build_watcher 20%N true)) tt = Ok d
       /\ d !! "CardNumber" = Some (DVal (PStr "258963"))
       /\ d !! "Alarm" =
            Some (DDict (_to_dict [("Description", PStr "Granted Access"); ("ID", PInt 1);
                                   ("IsActive", PBool false); ("Priority", PInt 50)])).
Proof.
  assert (Hnd : NoDup (Properties_ sample_event).*1).
  { apply (bool_decide_unpack _). vm_compute. exact I. }
  split; [reflexivity |]. split; [exact Hnd |].
  destruct (@watcher_call_delivers wmii_model unit event_provider (Build_watcher 20%N true)
              tt tt sample_event eq_refl Hnd) as [_ Hhw].
  destruct (Hhw _ ltac:(right; left)) as (d & Hrun & Hprops & Halarm).
  exists d. split; [| split].
  - unfold outcome. rewrite Hrun. reflexivity.
  - apply Hprops; [| discriminate]. do 2 right. left.
  - exact Halarm.
Defined.

(** ** Software event subscriptions *)
Section SubscriptionFacts.
Context `{Wmii} {W : Type} (provider : forall X, ext X -> W -> X * W).

Lemma eqb_lower_nocase (s t : string) :
  Str.lower t = t -> String.eqb (Str.lower s) t = Str.eq_nocase s t.
Proof.
  revert t. induction s as [| a s IH]; intros [| b t] Ht; try reflexivity.
  cbn [Str.lower] in Ht. injection Ht as Hb Ht.
  cbn [Str.lower Str.eq_nocase String.eqb]. rewrite Hb, (IH t Ht). reflexivity.
Qed.

(** Membership of the lowered name in [targets] is equality with one of
    the four names up to case. *)
Lemma targets_nocase (TargetCls : string) :
  existsb (String.eqb (Str.lower TargetCls)) targets
  = existsb (Str.eq_nocase TargetCls) targets.
Proof.
  unfold targets. cbn [existsb].
  rewrite !eqb_lower_nocase by reflexivity. reflexivity.
Qed.

(** C9: a target class that is none of the four supported names, up to
    case, is refused with [ValueError] before anything is sent to the
    namespace; for a supported one the only notification query issued is
    the one for that operation and class. *)
Theorem software_events_validates (self : DITConnection) (TargetCls : string)
    (operation : option string) (w : W) :
  if existsb (Str.eq_nocase TargetCls) targets then
    let q := notification_wql TargetCls operation in
    let '(reply, w1) := provider _ (ExecNotificationQuery (_namespace self) q) w in
    hd_error (trace provider (software_events self TargetCls operation) w)
      = Some (Ev (ExecNotificationQuery (_namespace self) q) reply)
    /\ filter (fun e => is_ExecNotificationQuery e = true)
         (trace provider (software_events self TargetCls operation) w)
       = [Ev (ExecNotificationQuery (_namespace self) q) reply]
    /\ match reply with
       | inr wmi_event =>
           run provider (software_events self TargetCls operation) w
           = (Ok (Build_watcher wmi_event false), w1,
              [Ev (ExecNotificationQuery (_namespace self) q) reply])
       | inl _ =>
           exists e, outcome provider (software_events self TargetCls operation) w = Err e
       end
  else
    run provider (software_events self TargetCls operation) w
    = (Err (ValueError ("Invalid target class: " +:+ TargetCls)), w, []).
Proof.
  unfold software_events, SWatcher_init, trace, outcome.
  rewrite targets_nocase.
  destruct (existsb (Str.eq_nocase TargetCls) targets); cbn [negb].
  - fold (notification_wql TargetCls operation).
    set (q := notification_wql TargetCls operation).
    unfold DITWatcher_init. run_simp.
    destruct (provider _ (ExecNotificationQuery (_namespace self) q) w)
      as [[err | wmi_event] w1]; cbv beta iota zeta.
    + destruct (run_handle_error provider (R := handle) err w1) as (e & ->).
      cbn [fst snd app hd_error]. split; [reflexivity |]. split; [reflexivity |].
      exists e. reflexivity.
    + run_simp. cbn [fst snd app hd_error]. auto.
  - apply run_raise.
Qed.

End SubscriptionFacts.

(** The class name may come in any case; a name outside the list is
    refused. *)
Example software_events_accepts_any_case :
  run quiet_provider (@software_events wmii_model (Build_DITConnection 3%N) "Lnl_Cardholder" None) tt
  = (Ok (Build_watcher 20%N false), tt,
     [Ev (ExecNotificationQuery 3%N
            "select * from __InstanceOperationEvent where TargetInstance ISA 'Lnl_Cardholder'")
         (inr 20%N)]).
Proof. reflexivity. Qed.

Example software_events_refuses_reader :
  run quiet_provider (@software_events wmii_model (Build_DITConnection 3%N) "Lnl_Reader" None) tt
  = (Err (ValueError "Invalid target class: Lnl_Reader"), tt, []).
Proof. reflexivity. Qed.

(** ** Data queries *)
Section QueryFacts.
Context `{Wmii} {W : Type} (provider : forall X, ext X -> W -> X * W).

Local Abbreviation element := (gmap string member).

(** Mapping a program that only reads over a list. *)
Lemma run_mapM_pure {A B} (f : A -> prog B) (g : A -> B) (l : list A) (w : W) :
  (forall a w', a ∈ l -> exists tr, run provider (f a) w' = (Ok (g a), w', tr)) ->
  exists tr, run provider (mapM f l) w = (Ok (map g l), w, tr).
Proof.
  intros Hf. induction l as [| a l IH].
  - exists []. reflexivity.
  - destruct IH as (tr & IH); [intros a' w' Hin; apply Hf; right; exact Hin |].
    destruct (Hf a w) as (tr1 & Ha); [left |].
    cbn [mapM]. rewrite run_bind, Ha. cbv beta iota zeta delta [Ok].
    rewrite run_bind. unfold Ok in IH. rewrite IH. cbv beta iota zeta.
    rewrite run_mret. eexists. reflexivity.
Qed.

Lemma run_wrap_row (ns r : handle) (cache : element) (w : W) :
  provider _ (wmi_object_init (Some r)) w = (inr cache, w) ->
  run provider (DITElement_init (inr ns) "" (Some r) []) w
  = (Ok (fresh_members ns r cache), w, [Ev (wmi_object_init (Some r)) (inr cache)]).
Proof.
  intros Hinit. unfold DITElement_init, DITElement_init_base, wmi_object___init__.
  change (nonempty "") with false. cbv beta iota zeta.
  run_simp. rewrite Hinit. cbv beta iota zeta. run_simp. reflexivity.
Qed.

(** Mapping a program that calls no method calls no method, and yields
    one result per element when it returns. *)
Lemma run_mapM_shape {A B} (f : A -> prog B) (l : list A) :
  (forall a w0, existsb is_method (trace provider (f a) w0) = false) ->
  forall w r w' tr,
    run provider (mapM f l) w = (r, w', tr) ->
    existsb is_method tr = false
    /\ forall bs, r = Ok bs -> length bs = length l.
Proof.
  intros Hf. induction l as [| a l IH]; intros w r w' tr.
  - cbn [mapM]. rewrite run_mret. intros [= <- _ <-].
    split; [reflexivity |]. intros bs [= <-]. reflexivity.
  - cbn [mapM]. rewrite run_bind.
    pose proof (Hf a w) as Ha. unfold trace in Ha.
    destruct (run provider (f a) w) as [[[e | b] w1] tr1]; cbn [snd] in Ha;
      cbv beta iota zeta delta [Ok Err].
    + intros [= <- _ <-]. split; [exact Ha | discriminate].
    + rewrite run_bind.
      destruct (run provider (mapM f l) w1) as [[[e | bs'] w2] tr2] eqn:Hrest;
        cbv beta iota zeta delta [Ok Err].
      * destruct (IH _ _ _ _ Hrest) as [Hm _].
        intros [= <- _ <-]. rewrite existsb_app, Ha, Hm. split; [reflexivity | discriminate].
      * destruct (IH _ _ _ _ Hrest) as [Hm Hlen].
        rewrite run_mret. cbv beta iota zeta delta [Ok Err].
        intros [= <- _ <-]. rewrite !existsb_app, Ha, Hm.
        split; [reflexivity |]. intros bs [= <-]. cbn [length]. f_equal. apply Hlen.
        reflexivity.
Qed.

Lemma wrap_row_no_method (ns r : handle) (w : W) :
  existsb is_method (trace provider (DITElement_init (inr ns) "" (Some r) []) w) = false.
Proof.
  unfold trace, DITElement_init, DITElement_init_base, wmi_object___init__.
  change (nonempty "") with false. cbv beta iota zeta delta [Ok Err]. run_simp.
  destruct (provider _ (wmi_object_init (Some r)) w) as [[err | cache] w1];
    cbv beta iota zeta delta [Ok Err].
  - destruct (run_handle_error provider (R := element) err w1) as (e & ->). reflexivity.
  - run_simp. reflexivity.
Qed.

Lemma read_row_no_method (r : handle) (properties : list string) (w : W) :
  existsb is_method
    (trace provider (mapM (fun p => call (getattr r (Str.upper p))) properties) w) = false.
Proof.
  unfold trace.
  destruct (run provider (mapM (fun p => call (getattr r (Str.upper p))) properties) w)
    as [[r0 w'] tr] eqn:Hrun.
  refine (proj1 (run_mapM_shape _ properties _ w r0 w' tr Hrun)).
  intros p w0. unfold trace. rewrite run_call.
  destruct (provider _ (getattr r (Str.upper p)) w0) as [[err | v] w1]; reflexivity.
Qed.

(** A data query calls no method, and when it returns it has asked the
    namespace once and got rows: one tuple per row, or for a "*" query one
    tuple with an item per row. *)
Lemma data_query_shape (self : DITConnection) (wql : string) (w w' : W) r tr :
  run provider (data_query self wql) w = (r, w', tr) ->
  existsb is_method tr = false
  /\ forall rows, r = Ok rows ->
       exists results tr',
         tr = Ev (query (_namespace self) wql) (inr results) :: tr'
         /\ match properties_of wql with
            | inr (p0 :: _) =>
                if String.eqb p0 "*"
                then exists tuple, rows = [tuple] /\ length tuple = length results
                else length rows = length results
            | _ => False
            end.
Proof.
  unfold data_query. rewrite run_try_except_COMI, run_bind, run_call.
  destruct (provider _ (query (_namespace self) wql) w) as [[err | results] w1];
    cbv beta iota zeta delta [Ok Err].
  { destruct (run_handle_error provider (R := list (list query_item)) err w1) as (e & ->).
    intros [= <- _ <-]. split; [reflexivity | discriminate]. }
  destruct (properties_of wql) as [e | [| p0 ps]].
  - rewrite run_raise. cbv beta iota zeta delta [Ok Err].
    destruct e;
      try (intros [= <- _ <-]; split; [reflexivity | discriminate]).
    destruct (run_handle_error provider (R := list (list query_item)) e w1) as (e' & ->).
    intros [= <- _ <-]. split; [reflexivity | discriminate].
  - rewrite run_raise. cbv beta iota zeta delta [Ok Err].
    intros [= <- _ <-]. split; [reflexivity | discriminate].
  - destruct (String.eqb p0 "*").
    + rewrite run_bind.
      destruct (run provider
                  (mapM (fun r0 => DITElement_init (inr (_namespace self)) "" (Some r0) [])
                     results) w1) as [[[e | elems] w2] tr2] eqn:Hm;
        cbv beta iota zeta delta [Ok Err];
        destruct (run_mapM_shape _ results (wrap_row_no_method (_namespace self))
                    _ _ _ _ Hm) as [Hno Hlen].
      * destruct e;
          try (intros [= <- _ <-]; cbn [app existsb is_method orb];
               split; [exact Hno | discriminate]).
        destruct (run_handle_error provider (R := list (list query_item)) e w2)
          as (e' & ->).
        intros [= <- _ <-]. cbn [app existsb is_method orb]. rewrite existsb_app, Hno.
        split; [reflexivity | discriminate].
      * rewrite run_ret. cbv beta iota zeta delta [Ok Err].
        intros [= <- _ <-]. cbn [app existsb is_method orb]. rewrite app_nil_r.
        split; [exact Hno |].
        intros rows [= <-]. eexists _, _. split; [reflexivity |].
        eexists. split; [reflexivity |]. rewrite length_map. apply Hlen. reflexivity.
    + rewrite run_bind.
      destruct (run provider
                  (mapM (fun r0 => mapM (fun p => call (getattr r0 (Str.upper p))) (p0 :: ps))
                     results) w1) as [[[e | vals] w2] tr2] eqn:Hm;
        cbv beta iota zeta delta [Ok Err];
        destruct (run_mapM_shape _ results (fun r0 => read_row_no_method r0 (p0 :: ps))
                    _ _ _ _ Hm) as [Hno Hlen].
      * destruct e;
          try (intros [= <- _ <-]; cbn [app existsb is_method orb];
               split; [exact Hno | discriminate]).
        destruct (run_handle_error provider (R := list (list query_item)) e w2)
          as (e' & ->).
        intros [= <- _ <-]. cbn [app existsb is_method orb]. rewrite existsb_app, Hno.
        split; [reflexivity | discriminate].
      * rewrite run_ret. cbv beta iota zeta delta [Ok Err].
        intros [= <- _ <-]. cbn [app existsb is_method orb]. rewrite app_nil_r.
        split; [exact Hno |].
        intros rows [= <-]. eexists _, _. split; [reflexivity |].
        rewrite length_map. apply Hlen. reflexivity.
Qed.

Lemma properties_of_nonempty wql : properties_of wql <> inr [].
Proof.
  unfold properties_of.
  destruct (Str.find " from" (Str.lower wql)); [| discriminate].
  intros [= Hprops]. apply map_eq_nil in Hprops.
  exact (StrFacts.split_nonempty _ _ Hprops).
Qed.

Lemma run_data_query_values (self : DITConnection) (wql : string)
    (results : list handle) (w w1 : W) p0 ps (value_of : handle -> string -> pyval) :
  provider _ (query (_namespace self) wql) w = (inr results, w1) ->
  properties_of wql = inr (p0 :: ps) ->
  String.eqb p0 "*" = false ->
  (forall r name w', r ∈ results ->
     provider _ (getattr r name) w' = (inr (value_of r name), w')) ->
  exists tr,
    run provider (data_query self wql) w
    = (Ok (map (fun r => map (fun p => QVal (value_of r (Str.upper p))) (p0 :: ps)) results),
       w1, Ev (query (_namespace self) wql) (inr results) :: tr).
Proof.
  intros Hq Hprops Hstar Hread.
  unfold data_query. rewrite run_try_except_COMI, run_bind, run_call, Hq.
  cbv beta iota zeta delta [Ok]. rewrite Hprops, Hstar.
  destruct (run_mapM_pure
              (fun r => mapM (fun p => call (getattr r (Str.upper p))) (p0 :: ps))
              (fun r => map (fun p => value_of r (Str.upper p)) (p0 :: ps))
              results w1) as (tr & Hm).
  { intros r w' Hr.
    apply (run_mapM_pure (fun p => call (getattr r (Str.upper p)))
             (fun p => value_of r (Str.upper p))).
    intros p w'' _. eexists. rewrite run_call, Hread by exact Hr. reflexivity. }
  rewrite run_bind, Hm. cbv beta iota zeta delta [Ok]. rewrite run_ret.
  cbv beta iota zeta delta [Ok]. exists (tr ++ []). cbn [app]. f_equal. f_equal.
  f_equal. rewrite !map_map. apply map_ext. intros r. rewrite map_map. reflexivity.
Qed.

Lemma run_data_query_star (self : DITConnection) (wql : string)
    (results : list handle) (w w1 : W) p0 ps (cache_of : handle -> element) :
  provider _ (query (_namespace self) wql) w = (inr results, w1) ->
  properties_of wql = inr (p0 :: ps) ->
  String.eqb p0 "*" = true ->
  (forall r w', r ∈ results ->
     provider _ (wmi_object_init (Some r)) w' = (inr (cache_of r), w')) ->
  exists tr,
    run provider (data_query self wql) w
    = (Ok [map (fun r => QElem (fresh_members (_namespace self) r (cache_of r))) results],
       w1, Ev (query (_namespace self) wql) (inr results) :: tr).
Proof.
  intros Hq Hprops Hstar Hinit.
  unfold data_query. rewrite run_try_except_COMI, run_bind, run_call, Hq.
  cbv beta iota zeta delta [Ok]. rewrite Hprops, Hstar.
  destruct (run_mapM_pure
              (fun r => DITElement_init (inr (_namespace self)) "" (Some r) [])
              (fun r => fresh_members (_namespace self) r (cache_of r))
              results w1) as (tr & Hm).
  { intros r w' Hr. eexists. apply run_wrap_row. apply Hinit. exact Hr. }
  rewrite run_bind, Hm. cbv beta iota zeta delta [Ok]. rewrite run_ret.
  cbv beta iota zeta delta [Ok]. exists (tr ++ []). cbn [app]. rewrite map_map.
  reflexivity.
Qed.

Lemma run_data_query_no_from (self : DITConnection) (wql : string)
    (results : list handle) (w w1 : W) e :
  provider _ (query (_namespace self) wql) w = (inr results, w1) ->
  properties_of wql = inl e ->
  run provider (data_query self wql) w
  = (Err e, w1, [Ev (query (_namespace self) wql) (inr results)]).
Proof.
  intros Hq Hprops.
  unfold data_query. rewrite run_try_except_COMI, run_bind, run_call, Hq.
  cbv beta iota zeta delta [Ok]. rewrite Hprops.
  unfold properties_of in Hprops.
  destruct (Str.find " from" (Str.lower wql)); [discriminate |].
  injection Hprops as <-. rewrite run_raise. reflexivity.
Qed.

(** C5: the property names of a data query are the tokens of its select
    list; when the first one is not "*" the result has one tuple per row
    with the values of the upper-cased properties in the listed order,
    and when it is "*" the result is a list holding the tuple of the
    wrapped result objects. *)
Theorem data_query_rows (self : DITConnection) (wql : string)
    (results : list handle) (w w1 : W) :
  provider _ (query (_namespace self) wql) w = (inr results, w1) ->
  match properties_of wql with
  | inr properties =>
      select_tokens wql properties
      /\ match properties with
         | p0 :: _ =>
             if String.eqb p0 "*" then
               forall cache_of : handle -> element,
                 (forall r w', provider _ (wmi_object_init (Some r)) w'
                               = (inr (cache_of r), w')) ->
                 outcome provider (data_query self wql) w
                 = Ok [map (fun r => QElem (fresh_members (_namespace self) r (cache_of r)))
                           results]
             else
               forall value_of : handle -> string -> pyval,
                 (forall r name w', provider _ (getattr r name) w'
                                    = (inr (value_of r name), w')) ->
                 outcome provider (data_query self wql) w
                 = Ok (map (fun r => map (fun p => QVal (value_of r (Str.upper p)))
                                         properties)
                           results)
         | [] => False
         end
  | inl e => outcome provider (data_query self wql) w = Err e
  end.
Proof.
  intros Hq.
  pose proof (StrFacts.properties_of_select_tokens wql) as Htok.
  pose proof (properties_of_nonempty wql) as Hne.
  destruct (properties_of wql) as [e | properties] eqn:Hprops.
  - unfold outcome. rewrite (run_data_query_no_from self wql results w w1 e Hq Hprops).
    reflexivity.
  - split; [exact Htok |].
    destruct properties as [| p0 ps]; [congruence |].
    destruct (String.eqb p0 "*") eqn:Hstar.
    + intros cache_of Hinit.
      destruct (run_data_query_star self wql results w w1 p0 ps cache_of
                  Hq Hprops Hstar (fun r w' _ => Hinit r w')) as (tr & Hrun).
      unfold outcome. rewrite Hrun. reflexivity.
    + intros value_of Hread.
      destruct (run_data_query_values self wql results w w1 p0 ps value_of
                  Hq Hprops Hstar (fun r name w' _ => Hread r name w')) as (tr & Hrun).
      unfold outcome. rewrite Hrun. reflexivity.
Qed.

End QueryFacts.

Lemma data_query_rows_witness :
  rows_provider _ (query 3%N "select LASTNAME, FIRSTNAME from Lnl_Cardholder where ZIP is NULL") tt
  = (inr [101%N; 102%N], tt)
  /\ outcome rows_provider
       (@data_query wmii_model (Build_DITConnection 3%N)
          "select LASTNAME, FIRSTNAME from Lnl_Cardholder where ZIP is NULL") tt
     = Ok [[QVal (PStr "Lake"); QVal (PStr "Lisa")];
           [QVal (PStr "Twain"); QVal (PStr "Mark")]].
Proof.
  split; [reflexivity |].
  pose proof (@data_query_rows wmii_model unit rows_provider (Build_DITConnection 3%N)
                "select LASTNAME, FIRSTNAME from Lnl_Cardholder where ZIP is NULL"
                [101%N; 102%N] tt tt eq_refl) as Hq.
  change (properties_of "select LASTNAME, FIRSTNAME from Lnl_Cardholder where ZIP is NULL")
    with (@inr exn _ ["LASTNAME"; "FIRSTNAME"]) in Hq.
  cbv beta iota in Hq. destruct Hq as [_ Hq].
  change (String.eqb "LASTNAME" "*") with false in Hq. cbv beta iota in Hq.
  rewrite (Hq rows_value (fun r name w' => match w' with tt => eq_refl end)).
  reflexivity.
Defined.

(** ** Connection bootstrap *)
Section ConnectFacts.
Context `{Wmii} {W : Type} (provider : forall X, ext X -> W -> X * W).

(** The calls of a bootstrap: [CoInitialize] comes first or not at all,
    and the only server connection is the one asked for. *)
Lemma connect_trace (server username password : string) (coinitialize : bool) (w : W) :
  let tr := trace provider
              (_connect_dit (Some server) (Some username) (Some password)
                 (Some coinitialize)) w in
  (if coinitialize
   then exists reply rest, tr = Ev CoInitialize reply :: rest
                           /\ forallb touches_COM rest = true
   else forallb touches_COM tr = true)
  /\ Forall (fun t => t = (server, "Root\OnGuard", username, password)) (connect_targets tr)
  /\ (forallb (fun e => negb (failed e)) tr = true ->
        exists conn,
          outcome provider
            (_connect_dit (Some server) (Some username) (Some password)
               (Some coinitialize)) w = Ok conn).
Proof.
  cbv zeta. unfold trace, outcome, _connect_dit. cbn [default from_option id].
  assert (Htail : forall w0 (pre : list event),
    let '(r, w', tr) :=
      run provider
        (try_except_COMI (
           Ret tt ≫= fun _ =>
           call (Dispatch "WbemScripting.SWbemLocator") ≫= fun locator =>
           call (ConnectServer locator server "Root\OnGuard" username password)
             ≫= fun wbemsvc => call (WMI wbemsvc))
         ≫= fun conn => Ret (Build_DITConnection conn)) w0 in
    forallb touches_COM tr = true
    /\ Forall (fun t => t = (server, "Root\OnGuard", username, password))
         (connect_targets tr)
    /\ (forallb (fun e => negb (failed e)) tr = true -> exists conn, r = Ok conn)).
  { intros w0 _. run_simp.
    destruct (provider _ (Dispatch "WbemScripting.SWbemLocator") w0)
      as [[err | locator] w1]; cbv beta iota zeta.
    { destruct (run_handle_error provider (R := handle) err w1) as (e & ->).
      cbn [app]. split; [reflexivity |]. split; [constructor | discriminate]. }
    run_simp.
    destruct (provider _ (ConnectServer locator server "Root\OnGuard" username password) w1)
      as [[err | wbemsvc] w2]; cbv beta iota zeta.
    { destruct (run_handle_error provider (R := handle) err w2) as (e & ->).
      cbn [app]. split; [reflexivity |]. split; [repeat constructor | discriminate]. }
    run_simp.
    destruct (provider _ (WMI wbemsvc) w2) as [[err | conn] w3]; cbv beta iota zeta.
    { destruct (run_handle_error provider (R := handle) err w3) as (e & ->).
      cbn [app]. split; [reflexivity |]. split; [repeat constructor | discriminate]. }
    run_simp. cbn [app]. split; [reflexivity |]. split; [repeat constructor | eauto]. }
  destruct coinitialize.
  - run_simp.
    destruct (provider _ CoInitialize w) as [[err | []] w0]; cbv beta iota zeta.
    + destruct (run_handle_error provider (R := handle) err w0) as (e & ->).
      cbn [app fst snd]. split; [| split; [constructor | discriminate]].
      eexists _, _. split; reflexivity.
    + specialize (Htail w0 []). revert Htail. run_simp.
      destruct (provider _ (Dispatch "WbemScripting.SWbemLocator") w0)
        as [[err | locator] w1]; cbv beta iota zeta.
      { destruct (run_handle_error provider (R := handle) err w1) as (e & ->).
        cbn [app fst snd]. intros (Ht & Hc & Hl).
        split; [eexists _, _; split; [reflexivity | exact Ht] |].
        split; [exact Hc | discriminate]. }
      run_simp.
      destruct (provider _ (ConnectServer locator server "Root\OnGuard" username password)
                  w1) as [[err | wbemsvc] w2]; cbv beta iota zeta.
      { destruct (run_handle_error provider (R := handle) err w2) as (e & ->).
        cbn [app fst snd]. intros (Ht & Hc & Hl).
        split; [eexists _, _; split; [reflexivity | exact Ht] |].
        split; [exact Hc | discriminate]. }
      run_simp.
      destruct (provider _ (WMI wbemsvc) w2) as [[err | conn] w3]; cbv beta iota zeta.
      { destruct (run_handle_error provider (R := handle) err w3) as (e & ->).
        cbn [app fst snd]. intros (Ht & Hc & Hl).
        split; [eexists _, _; split; [reflexivity | exact Ht] |].
        split; [exact Hc | discriminate]. }
      run_simp. cbn [app fst snd]. intros (Ht & Hc & Hl).
      split; [eexists _, _; split; [reflexivity | exact Ht] |].
      split; [exact Hc | eauto].
  - specialize (Htail w []).
    destruct (run provider _ w) as [[r w'] tr]. exact Htail.
Qed.

(** C7: [DIT] connects to the namespace Root\OnGuard of the given server
    (the local one by default) with the given credentials and returns a
    connection whose [namespace] is the raw namespace connection; with
    [coinitialize] the COM libraries are initialised before any other
    call. *)
Theorem connect_bootstrap (server username password : option string)
    (coinitialize : option bool) (w : W) :
  let p := DIT server username password coinitialize in
  let target := (default "." server, "Root\OnGuard",
                 default "" username, default "" password) in
  (if default false coinitialize
   then exists reply rest, trace provider p w = Ev CoInitialize reply :: rest
                           /\ forallb touches_COM rest = true
   else forallb touches_COM (trace provider p w) = true)
  /\ Forall (fun t => t = target) (connect_targets (trace provider p w))
  /\ (forallb (fun e => negb (failed e)) (trace provider p w) = true ->
        exists conn, outcome provider p w = Ok conn)
  /\ (forall w0 locator w1 wbemsvc w2 conn w3,
        (if default false coinitialize
         then provider _ CoInitialize w = (inr tt, w0) else w0 = w) ->
        provider _ (Dispatch "WbemScripting.SWbemLocator") w0 = (inr locator, w1) ->
        provider _ (ConnectServer locator (default "." server) "Root\OnGuard"
                      (default "" username) (default "" password)) w1
          = (inr wbemsvc, w2) ->
        provider _ (WMI wbemsvc) w2 = (inr conn, w3) ->
        outcome provider p w = Ok (Build_DITConnection conn)
        /\ namespace (Build_DITConnection conn) = conn
        /\ connect_targets (trace provider p w) = [target]).
Proof.
  cbv zeta.
  pose proof (connect_trace (default "." server) (default "" username)
                (default "" password) (default false coinitialize) w) as Htr.
  cbv zeta in Htr.
  assert (Hsame :
    DIT server username password coinitialize
    = _connect_dit (Some (default "." server)) (Some (default "" username))
        (Some (default "" password)) (Some (default false coinitialize))).
  { destruct server, username, password, coinitialize; reflexivity. }
  rewrite Hsame. destruct Htr as (Hfirst & Htargets & Hlive).
  split; [exact Hfirst |]. split; [exact Htargets |]. split; [exact Hlive |].
  intros w0 locator w1 wbemsvc w2 conn w3 Hco Hdisp Hconn Hwmi.
  unfold outcome, trace, _connect_dit. cbn [default from_option id].
  destruct (default false coinitialize).
  - run_simp. rewrite Hco. cbv beta iota zeta. run_simp.
    rewrite Hdisp. cbv beta iota zeta. run_simp.
    rewrite Hconn. cbv beta iota zeta. run_simp.
    rewrite Hwmi. cbv beta iota zeta. run_simp. cbn [fst snd app]. auto.
  - subst w0. run_simp.
    rewrite Hdisp. cbv beta iota zeta. run_simp.
    rewrite Hconn. cbv beta iota zeta. run_simp.
    rewrite Hwmi. cbv beta iota zeta. run_simp. cbn [fst snd app]. auto.
Qed.

End ConnectFacts.

Lemma connect_bootstrap_witness :
  quiet_provider _ CoInitialize tt = (inr tt, tt)
  /\ outcome quiet_provider (@DIT wmii_model (Some "ms5") None None (Some true)) tt
     = Ok (Build_DITConnection 3%N)
  /\ connect_targets
       (trace quiet_provider (@DIT wmii_model (Some "ms5") None None (Some true)) tt)
     = [("ms5", "Root\OnGuard", "", "")].
Proof.
  split; [reflexivity |].
  destruct (@connect_bootstrap wmii_model unit quiet_provider (Some "ms5") None None
              (Some true) tt) as (_ & _ & _ & Hok).
  destruct (Hok tt 1%N tt 2%N tt 3%N tt eq_refl eq_refl eq_refl eq_refl)
    as (Hout & _ & Htargets).
  split; [exact Hout | exact Htargets].
Defined.



(** ** Opening a door *)
Section DoorFacts.
Context `{Wmii} {W : Type} (provider : forall X, ext X -> W -> X * W).

Lemma properties_of_panel_wql panel : properties_of (panel_wql panel) = inr ["ID"].
Proof. reflexivity. Qed.

Lemma properties_of_reader_wql id reader :
  properties_of (reader_wql id reader) = inr ["*"].
Proof. reflexivity. Qed.

(** No panel row: the reader is reported missing, and neither the reader
    query nor the door pulse is attempted. *)
Lemma open_door_no_panel (self : DITConnection) (panel reader : string) (w w1 : W) :
  provider _ (query (_namespace self) (panel_wql panel)) w = (inr [], w1) ->
  run provider (open_door self panel reader) w
  = (Err (not_found "reader" reader), w1,
     [Ev (query (_namespace self) (panel_wql panel)) (inr [])]).
Proof.
  intros Hq. unfold open_door. fold (panel_wql panel).
  rewrite run_bind.
  unfold data_query at 1. rewrite run_try_except_COMI, run_bind, run_call, Hq.
  cbv beta iota zeta delta [Ok]. rewrite properties_of_panel_wql.
  change (String.eqb "ID" "*") with false. cbv beta iota.
  cbn [mapM]. run_simp. reflexivity.
Qed.

(** The panel is found and the reader query has no rows: the one tuple
    [data_query] builds for a "*" query is empty, the list around it is
    not, and taking the first reader fails with [IndexError]; the
    "not found" branch is not reached. *)
Lemma open_door_no_reader (self : DITConnection) (panel reader : string)
    (r : handle) (rs : list handle) (value_of : handle -> string -> pyval) (w w1 w2 : W) :
  provider _ (query (_namespace self) (panel_wql panel)) w = (inr (r :: rs), w1) ->
  (forall r' name w', provider _ (getattr r' name) w' = (inr (value_of r' name), w')) ->
  provider _ (query (_namespace self) (reader_wql (value_of r "ID") reader)) w1
    = (inr [], w2) ->
  outcome provider (open_door self panel reader) w
  = Err (IndexError "tuple index out of range").
Proof.
  intros Hq1 Hread Hq2. unfold outcome, open_door. fold (panel_wql panel).
  destruct (run_data_query_values provider self (panel_wql panel) (r :: rs) w w1 "ID" []
              value_of Hq1 (properties_of_panel_wql panel) eq_refl
              (fun r' name w' _ => Hread r' name w')) as (tr1 & Hrun1).
  rewrite run_bind, Hrun1. cbv beta iota zeta delta [Ok].
  cbn [map item0 Str.upper].
  change (String (Str.upper_char "I") (String (Str.upper_char "D") EmptyString)) with "ID".
  run_simp. cbn [item0]. run_simp. cbn [str_item].
  fold (reader_wql (value_of r "ID") reader).
  destruct (run_data_query_star provider self (reader_wql (value_of r "ID") reader) []
              w1 w2 "*" [] (fun _ => ∅) Hq2
              (properties_of_reader_wql (value_of r "ID") reader) eq_refl)
    as (tr2 & Hrun2).
  { intros r' w' Hin. inversion Hin. }
  rewrite Hrun2. cbv beta iota zeta delta [Ok].
  cbn [map item0]. run_simp. cbn [item0]. run_simp. reflexivity.
Qed.

(** [OpenDoor] is reached only through two queries that both returned
    rows: the panel query and a reader query. *)
Lemma open_door_pulse_needs_rows (self : DITConnection) (panel reader : string) (w : W) :
  existsb is_method (trace provider (open_door self panel reader) w) = true ->
  exists panels readers q,
    panels <> [] /\ readers <> []
    /\ In (Ev (query (_namespace self) (panel_wql panel)) (inr panels))
          (trace provider (open_door self panel reader) w)
    /\ In (Ev (query (_namespace self) q) (inr readers))
          (trace provider (open_door self panel reader) w).
Proof.
  unfold trace, open_door. fold (panel_wql panel). rewrite run_bind.
  destruct (run provider (data_query self (panel_wql panel)) w)
    as [[[e | panel_id] w1] tr1] eqn:Hq1;
    destruct (data_query_shape provider _ _ _ _ _ _ Hq1) as [Hno1 Hrows1];
    cbv beta iota zeta delta [Ok Err]; cbn [snd].
  { rewrite Hno1. discriminate. }
  destruct (Hrows1 panel_id eq_refl) as (panels & tr1' & -> & Hshape1).
  rewrite properties_of_panel_wql in Hshape1.
  change (String.eqb "ID" "*") with false in Hshape1. cbv beta iota in Hshape1.
  destruct panel_id as [| row rest].
  { unfold _not_found_error. rewrite run_raise. cbn [snd].
    rewrite ?existsb_app, ?Hno1. discriminate. }
  assert (Hpanels : panels <> []) by (intros ->; discriminate).
  cbn [item0]. run_simp.
  destruct row as [| id row'].
  { cbn [item0]. run_simp. cbn [snd]. rewrite ?existsb_app, ?Hno1. discriminate. }
  cbn [item0]. run_simp.
  set (q := "select * from Lnl_Reader where PanelID = " +:+ str_item id
            +:+ " and Name = " +:+ dquote +:+ reader +:+ dquote).
  destruct (run provider (data_query self q) w1) as [[[e | lnl_reader] w2] tr2] eqn:Hq2;
    destruct (data_query_shape provider _ _ _ _ _ _ Hq2) as [Hno2 Hrows2];
    cbv beta iota zeta delta [Ok Err]; cbn [snd].
  { rewrite ?existsb_app, ?Hno1, ?Hno2. discriminate. }
  destruct (Hrows2 lnl_reader eq_refl) as (readers & tr2' & -> & Hshape2).
  assert (Hstar : properties_of q = inr ["*"]) by (destruct id; reflexivity).
  rewrite Hstar in Hshape2.
  change (String.eqb "*" "*") with true in Hshape2. cbv beta iota in Hshape2.
  destruct Hshape2 as (tuple & -> & Hlen).
  cbn [item0]. run_simp.
  destruct tuple as [| rdr tuple'].
  { cbn [item0]. run_simp. cbn [snd]. rewrite ?existsb_app, ?Hno1, ?Hno2. discriminate. }
  cbn [item0]. run_simp.
  destruct (run provider (call_method rdr "OpenDoor") w2) as [[[e3 | v3] w3] tr3];
    cbv beta iota zeta delta [Ok Err]; run_simp; cbn [snd];
    intros _; exists panels, readers, q;
    (split; [exact Hpanels |]); (split; [intros ->; discriminate |]);
    (split; [apply in_or_app; left; left; reflexivity |]);
    apply in_or_app; right; cbn [app]; left; reflexivity.
Qed.

End DoorFacts.

(** C8 at the failing input: panel "3300" exists, reader "CK" does not.
    [open_door] raises IndexError, not the x_wmi that names the panel. *)
Theorem open_door_reader_missing_raises_IndexError :
  outcome door_provider (@open_door wmii_model (Build_DITConnection 3%N) "3300" "CK") tt
  = Err (IndexError "tuple index out of range")
  /\ outcome door_provider (@open_door wmii_model (Build_DITConnection 3%N) "3300" "CK") tt
     <> Err (not_found "panel" "3300")
  /\ existsb is_method
       (trace door_provider (@open_door wmii_model (Build_DITConnection 3%N) "3300" "CK") tt)
     = false.
Proof.
  split; [reflexivity |]. split; [discriminate | reflexivity].
Qed.

(** With the panel and the reader both found, the door is pulsed once, on
    the first reader. *)
Example open_door_pulses :
  outcome rows_provider (@open_door wmii_model (Build_DITConnection 3%N) "3300" "CK") tt
  = Ok tt
  /\ filter (fun e => is_method e = true)
       (trace rows_provider (@open_door wmii_model (Build_DITConnection 3%N) "3300" "CK") tt)
     = [Ev (method 101%N "OpenDoor") (inr PNone)].
Proof. split; reflexivity. Qed.

(** ** More on the status tables *)
Module StatusMore.
Import Status.

Lemma filter_agree {A} (P Q : A -> Prop) `{!forall x, Decision (P x)}
    `{!forall x, Decision (Q x)} (l : list A) :
  (forall x, x ∈ l -> (P x <-> Q x)) -> filter P l = filter Q l.
Proof.
  induction l as [| a l IH]; intros Hpq; [reflexivity |].
  rewrite !filter_cons.
  assert (Ha : P a <-> Q a) by (apply Hpq; left).
  rewrite IH by (intros x Hx; apply Hpq; right; exact Hx).
  destruct (decide (P a)), (decide (Q a)); tauto.
Qed.

Lemma land_or_codes (d : OD.t) (code : Z) :
  code ∈ OD.keys d -> Z.land code (or_codes d) = code.
Proof.
  intros Hin. apply Z.bits_inj'. intros i _.
  rewrite Z.land_spec.
  destruct (Z.testbit code i) eqn:Hc; [| reflexivity].
  cbn [andb]. apply StatusFacts.or_codes_bit. exists code. auto.
Qed.

(** X1: bits of the status word that are no code of the table change
    nothing. *)
Theorem decode_ignores_foreign_bits (self : hwstatus) (status : Z) :
  decode_of self = HWStatus_decode ->
  decode self (Z.land status (or_codes (items self))) = decode self status.
Proof.
  intros Hm. unfold decode. rewrite Hm. unfold HWStatus_decode_body. f_equal.
  apply filter_agree. intros code Hin. unfold selects.
  rewrite (Z.land_comm status), Z.land_assoc, (land_or_codes _ _ Hin). tauto.
Qed.

Lemma decode_ignores_foreign_bits_witness :
  decode_of READER_STATUS = HWStatus_decode
  /\ decode READER_STATUS 0x301 = decode READER_STATUS 0x101.
Proof.
  split; [reflexivity |].
  rewrite <- (decode_ignores_foreign_bits READER_STATUS 0x301 eq_refl). reflexivity.
Defined.

Lemma encodes_lor status extra code :
  encodes status code -> encodes (Z.lor status extra) code.
Proof.
  intros [H0 | (i & Hi & Hc & Hs)]; [left; exact H0 |].
  right. exists i. rewrite Z.lor_spec, Hs. auto.
Qed.

Lemma picks_sublist (P Q : Z -> Prop) (d : OD.t) l1 l2 :
  (forall k, P k -> Q k) -> picks P d l1 -> picks Q d l2 -> l1 `sublist_of` l2.
Proof.
  intros Hpq H1. revert l2.
  induction H1 as [| k v d l Hk H1 IH | k v d l Hk H1 IH]; intros l2 H2;
    inversion H2; subst.
  - constructor.
  - apply sublist_skip. apply IH. assumption.
  - exfalso. auto.
  - apply sublist_cons. apply IH. assumption.
  - apply IH. assumption.
Qed.

(** X2: setting more bits in the status word only adds names: what a
    word decodes to is kept, in order, in the decoding of any word that
    contains it. *)
Theorem decode_monotone (self : hwstatus) (status extra : Z) :
  decode_of self = HWStatus_decode ->
  NoDup (OD.keys (items self)) ->
  exists l1 l2,
    decode self status = Ok l1
    /\ decode self (Z.lor status extra) = Ok l2
    /\ l1 `sublist_of` l2.
Proof.
  intros Hm Hnd. unfold decode. rewrite Hm. unfold HWStatus_decode_body.
  destruct (StatusFacts.decode_body_suffix [] (items self) status Hnd) as (l1 & H1 & Hp1).
  destruct (StatusFacts.decode_body_suffix [] (items self) (Z.lor status extra) Hnd)
    as (l2 & H2 & Hp2).
  exists l1, l2. split; [exact H1 |]. split; [exact H2 |].
  eapply picks_sublist; [| exact Hp1 | exact Hp2].
  intros k. apply encodes_lor.
Qed.

Lemma decode_monotone_witness :
  decode_of PANEL_STATUS = HWStatus_decode
  /\ NoDup (OD.keys (items PANEL_STATUS))
  /\ exists l1 l2,
       decode PANEL_STATUS 0x1 = Ok l1
       /\ decode PANEL_STATUS (Z.lor 0x1 0x10) = Ok l2
       /\ l1 `sublist_of` l2.
Proof.
  assert (Hnd : NoDup (OD.keys (items PANEL_STATUS))).
  { apply (bool_decide_unpack _). vm_compute. exact I. }
  split; [reflexivity |]. split; [exact Hnd |].
  exact (decode_monotone PANEL_STATUS 0x1 0x10 eq_refl Hnd).
Defined.

Lemma picks_iff (P Q : Z -> Prop) (d : OD.t) l :
  (forall k, P k <-> Q k) -> picks P d l -> picks Q d l.
Proof.
  intros Hpq Hp. induction Hp as [| k v d l Hk Hp IH | k v d l Hk Hp IH].
  - constructor.
  - apply picks_take; [apply Hpq; exact Hk | exact IH].
  - apply picks_skip; [rewrite <- Hpq; exact Hk | exact IH].
Qed.

Lemma picks_key (d : OD.t) (k0 : Z) :
  NoDup (OD.keys d) ->
  picks (fun k => k = k0) d
    (match OD.getitem d k0 with Some v => [v] | None => [] end).
Proof.
  induction d as [| [k v] d IH]; intros Hnd; [constructor |].
  cbn [OD.keys map fst] in Hnd. apply NoDup_cons in Hnd as [Hk Hnd].
  cbn [OD.getitem]. destruct (Z.eqb_spec k k0) as [-> | Hne].
  - apply picks_take; [reflexivity |].
    specialize (IH Hnd).
    destruct (OD.getitem d k0) as [v' |] eqn:Hg; [| exact IH].
    exfalso. apply Hk. apply StatusFacts.keys_in_iff. eauto.
  - apply picks_skip; [exact Hne | exact (IH Hnd)].
Qed.

Lemma encodes_zero code : encodes 0 code <-> code = 0.
Proof.
  split; [| intros ->; left; reflexivity].
  intros [H0 | (i & _ & _ & Hs)]; [exact H0 |].
  rewrite Z.bits_0 in Hs. discriminate.
Qed.

Lemma picks_includes (P : Z -> Prop) (d : OD.t) l k v :
  picks P d l -> P k -> (k, v) ∈ d -> v ∈ l.
Proof.
  intros Hp Hk. induction Hp as [| k' v' d l Hk' Hp IH | k' v' d l Hk' Hp IH];
    intros Hin.
  - inversion Hin.
  - apply elem_of_cons in Hin as [[= -> ->] | Hin]; [left | right; auto].
  - apply elem_of_cons in Hin as [[= -> ->] | Hin]; [contradiction | auto].
Qed.

(** X3: the status word 0 decodes to nothing, unless the table has a code
    0; the name of a code 0 is part of every decoding, whatever the status
    word. *)
Theorem decode_zero_code (self : hwstatus) :
  decode_of self = HWStatus_decode ->
  NoDup (OD.keys (items self)) ->
  decode self 0 = Ok (match OD.getitem (items self) 0 with Some v => [v] | None => [] end)
  /\ forall v status,
       (0, v) ∈ items self ->
       exists l, decode self status = Ok l /\ v ∈ l.
Proof.
  intros Hm Hnd. unfold decode. rewrite Hm. unfold HWStatus_decode_body. split.
  - destruct (StatusFacts.decode_body_suffix [] (items self) 0 Hnd) as (l & Hl & Hp).
    cbn [app] in Hl. rewrite Hl. f_equal.
    eapply StatusFacts.picks_functional; [exact Hp |].
    eapply picks_iff; [| apply picks_key; exact Hnd].
    intros k. symmetry. apply encodes_zero.
  - intros v status Hin.
    destruct (StatusFacts.decode_body_suffix [] (items self) status Hnd) as (l & Hl & Hp).
    exists l. split; [exact Hl |].
    eapply picks_includes; [exact Hp | left; reflexivity | exact Hin].
Qed.

Lemma decode_zero_code_witness :
  decode_of READER_STATUS = HWStatus_decode
  /\ NoDup (OD.keys (items READER_STATUS))
  /\ decode READER_STATUS 0 = Ok [].
Proof.
  assert (Hnd : NoDup (OD.keys (items READER_STATUS))).
  { apply (bool_decide_unpack _). vm_compute. exact I. }
  split; [reflexivity |]. split; [exact Hnd |].
  exact (proj1 (decode_zero_code READER_STATUS eq_refl Hnd)).
Defined.

Lemma setitem_fresh (k : Z) (v : string) (d : OD.t) :
  k ∉ OD.keys d -> OD.setitem k v d = d ++ [(k, v)].
Proof.
  induction d as [| [k' v'] d IH]; intros Hk; [reflexivity |].
  cbn [OD.setitem]. destruct (Z.eqb_spec k' k) as [-> | Hne].
  - exfalso. apply Hk. left.
  - cbn [app]. f_equal. apply IH. intros Hin. apply Hk. right. exact Hin.
Qed.

Lemma picks_app (P : Z -> Prop) (d1 d2 : OD.t) l1 l2 :
  picks P d1 l1 -> picks P d2 l2 -> picks P (d1 ++ d2) (l1 ++ l2).
Proof.
  intros H1 H2. induction H1; cbn [app]; [exact H2 | |].
  - apply picks_take; assumption.
  - apply picks_skip; assumption.
Qed.

(** X4: a table that adds a new code to another one (as [_PanelStatus]
    adds 0x10 to the device codes) decodes every status word as the other
    table does, followed by the new name when the new code is selected. *)
Theorem decode_added_code (d : OD.t) (k : Z) (v : string) (status : Z) :
  NoDup (OD.keys d) ->
  k ∉ OD.keys d ->
  exists l,
    decode (HWStatus HWStatus_decode d) status = Ok l
    /\ decode (HWStatus HWStatus_decode (OD.setitem k v d)) status
       = Ok (l ++ (if selects status k then [v] else [])).
Proof.
  intros Hnd Hk. unfold decode. cbn [decode_of items]. unfold HWStatus_decode_body.
  rewrite (setitem_fresh k v d Hk).
  assert (Hnd' : NoDup (OD.keys (d ++ [(k, v)]))).
  { unfold OD.keys. rewrite map_app. apply NoDup_app. split; [exact Hnd |].
    split; [| repeat constructor; intros Hin; inversion Hin].
    intros x Hx Hx'. apply list_elem_of_singleton in Hx'. subst x. exact (Hk Hx). }
  destruct (StatusFacts.decode_body_suffix [] d status Hnd) as (l & Hl & Hp).
  destruct (StatusFacts.decode_body_suffix [] (d ++ [(k, v)]) status Hnd')
    as (l' & Hl' & Hp').
  exists l. split; [exact Hl |]. cbn [app] in Hl'. rewrite Hl'. f_equal.
  eapply StatusFacts.picks_functional; [exact Hp' |].
  apply picks_app; [exact Hp |].
  destruct (selects status k) eqn:Hs.
  - apply picks_take; [apply StatusFacts.selects_encodes; exact Hs | constructor].
  - apply picks_skip; [| constructor].
    rewrite <- StatusFacts.selects_encodes, Hs. discriminate.
Qed.

Lemma decode_added_code_witness :
  NoDup (OD.keys _DeviceStatus)
  /\ (0x10 ∉ OD.keys _DeviceStatus)
  /\ exists l,
       decode ALARM_PANEL_STATUS 0x11 = Ok l
       /\ decode PANEL_STATUS 0x11 = Ok (l ++ ["DOWNLOADING_FIRMWARE"]).
Proof.
  assert (Hnd : NoDup (OD.keys _DeviceStatus)).
  { apply (bool_decide_unpack _). vm_compute. exact I. }
  assert (Hk : 0x10 ∉ OD.keys _DeviceStatus).
  { apply (bool_decide_unpack _). vm_compute. exact I. }
  split; [exact Hnd |]. split; [exact Hk |].
  exact (decode_added_code _DeviceStatus 0x10 "DOWNLOADING_FIRMWARE" 0x11 Hnd Hk).
Defined.

Lemma getitem_setitem (d : OD.t) (k k' : Z) (v : string) :
  OD.getitem (OD.setitem k v d) k' = if k =? k' then Some v else OD.getitem d k'.
Proof.
  induction d as [| [k0 v0] d IH]; cbn [OD.setitem OD.getitem].
  - destruct (k =? k'); reflexivity.
  - destruct (Z.eqb_spec k0 k) as [-> | Hne]; cbn [OD.getitem].
    + destruct (k =? k'); reflexivity.
    + rewrite IH. destruct (Z.eqb_spec k0 k') as [-> | Hne'].
      * destruct (Z.eqb_spec k k') as [-> | _]; [contradiction | reflexivity].
      * reflexivity.
Qed.

(** X5: with the exact-lookup decode of [_OutputStatus], a table that adds
    a code (as [_InputStatus] does) answers [[name]] for the new code and
    answers every other status, key or not, as the table it extends. *)
Theorem exact_decode_added_code (d : OD.t) (k : Z) (v : string) (status : Z) :
  decode (HWStatus OutputStatus_decode (OD.setitem k v d)) status
  = if k =? status then Ok [v] else decode (HWStatus OutputStatus_decode d) status.
Proof.
  unfold decode. cbn [decode_of items]. unfold OutputStatus_decode_body, lookup_or_raise.
  rewrite getitem_setitem. destruct (k =? status); reflexivity.
Qed.

Lemma first_known_unknown (parents : list string) :
  first_known parents = None <->
  Forall (fun c => status_cls_get _status_cls c = None) parents.
Proof.
  induction parents as [| p ps IH]; cbn [first_known].
  - split; [constructor | reflexivity].
  - destruct (status_cls_get _status_cls p) as [t |] eqn:Hp.
    + split; [discriminate |]. intros Hall. apply Forall_cons in Hall as [Hp' _].
      congruence.
    + rewrite IH. split; [intros Hall; constructor; assumption |].
      intros Hall. apply Forall_cons in Hall as [_ Hall]. exact Hall.
Qed.

Lemma decode_not_ValueError (t : hwstatus) (status : Z) msg :
  decode t status <> Err (ValueError msg).
Proof.
  unfold decode. destruct (decode_of t).
  - unfold HWStatus_decode_body.
    generalize (filter (fun code => selects status code = true) (OD.keys (items t))).
    intros l. induction l as [| a l IH]; cbn [mapM_result]; [discriminate |].
    unfold lookup_or_raise at 1. destruct (OD.getitem (items t) a); [| discriminate].
    destruct (mapM_result (lookup_or_raise (items t)) l) as [e | bs]; [| discriminate].
    intros [= ->]. apply IH. reflexivity.
  - unfold OutputStatus_decode_body, lookup_or_raise.
    destruct (OD.getitem (items t) status); discriminate.
Qed.

(** X6: [decode_status] raises ValueError exactly when neither the class
    of the device nor any class of its derivation has a table; otherwise
    it decodes with the table of the device class when that has one, and
    else with the table of the nearest parent that has one. *)
Theorem decode_status_dispatch (device_cls : string) (derivation : list string)
    (dit_status : Z) :
  (Forall (fun c => status_cls_get _status_cls c = None) (device_cls :: derivation) <->
   exists msg, decode_status device_cls derivation dit_status = Err (ValueError msg))
  /\ (forall t, first_known (device_cls :: derivation) = Some t ->
        decode_status device_cls derivation dit_status = decode t dit_status).
Proof.
  unfold decode_status. split.
  - rewrite <- first_known_unknown. cbn [first_known].
    destruct (status_cls_get _status_cls device_cls) as [t |].
    + split; [discriminate |]. intros (msg & Hm).
      exfalso. exact (decode_not_ValueError _ _ _ Hm).
    + destruct (first_known derivation) as [t |].
      * split; [discriminate |]. intros (msg & Hm).
        exfalso. exact (decode_not_ValueError _ _ _ Hm).
      * split; eauto.
  - cbn [first_known]. intros t.
    destruct (status_cls_get _status_cls device_cls) as [t0 |].
    + intros [= ->]. reflexivity.
    + intros ->. reflexivity.
Qed.

End StatusMore.

(** ** Searching a text for what follows a literal *)
Section SearchAfter.
(** The two patterns of dit.py, [(?<=StatusCode = )\d+] and
    [(?<=instance of ).+], have the same shape: a literal to look behind
    and a run of characters of one kind. *)
Variable lit : string.
Variable good : ascii -> bool.
Variable take : string -> string.
Variable search : string -> option string.

Hypothesis lit_nonempty : lit <> EmptyString.
Hypothesis search_nil : search EmptyString = None.
Hypothesis search_cons : forall c t,
  search (String c t) =
  if String.prefix lit (String c t)
     && nonempty (take (Str.drop (String.length lit) (String c t)))
  then Some (take (Str.drop (String.length lit) (String c t)))
  else search t.
Hypothesis take_head : forall s,
  nonempty (take s) = true <-> exists d r, s = String d r /\ good d = true.
Hypothesis take_split : forall s, exists rest, s = take s +:+ rest.

Lemma match_here (text : string) :
  String.prefix lit text && nonempty (take (Str.drop (String.length lit) text)) = true
  <-> exists d r, text = lit +:+ String d r /\ good d = true.
Proof.
  rewrite andb_true_iff, take_head. split.
  - intros [Hp (d & r & Hd & Hg)]. exists d, r. split; [| exact Hg].
    rewrite (StrFacts.prefix_split _ _ Hp) at 1. rewrite Hd. reflexivity.
  - intros (d & r & -> & Hg). split; [apply StrFacts.prefix_append |].
    exists d, r. split; [apply StrFacts.drop_append | exact Hg].
Qed.

(** The search finds the first place where the literal is followed by a
    good character, and fails exactly when there is none. *)
Lemma search_first (text : string) :
  match search text with
  | Some found =>
      exists before rest,
        text = before +:+ lit +:+ found +:+ rest
        /\ found = take (found +:+ rest)
        /\ found <> EmptyString
        /\ forall b d r, text = b +:+ lit +:+ String d r -> good d = true ->
             (String.length before <= String.length b)%nat
  | None => forall b d r, text = b +:+ lit +:+ String d r -> good d = false
  end.
Proof.
  induction text as [| c t IH].
  - rewrite search_nil. intros [| c b] d r Heq.
    + rewrite StrFacts.append_nil_l in Heq. destruct lit; [contradiction | discriminate].
    + discriminate.
  - rewrite search_cons.
    destruct (String.prefix lit (String c t)
              && nonempty (take (Str.drop (String.length lit) (String c t)))) eqn:Hm.
    + pose proof Hm as Hm'. apply andb_true_iff in Hm' as [Hp Hne].
      destruct (take_split (Str.drop (String.length lit) (String c t))) as (rest & Hrest).
      exists EmptyString, rest. rewrite StrFacts.append_nil_l.
      split; [| split; [| split]].
      * rewrite <- Hrest. apply StrFacts.prefix_split. exact Hp.
      * rewrite <- Hrest. reflexivity.
      * unfold nonempty in Hne. apply negb_true_iff, String.eqb_neq in Hne. exact Hne.
      * intros; cbn [String.length]; lia.
    + assert (Hnot : forall d r, String c t = lit +:+ String d r -> good d = false).
      { intros d r Heq. destruct (good d) eqn:Hg; [| reflexivity].
        assert (Hyes : String.prefix lit (String c t)
                       && nonempty (take (Str.drop (String.length lit) (String c t)))
                       = true) by (apply match_here; eauto).
        congruence. }
      destruct (search t) as [found |].
      * destruct IH as (before & rest & -> & Htake & Hne & Hmin).
        exists (String c before), rest.
        split; [reflexivity |]. split; [exact Htake |]. split; [exact Hne |].
        intros [| c' b] d r Heq Hg.
        -- rewrite StrFacts.append_nil_l in Heq. rewrite (Hnot d r Heq) in Hg. discriminate.
        -- rewrite StrFacts.append_cons in Heq. injection Heq as _ Heq.
           specialize (Hmin b d r Heq Hg). cbn [String.length]. lia.
      * intros [| c' b] d r Heq.
        -- rewrite StrFacts.append_nil_l in Heq. exact (Hnot d r Heq).
        -- rewrite StrFacts.append_cons in Heq. injection Heq as _ Heq.
           exact (IH b d r Heq).
Qed.

End SearchAfter.

(** ** The two searches of dit.py *)
Module SearchFacts.

Lemma take_digits_head s :
  nonempty (Str.take_digits s) = true <->
  exists d r, s = String d r /\ Str.is_digit d = true.
Proof.
  destruct s as [| c s]; cbn [Str.take_digits].
  - split; [discriminate | intros (d & r & [=] & _)].
  - destruct (Str.is_digit c) eqn:Hc.
    + split; [eauto | reflexivity].
    + split; [discriminate | intros (d & r & [= <- <-] & Hd); congruence].
Qed.

Lemma take_line_head s :
  nonempty (take_line s) = true <->
  exists d r, s = String d r /\ negb (is_newline d) = true.
Proof.
  destruct s as [| c s]; cbn [take_line].
  - split; [discriminate | intros (d & r & [=] & _)].
  - destruct (is_newline c) eqn:Hc.
    + split; [discriminate | intros (d & r & [= <- <-] & Hd)].
      rewrite Hc in Hd. discriminate.
    + split; [| reflexivity]. intros _. exists c, s. rewrite Hc. auto.
Qed.

Lemma take_line_split s :
  exists rest, s = take_line s +:+ rest
               /\ no_newline (take_line s) = true
               /\ at_line_end rest = true.
Proof.
  induction s as [| c s (rest & Hs & Hn & Hr)].
  - exists EmptyString. auto.
  - cbn [take_line]. destruct (is_newline c) eqn:Hc.
    + exists (String c s). cbn [at_line_end]. auto.
    + exists rest. rewrite StrFacts.append_cons, <- Hs.
      cbn [no_newline]. rewrite Hc, Hn. auto.
Qed.

(** X7: the status code of a provider error is the run of digits at the
    first place of the object text where "StatusCode = " is followed by a
    digit; there is none exactly when no such place exists. *)
Theorem stat_code_first_match (text : string) :
  match search_stat_code text with
  | Some digits =>
      exists before rest,
        text = before +:+ "StatusCode = " +:+ digits +:+ rest
        /\ digits <> EmptyString
        /\ Str.all_digits digits = true
        /\ Str.starts_with_digit rest = false
        /\ forall b d r, text = b +:+ "StatusCode = " +:+ String d r ->
             Str.is_digit d = true -> (String.length before <= String.length b)%nat
  | None =>
      forall b d r, text = b +:+ "StatusCode = " +:+ String d r -> Str.is_digit d = false
  end.
Proof.
  pose proof (search_first "StatusCode = " Str.is_digit Str.take_digits search_stat_code
                ltac:(discriminate) eq_refl (fun c t => eq_refl) take_digits_head
                (fun s => let '(ex_intro _ rest (conj Hs _)) := take_digits_split s in
                          ex_intro _ rest Hs) text) as Hfirst.
  destruct (search_stat_code text) as [digits |]; [| exact Hfirst].
  destruct Hfirst as (before & rest & Htext & Htake & Hne & Hmin).
  exists before, rest. split; [exact Htext |]. split; [exact Hne |].
  destruct (take_digits_split (digits +:+ rest)) as (rest' & Hs & Hd & Hr).
  rewrite <- Htake in Hs, Hd.
  apply StrFacts.append_inj_length in Hs as [_ <-]; [| reflexivity]. auto.
Qed.

(** X8: [wmi_class] answers with the rest of the line after the first
    "instance of " that does not end its line, and fails (an attribute
    looked up on None) exactly when the object text has no such place. *)
Theorem wmi_class_first_line (object_text : string) :
  match wmi_class object_text with
  | inr cls =>
      exists before rest,
        object_text = before +:+ "instance of " +:+ cls +:+ rest
        /\ cls <> EmptyString
        /\ no_newline cls = true
        /\ at_line_end rest = true
        /\ forall b d r, object_text = b +:+ "instance of " +:+ String d r ->
             is_newline d = false -> (String.length before <= String.length b)%nat
  | inl e =>
      e = AttributeError "'NoneType' object has no attribute 'group'"
      /\ forall b d r, object_text = b +:+ "instance of " +:+ String d r ->
           is_newline d = true
  end.
Proof.
  pose proof (search_first "instance of " (fun c => negb (is_newline c)) take_line search_cls
                ltac:(discriminate) eq_refl (fun c t => eq_refl) take_line_head
                (fun s => let '(ex_intro _ rest (conj Hs _)) := take_line_split s in
                          ex_intro _ rest Hs) object_text) as Hfirst.
  unfold wmi_class. destruct (search_cls object_text) as [cls |].
  - destruct Hfirst as (before & rest & Htext & Htake & Hne & Hmin).
    exists before, rest. split; [exact Htext |]. split; [exact Hne |].
    destruct (take_line_split (cls +:+ rest)) as (rest' & Hs & Hn & Hr).
    rewrite <- Htake in Hs, Hn.
    apply StrFacts.append_inj_length in Hs as [_ <-]; [| reflexivity].
    split; [exact Hn |]. split; [exact Hr |].
    intros b d r Heq Hd. apply (Hmin b d r Heq). rewrite Hd. reflexivity.
  - split; [reflexivity |]. intros b d r Heq.
    specialize (Hfirst b d r Heq). apply negb_false_iff in Hfirst. exact Hfirst.
Qed.

End SearchFacts.

(** The object text of a reader, as the provider prints it. *)
Example wmi_class_of_reader :
  wmi_class (String (ascii_of_nat 10)
               ("instance of Lnl_Reader" +:+ String (ascii_of_nat 10) "{ ID = 1; };"))
  = Ok "Lnl_Reader".
Proof. reflexivity. Qed.

(** ** What a data query asks of the provider *)
Section QueryMore.
Context `{Wmii} {W : Type} (provider : forall X, ext X -> W -> X * W).

Local Abbreviation element := (gmap string member).

Lemma only_calls_app allowed tr1 tr2 :
  only_calls allowed (tr1 ++ tr2) = only_calls allowed tr1 && only_calls allowed tr2.
Proof. unfold only_calls. apply forallb_app. Qed.

Lemma only_calls_count allowed (k : call_kind) tr :
  only_calls allowed tr = true ->
  existsb (kind_eqb k) allowed = false ->
  count_calls k tr = 0%nat.
Proof.
  intros Hall Hk. unfold count_calls. induction tr as [| e tr IH]; [reflexivity |].
  cbn [only_calls forallb] in Hall. apply andb_true_iff in Hall as [He Hall].
  rewrite filter_cons. destruct (decide (kind_eqb (kind_of e) k = true)) as [Heq | _].
  - exfalso. assert (kind_of e = k) by (destruct (kind_of e), k; (discriminate || reflexivity)).
    subst k. congruence.
  - apply IH. exact Hall.
Qed.

Lemma run_mapM_only allowed {A B} (f : A -> prog B) (l : list A) :
  (forall a w0, only_calls allowed (trace provider (f a) w0) = true) ->
  forall w, only_calls allowed (trace provider (mapM f l) w) = true.
Proof.
  intros Hf. unfold trace in *. induction l as [| a l IH]; intros w.
  - reflexivity.
  - cbn [mapM]. rewrite run_bind. pose proof (Hf a w) as Ha.
    destruct (run provider (f a) w) as [[[e | b] w1] tr1]; cbn [snd] in *; [exact Ha |].
    rewrite run_bind. pose proof (IH w1) as Hl.
    destruct (run provider (mapM f l) w1) as [[[e | bs] w2] tr2]; cbn [snd] in *.
    + rewrite only_calls_app, Ha, Hl. reflexivity.
    + rewrite run_mret. cbn [snd]. rewrite !only_calls_app, Ha, Hl. reflexivity.
Qed.

Lemma wrap_row_only (ns r : handle) (kwargs : list (string * pyval)) (w : W) :
  only_calls [Kgetattr; Kinit; KLastError]
    (trace provider (DITElement_init (inr ns) "" (Some r) kwargs) w) = true.
Proof.
  unfold trace, DITElement_init, DITElement_init_base, wmi_object___init__.
  change (nonempty "") with false. cbv beta iota zeta. run_simp.
  destruct (provider _ (wmi_object_init (Some r)) w) as [[err | cache] w1];
    cbv beta iota zeta.
  - destruct (run_handle_error provider (R := element) err w1) as (e & ->). reflexivity.
  - run_simp. reflexivity.
Qed.

Lemma read_row_only (r : handle) (properties : list string) (w : W) :
  only_calls [Kgetattr; Kinit; KLastError]
    (trace provider (mapM (fun p => call (getattr r (Str.upper p))) properties) w) = true.
Proof.
  apply run_mapM_only. intros p w0. unfold trace. rewrite run_call.
  destruct (provider _ (getattr r (Str.upper p)) w0) as [[err | v] w1]; reflexivity.
Qed.

Lemma data_query_trace (self : DITConnection) (wql : string) (w : W) :
  exists reply rest,
    trace provider (data_query self wql) w = Ev (query (_namespace self) wql) reply :: rest
    /\ only_calls [Kgetattr; Kinit; KLastError] rest = true.
Proof.
  unfold trace, data_query. rewrite run_try_except_COMI, run_bind, run_call.
  destruct (provider _ (query (_namespace self) wql) w) as [[err | results] w1];
    cbv beta iota zeta delta [Ok Err].
  { destruct (run_handle_error provider (R := list (list query_item)) err w1) as (e & ->).
    eexists _, _. split; reflexivity. }
  destruct (properties_of wql) as [e | [| p0 ps]].
  - rewrite run_raise. cbv beta iota zeta delta [Ok Err].
    destruct e; try (eexists _, _; split; reflexivity).
    destruct (run_handle_error provider (R := list (list query_item)) e w1) as (e' & ->).
    eexists _, _. split; reflexivity.
  - rewrite run_raise. cbv beta iota zeta delta [Ok Err].
    eexists _, _. split; reflexivity.
  - destruct (String.eqb p0 "*").
    + rewrite run_bind.
      pose proof (run_mapM_only [Kgetattr; Kinit; KLastError]
                    (fun r0 => DITElement_init (inr (_namespace self)) "" (Some r0) [])
                    results (fun a w0 => wrap_row_only (_namespace self) a [] w0) w1) as Hm.
      unfold trace in Hm.
      destruct (run provider
                  (mapM (fun r0 => DITElement_init (inr (_namespace self)) "" (Some r0) [])
                     results) w1) as [[[e | elems] w2] tr2];
        cbv beta iota zeta delta [Ok Err]; cbn [snd] in Hm.
      * destruct e; try (eexists _, _; split; [reflexivity | exact Hm]).
        destruct (run_handle_error provider (R := list (list query_item)) e w2)
          as (e' & ->).
        eexists _, _. split; [reflexivity |]. cbn [app snd].
        rewrite only_calls_app, Hm. reflexivity.
      * rewrite run_ret. cbv beta iota zeta delta [Ok Err].
        eexists _, _. split; [reflexivity |]. cbn [app]. rewrite app_nil_r. exact Hm.
    + rewrite run_bind.
      pose proof (run_mapM_only [Kgetattr; Kinit; KLastError]
                    (fun r0 => mapM (fun p => call (getattr r0 (Str.upper p))) (p0 :: ps))
                    results (fun a w0 => read_row_only a (p0 :: ps) w0) w1) as Hm.
      unfold trace in Hm.
      destruct (run provider
                  (mapM (fun r0 => mapM (fun p => call (getattr r0 (Str.upper p))) (p0 :: ps))
                     results) w1) as [[[e | vals] w2] tr2];
        cbv beta iota zeta delta [Ok Err]; cbn [snd] in Hm.
      * destruct e; try (eexists _, _; split; [reflexivity | exact Hm]).
        destruct (run_handle_error provider (R := list (list query_item)) e w2)
          as (e' & ->).
        eexists _, _. split; [reflexivity |]. cbn [app snd].
        rewrite only_calls_app, Hm. reflexivity.
      * rewrite run_ret. cbv beta iota zeta delta [Ok Err].
        eexists _, _. split; [reflexivity |]. cbn [app]. rewrite app_nil_r. exact Hm.
Qed.

(** X9: a data query only reads.  Whatever the provider answers, it is
    asked the query itself first and exactly once, and after that only
    for property values, wrapper data and its last error: nothing is
    staged, written or invoked. *)
Theorem data_query_reads_only (self : DITConnection) (wql : string) (w : W) :
  (exists reply rest,
     trace provider (data_query self wql) w = Ev (query (_namespace self) wql) reply :: rest)
  /\ count_calls Kquery (trace provider (data_query self wql) w) = 1%nat
  /\ only_calls [Kquery; Kgetattr; Kinit; KLastError]
       (trace provider (data_query self wql) w) = true
  /\ writes (trace provider (data_query self wql) w) = [].
Proof.
  destruct (data_query_trace self wql w) as (reply & rest & -> & Hrest).
  split; [eauto |]. split; [| split].
  - unfold count_calls. rewrite filter_cons.
    destruct (decide (kind_eqb (kind_of (Ev (query (_namespace self) wql) reply)) Kquery
                      = true)) as [_ | Hno]; [| exfalso; apply Hno; reflexivity].
    cbn [length]. f_equal.
    exact (only_calls_count _ Kquery rest Hrest eq_refl).
  - cbn [only_calls forallb kind_of existsb kind_eqb orb andb].
    clear -Hrest. induction rest as [| e rest IH]; [reflexivity |].
    cbn [only_calls forallb] in *. apply andb_true_iff in Hrest as [He Hrest].
    rewrite (IH Hrest), andb_true_r.
    cbn [existsb] in *. rewrite He. apply orb_true_r.
  - unfold writes. cbn [omap list_omap write_of].
    clear -Hrest. induction rest as [| e rest IH]; [reflexivity |].
    cbn [only_calls forallb] in Hrest. apply andb_true_iff in Hrest as [He Hrest].
    change (omap write_of (e :: rest))
      with (match write_of e with Some x => x :: omap write_of rest
                             | None => omap write_of rest end).
    rewrite (IH Hrest).
    destruct e as [X c x]. destruct c; try reflexivity; discriminate.
Qed.

End QueryMore.

(** ** Failed provider calls *)
Section FailureFacts.
Context `{Wmii} {W : Type} (provider : forall X, ext X -> W -> X * W).

Local Abbreviation element := (gmap string member).

Lemma clean_app tr1 tr2 : clean (tr1 ++ tr2) = clean tr1 && clean tr2.
Proof. apply forallb_app. Qed.

Lemma fails_fast_app tr1 tr2 :
  clean tr1 = true -> fails_fast (tr1 ++ tr2) = fails_fast tr2.
Proof.
  induction tr1 as [| e tr1 IH]; [reflexivity |].
  cbn [clean forallb app fails_fast]. intros [He Hc]%andb_true_iff.
  apply negb_true_iff in He. rewrite He. exact (IH Hc).
Qed.

Lemma clean_fails_fast tr : clean tr = true -> fails_fast tr = true.
Proof.
  intros Hc. rewrite <- (app_nil_r tr). rewrite fails_fast_app by exact Hc. reflexivity.
Qed.

Lemma run_handle_error_decoded {R} (err : comi_error) (w : W) :
  exists e,
    is_decoded e = true
    /\ run provider (@handle_error _ R err) w =
       (Err e, snd (provider _ SWbemLastError w),
        [Ev SWbemLastError (fst (provider _ SWbemLastError w))]).
Proof.
  unfold handle_error, dit_error_info, ask, mbind, prog_bind. simpl.
  destruct (provider _ SWbemLastError w) as [[dit_err |] w']; simpl.
  - unfold DITError_init, COMError_init.
    destruct (com_error_args err); simpl; eexists; (split; [| reflexivity]); reflexivity.
  - unfold COMError_init.
    destruct (com_error_args err); simpl; eexists; (split; [| reflexivity]); reflexivity.
Qed.

Lemma stops_ret {R} S (r : R) : stops_at_failure provider S (Ret r).
Proof. intros w. reflexivity. Qed.

Lemma stops_mret {R} S (r : R) : stops_at_failure provider S (mret r).
Proof. intros w. reflexivity. Qed.

Lemma stops_raise {R} (S : exn -> Prop) (e : exn) :
  S e -> (forall err, e <> Comi err) -> stops_at_failure provider S (@Raise R e).
Proof.
  intros HS Hraw w. rewrite run_raise.
  destruct e; try (split; [reflexivity | exact HS]).
  exfalso. exact (Hraw _ eq_refl).
Qed.

Lemma stops_call {X} S (c : ext (comres X)) :
  (forall err, failed (Ev c (inl err)) = true) ->
  (forall x, failed (Ev c (inr x)) = false) ->
  stops_at_failure provider S (call c).
Proof.
  intros Hfail Hok w. rewrite run_call.
  destruct (provider _ c w) as [[err | x] w1].
  - exists [], X, c. split; [reflexivity |]. split; [reflexivity | apply Hfail].
  - cbn [clean forallb]. rewrite Hok. reflexivity.
Qed.

Lemma stops_ask {X} S (c : ext X) :
  (forall x, failed (Ev c x) = false) -> stops_at_failure provider S (ask c).
Proof.
  intros Hok w. rewrite run_ask. destruct (provider _ c w) as [x w1].
  cbn [clean forallb]. rewrite Hok. reflexivity.
Qed.

Lemma stops_bind {A B} S (p : prog A) (f : A -> prog B) :
  stops_at_failure provider S p ->
  (forall a, stops_at_failure provider S (f a)) ->
  stops_at_failure provider S (p ≫= f).
Proof.
  intros Hp Hf w. rewrite run_bind. specialize (Hp w).
  destruct (run provider p w) as [[[e | a] w1] tr1]; [exact Hp |].
  specialize (Hf a w1).
  destruct (run provider (f a) w1) as [[[e | b] w2] tr2].
  - destruct e;
      try (destruct Hf as [Hff HS]; split; [rewrite fails_fast_app; assumption | exact HS]).
    destruct Hf as (pre & X & c & -> & Hpre & Hfail).
    exists (tr1 ++ pre), X, c. rewrite app_assoc, clean_app, Hp, Hpre. auto.
  - rewrite clean_app, Hp, Hf. reflexivity.
Qed.

Lemma stops_mapM {A B} S (f : A -> prog B) (l : list A) :
  (forall a, stops_at_failure provider S (f a)) ->
  stops_at_failure provider S (mapM f l).
Proof.
  intros Hf. induction l as [| a l IH].
  - apply stops_mret.
  - cbn [mapM]. apply stops_bind; [apply Hf |]. intros b.
    apply stops_bind; [exact IH |]. intros bs. apply stops_mret.
Qed.

Lemma stops_weaken {R} (S S' : exn -> Prop) (p : prog R) :
  (forall e, S e -> S' e) ->
  stops_at_failure provider S p -> stops_at_failure provider S' p.
Proof.
  intros HS Hp w. specialize (Hp w).
  destruct (run provider p w) as [[[e | a] w1] tr1]; [| exact Hp].
  destruct e; try (destruct Hp as [Hff He]; split; [exact Hff | exact (HS _ He)]).
  exact Hp.
Qed.

(** [try: p except _COMI_ERROR: handle_error()] around a program that
    stops at its first failure. *)
Lemma decodes_try {R} S (p : prog R) :
  stops_at_failure provider S p -> decodes provider S (try_except_COMI p).
Proof.
  intros Hp w. rewrite run_try_except_COMI. specialize (Hp w).
  destruct (run provider p w) as [[[e | a] w1] tr1]; [| exact Hp].
  destruct e; try (destruct Hp as [Hff He]; split; [exact Hff | right; exact He]).
  destruct Hp as (pre & X & c & -> & Hpre & Hfail).
  destruct (run_handle_error_decoded (R := R) e w1) as (e' & Hdec & ->).
  split; [| left; exact Hdec].
  rewrite <- app_assoc, fails_fast_app by exact Hpre.
  cbn [app fails_fast]. rewrite Hfail. reflexivity.
Qed.

Lemma decodes_ret {R} S (r : R) : decodes provider S (Ret r).
Proof. intros w. reflexivity. Qed.

Lemma decodes_raise {R} (S : exn -> Prop) (e : exn) :
  S e -> decodes provider S (@Raise R e).
Proof. intros HS w. rewrite run_raise. split; [reflexivity | right; exact HS]. Qed.

Lemma decodes_ask {X} S (c : ext X) :
  (forall x, failed (Ev c x) = false) -> decodes provider S (ask c).
Proof.
  intros Hok w. rewrite run_ask. destruct (provider _ c w) as [x w1].
  cbn [clean forallb]. rewrite Hok. reflexivity.
Qed.

Lemma decodes_bind {A B} S (p : prog A) (f : A -> prog B) :
  decodes provider S p ->
  (forall a, decodes provider S (f a)) ->
  decodes provider S (p ≫= f).
Proof.
  intros Hp Hf w. rewrite run_bind. specialize (Hp w).
  destruct (run provider p w) as [[[e | a] w1] tr1]; [exact Hp |].
  specialize (Hf a w1).
  destruct (run provider (f a) w1) as [[[e | b] w2] tr2].
  - destruct Hf as [Hff HS]. split; [rewrite fails_fast_app; assumption | exact HS].
  - rewrite clean_app, Hp, Hf. reflexivity.
Qed.

Lemma decodes_weaken {R} (S S' : exn -> Prop) (p : prog R) :
  (forall e, S e -> S' e) -> decodes provider S p -> decodes provider S' p.
Proof.
  intros HS Hp w. specialize (Hp w).
  destruct (run provider p w) as [[[e | a] w1] tr1]; [| exact Hp].
  destruct Hp as [Hff [He | He]]; auto.
Qed.

(** A program that decodes its failures raises no raw error, so it also
    stops at its first failure. *)
Lemma decodes_stops {R} (S : exn -> Prop) (p : prog R) :
  (forall err, ~ S (Comi err)) ->
  decodes provider S p ->
  stops_at_failure provider (fun e => is_decoded e = true \/ S e) p.
Proof.
  intros Hraw Hp w. specialize (Hp w).
  destruct (run provider p w) as [[[e | a] w1] tr1]; [| exact Hp].
  destruct e; try exact Hp.
  destruct Hp as [_ [Hd | HS]]; [discriminate | destruct (Hraw _ HS)].
Qed.

Lemma decodes_member_handle S (self : element) (name : string) :
  S (AttributeError name) -> decodes provider S (member_handle self name).
Proof.
  intros HS. unfold member_handle.
  destruct (self !! name) as [[h | v] |];
    [apply decodes_ret | apply decodes_raise; exact HS | apply decodes_raise; exact HS].
Qed.

Lemma stops_wmi_object_init S (o : option handle) :
  stops_at_failure provider S (wmi_object___init__ o).
Proof.
  unfold wmi_object___init__. apply stops_bind.
  - apply stops_call; reflexivity.
  - intros cache. apply stops_ret.
Qed.

Lemma decodes_init_base S connection lnl_class ole_obj :
  decodes provider S (DITElement_init_base connection lnl_class ole_obj).
Proof.
  unfold DITElement_init_base. apply decodes_bind.
  - apply decodes_weaken with (S := fun _ => False); [tauto |].
    apply decodes_try. apply stops_bind.
    + destruct (nonempty lnl_class); [| apply stops_ret].
      apply stops_bind; [apply stops_call; reflexivity |]. intros cls.
      apply stops_bind; [apply stops_call; reflexivity |]. intros o. apply stops_ret.
    + intros o. apply stops_wmi_object_init.
  - intros self. apply decodes_ret.
Qed.

Lemma decodes_refresh S (self : element) (obj_path : string) :
  S (AttributeError "_namespace") ->
  decodes provider S (DITElement__refresh self obj_path).
Proof.
  intros HS. unfold DITElement__refresh.
  apply decodes_bind; [apply decodes_member_handle; exact HS |]. intros ns.
  apply decodes_bind.
  { apply decodes_weaken with (S := fun _ => False); [tauto |].
    apply decodes_try. apply stops_call; reflexivity. }
  intros new_obj. apply decodes_bind; [apply decodes_init_base |].
  intros fresh. apply decodes_ret.
Qed.

Lemma decodes_commit S (self : element) :
  S (AttributeError "_namespace") -> S (AttributeError "ole_object") ->
  decodes provider S (DITElement__commit self).
Proof.
  intros Hns Hole. unfold DITElement__commit.
  apply decodes_bind; [apply decodes_member_handle; exact Hole |]. intros ole.
  apply decodes_bind; [apply decodes_ask; reflexivity |]. intros obj_path.
  destruct (nonempty obj_path); [apply decodes_refresh; exact Hns |].
  apply decodes_bind.
  { apply decodes_weaken with (S := fun _ => False); [tauto |].
    apply decodes_try. apply stops_call; reflexivity. }
  intros relpath. apply decodes_refresh; exact Hns.
Qed.

Lemma stops_query_body (self : DITConnection) (wql : string) :
  stops_at_failure provider
    (fun e => is_decoded e = true
              \/ (e = ValueError "substring not found"
                  /\ Str.find " from" (Str.lower wql) = None))
    (call (query (_namespace self) wql) ≫= fun results =>
       match properties_of wql with
       | inl e => Raise e
       | inr properties =>
           match properties with
           | [] => Raise (IndexError "list index out of range")
           | p0 :: _ =>
               if String.eqb p0 "*" then
                 mapM (fun r => DITElement_init (inr (_namespace self)) "" (Some r) []) results
                   ≫= fun elems => Ret [map QElem elems]
               else
                 mapM (fun r => mapM (fun p => call (getattr r (Str.upper p))) properties)
                   results
                   ≫= fun final_results => Ret (map (map QVal) final_results)
           end
       end).
Proof.
  apply stops_bind; [apply stops_call; reflexivity |]. intros results.
  pose proof (properties_of_nonempty wql) as Hne.
  destruct (properties_of wql) as [e | [| p0 ps]] eqn:Hprops; [| congruence |].
  - unfold properties_of in Hprops.
    destruct (Str.find " from" (Str.lower wql)) eqn:Hfind; [discriminate |].
    injection Hprops as <-. apply stops_raise; [right; auto | discriminate].
  - destruct (String.eqb p0 "*").
    + apply stops_bind; [| intros elems; apply stops_ret].
      apply stops_mapM. intros r.
      apply stops_weaken
        with (S := fun e => is_decoded e = true \/ False); [tauto |].
      apply decodes_stops; [tauto |].
      unfold DITElement_init. apply decodes_init_base.
    + apply stops_bind; [| intros vals; apply stops_ret].
      apply stops_mapM. intros r. apply stops_mapM. intros p.
      apply stops_call; reflexivity.
Qed.

Lemma decodes_data_query (self : DITConnection) (wql : string) :
  decodes provider
    (fun e => e = ValueError "substring not found"
              /\ Str.find " from" (Str.lower wql) = None)
    (data_query self wql).
Proof.
  intros w. pose proof (decodes_try _ _ (stops_query_body self wql) w) as Hd.
  fold (data_query self wql) in Hd.
  destruct (run provider (data_query self wql) w) as [[[e | a] w1] tr1]; [| exact Hd].
  destruct Hd as [Hff He]. split; [exact Hff | tauto].
Qed.

End FailureFacts.

(** ** The failures and the results of a data query *)
Section QueryFailures.
Context `{Wmii} {W : Type} (provider : forall X, ext X -> W -> X * W).

Local Abbreviation element := (gmap string member).

(** What [mapM] returns comes from running the program on each element. *)
Lemma run_mapM_Forall2 {A B} (f : A -> prog B) (l : list A) (w w' : W) bs tr :
  run provider (mapM f l) w = (Ok bs, w', tr) ->
  Forall2 (fun a b => exists w0 w1 tr0, run provider (f a) w0 = (Ok b, w1, tr0)) l bs.
Proof.
  revert w w' bs tr. induction l as [| a l IH]; intros w w' bs tr.
  - cbn [mapM]. rewrite run_mret. intros [= <- _ _]. constructor.
  - cbn [mapM]. rewrite run_bind.
    destruct (run provider (f a) w) as [[[e | b] w1] tr1] eqn:Ha;
      cbv beta iota zeta delta [Ok Err]; [discriminate |].
    rewrite run_bind.
    destruct (run provider (mapM f l) w1) as [[[e | bs'] w2] tr2] eqn:Hl;
      cbv beta iota zeta delta [Ok Err]; [discriminate |].
    rewrite run_mret. cbv beta iota zeta delta [Ok Err]. intros [= <- _ _].
    constructor; [eauto | exact (IH _ _ _ _ Hl)].
Qed.

Lemma run_mapM_all (P : event -> bool) {A B} (f : A -> prog B) (l : list A) :
  (forall a w0, a ∈ l -> forallb P (trace provider (f a) w0) = true) ->
  forall w, forallb P (trace provider (mapM f l) w) = true.
Proof.
  unfold trace. induction l as [| a l IH]; intros Hf w.
  - reflexivity.
  - cbn [mapM]. rewrite run_bind. pose proof (Hf a w ltac:(left)) as Ha.
    destruct (run provider (f a) w) as [[[e | b] w1] tr1]; cbn [snd] in *; [exact Ha |].
    rewrite run_bind.
    pose proof (IH (fun a' w0 Hin => Hf a' w0 ltac:(right; exact Hin)) w1) as Hl.
    destruct (run provider (mapM f l) w1) as [[[e | bs] w2] tr2]; cbn [snd] in *.
    + rewrite forallb_app, Ha, Hl. reflexivity.
    + rewrite run_mret. cbn [snd]. rewrite !forallb_app, Ha, Hl. reflexivity.
Qed.

(** The wrapper [data_query] builds around a row. *)
Lemma wrap_row_result (ns r : handle) (kwargs : list (string * pyval)) (w w' : W) e tr :
  run provider (DITElement_init (inr ns) "" (Some r) kwargs) w = (Ok e, w', tr) ->
  exists cache, e = fresh_members ns r cache.
Proof.
  unfold DITElement_init, DITElement_init_base, wmi_object___init__.
  change (nonempty "") with false. cbv beta iota zeta. run_simp.
  destruct (provider _ (wmi_object_init (Some r)) w) as [[err | cache] w1];
    cbv beta iota zeta.
  - destruct (run_handle_error provider (R := element) err w1) as (e' & ->). discriminate.
  - run_simp. intros [= <- _ _]. exists cache. reflexivity.
Qed.

(** When a data query returns, the namespace answered it with rows and the
    select list was found; the result is then built from the rows. *)
Lemma data_query_returns (self : DITConnection) (wql : string) (w w' : W) rows tr :
  run provider (data_query self wql) w = (Ok rows, w', tr) ->
  exists results p0 ps w1,
    provider _ (query (_namespace self) wql) w = (inr results, w1)
    /\ properties_of wql = inr (p0 :: ps)
    /\ if String.eqb p0 "*"
       then exists elems,
              rows = [map QElem elems]
              /\ Forall2 (fun r e => exists cache, e = fresh_members (_namespace self) r cache)
                   results elems
       else exists vals,
              rows = map (map QVal) vals
              /\ Forall2 (fun (r : handle) (t : list pyval) => length t = length (p0 :: ps))
                   results vals.
Proof.
  unfold data_query. rewrite run_try_except_COMI, run_bind, run_call.
  destruct (provider _ (query (_namespace self) wql) w) as [[err | results] w1];
    cbv beta iota zeta delta [Ok Err].
  { destruct (run_handle_error provider (R := list (list query_item)) err w1) as (e & ->).
    discriminate. }
  pose proof (properties_of_nonempty wql) as Hne.
  destruct (properties_of wql) as [e | [| p0 ps]]; [| congruence |].
  - rewrite run_raise. cbv beta iota zeta delta [Ok Err].
    destruct e; try discriminate.
    destruct (run_handle_error provider (R := list (list query_item)) e w1) as (e' & ->).
    discriminate.
  - destruct (String.eqb p0 "*") eqn:Hstar.
    + rewrite run_bind.
      destruct (run provider
                  (mapM (fun r0 => DITElement_init (inr (_namespace self)) "" (Some r0) [])
                     results) w1) as [[[e | elems] w2] tr2] eqn:Hm;
        cbv beta iota zeta delta [Ok Err].
      * destruct e; try discriminate.
        destruct (run_handle_error provider (R := list (list query_item)) e w2)
          as (e' & ->).
        discriminate.
      * rewrite run_ret. cbv beta iota zeta delta [Ok Err]. intros [= <- _ _].
        exists results, p0, ps, w1. split; [reflexivity |]. split; [reflexivity |].
        rewrite Hstar. exists elems. split; [reflexivity |].
        eapply Forall2_impl; [exact (run_mapM_Forall2 _ _ _ _ _ _ Hm) |].
        intros r e (w0 & w3 & tr0 & Hrun). exact (wrap_row_result _ _ _ _ _ _ _ Hrun).
    + rewrite run_bind.
      destruct (run provider
                  (mapM (fun r0 => mapM (fun p => call (getattr r0 (Str.upper p))) (p0 :: ps))
                     results) w1) as [[[e | vals] w2] tr2] eqn:Hm;
        cbv beta iota zeta delta [Ok Err].
      * destruct e; try discriminate.
        destruct (run_handle_error provider (R := list (list query_item)) e w2)
          as (e' & ->).
        discriminate.
      * rewrite run_ret. cbv beta iota zeta delta [Ok Err]. intros [= <- _ _].
        exists results, p0, ps, w1. split; [reflexivity |]. split; [reflexivity |].
        rewrite Hstar. exists vals. split; [reflexivity |].
        eapply Forall2_impl; [exact (run_mapM_Forall2 _ _ _ _ _ _ Hm) |].
        intros r t (w0 & w3 & tr0 & Hrun).
        symmetry. exact (Forall2_length _ _ _ (run_mapM_Forall2 _ _ _ _ _ _ Hrun)).
Qed.

(** X10: the shape of what a data query returns, whatever the provider
    does.  The namespace answered the query with rows and the select list
    was found; for a select list that starts with "*" the result is one
    tuple holding a wrapper per row (so a list of length one even when no
    row was found), otherwise it has one tuple per row, each with one
    value per listed property. *)
Theorem data_query_result_shape (self : DITConnection) (wql : string) (w : W)
    (rows : list (list query_item)) :
  outcome provider (data_query self wql) w = Ok rows ->
  exists results properties,
    fst (provider _ (query (_namespace self) wql) w) = inr results
    /\ properties_of wql = inr properties
    /\ if String.eqb (hd "" properties) "*"
       then exists tuple,
              rows = [tuple] /\ length tuple = length results
              /\ forallb is_elem tuple = true
       else length rows = length results
            /\ Forall (fun t => length t = length properties
                                /\ forallb (fun x => negb (is_elem x)) t = true) rows.
Proof.
  unfold outcome.
  destruct (run provider (data_query self wql) w) as [[r w'] tr] eqn:Hrun.
  cbn [fst]. intros ->.
  destruct (data_query_returns self wql w w' rows tr Hrun)
    as (results & p0 & ps & w1 & Hq & Hprops & Hshape).
  exists results, (p0 :: ps). rewrite Hq. split; [reflexivity |]. split; [exact Hprops |].
  cbn [hd]. destruct (String.eqb p0 "*").
  - destruct Hshape as (elems & -> & Hel). eexists. split; [reflexivity |]. split.
    + rewrite length_map. symmetry. exact (Forall2_length _ _ _ Hel).
    + clear. induction elems as [| e elems IH]; [reflexivity | exact IH].
  - destruct Hshape as (vals & -> & Hvals). split.
    + rewrite length_map. symmetry. exact (Forall2_length _ _ _ Hvals).
    + apply Forall_forall. intros t [t0 [-> Hin]]%list_elem_of_fmap. split.
      * rewrite length_map.
        clear -Hvals Hin. induction Hvals as [| r t1 rs ts Hlen _ IH]; [inversion Hin |].
        apply elem_of_cons in Hin as [-> | Hin]; [exact Hlen | exact (IH Hin)].
      * clear. induction t0 as [| v t0 IH]; [reflexivity | exact IH].
Qed.

(** X11: a data query stops at the first provider call that fails, asking
    only for the last error after it, and returns rows only if no call
    failed.  It raises nothing but what [handle_error] raises and the
    [ValueError] of [str.index] for a query without " from". *)
Theorem data_query_failures (self : DITConnection) (wql : string) (w : W) :
  fails_fast (trace provider (data_query self wql) w) = true
  /\ (forall rows, outcome provider (data_query self wql) w = Ok rows ->
        clean (trace provider (data_query self wql) w) = true)
  /\ (forall e, outcome provider (data_query self wql) w = Err e ->
        is_decoded e = true
        \/ (e = ValueError "substring not found"
            /\ Str.find " from" (Str.lower wql) = None)).
Proof.
  pose proof (decodes_data_query provider self wql w) as Hd. unfold trace, outcome.
  destruct (run provider (data_query self wql) w) as [[[e | rows] w1] tr]; cbn [fst snd].
  - destruct Hd as [Hff He]. split; [exact Hff |]. split; [discriminate |].
    intros e' [= <-]. exact He.
  - split; [apply clean_fails_fast; exact Hd |]. split; [auto | discriminate].
Qed.

Lemma reads_within_row (results : list handle) (properties : list string) (r : handle)
    (w : W) :
  r ∈ results ->
  forallb (reads_within results (map Str.upper properties))
    (trace provider (mapM (fun p => call (getattr r (Str.upper p))) properties) w) = true.
Proof.
  intros Hr. apply run_mapM_all. intros p w0 Hp. unfold trace. rewrite run_call.
  assert (Hin : bool_decide (r ∈ results)
                && bool_decide (Str.upper p ∈ map Str.upper properties) = true).
  { apply andb_true_iff. split; apply bool_decide_eq_true_2; [exact Hr |].
    apply list_elem_of_fmap. eauto. }
  destruct (provider _ (getattr r (Str.upper p)) w0) as [[err | v] w1];
    cbn [snd forallb reads_within]; rewrite Hin; reflexivity.
Qed.

Lemma wrap_row_reads_nothing (rows : list handle) (names : list string)
    (ns r : handle) (w : W) :
  forallb (reads_within rows names)
    (trace provider (DITElement_init (inr ns) "" (Some r) []) w) = true.
Proof.
  unfold trace, DITElement_init, DITElement_init_base, wmi_object___init__.
  change (nonempty "") with false. cbv beta iota zeta. run_simp.
  destruct (provider _ (wmi_object_init (Some r)) w) as [[err | cache] w1];
    cbv beta iota zeta.
  - destruct (run_handle_error provider (R := element) err w1) as (e & ->). reflexivity.
  - run_simp. reflexivity.
Qed.

(** X12: a data query reads property values only from the rows the
    namespace returned for it, and only the properties of its select list,
    by their upper-cased names. *)
Theorem data_query_reads_listed (self : DITConnection) (wql : string) (w w1 : W)
    (results : list handle) (properties : list string) :
  provider _ (query (_namespace self) wql) w = (inr results, w1) ->
  properties_of wql = inr properties ->
  forallb (reads_within results (map Str.upper properties))
    (trace provider (data_query self wql) w) = true.
Proof.
  intros Hq Hprops. unfold trace, data_query.
  rewrite run_try_except_COMI, run_bind, run_call, Hq, Hprops.
  cbv beta iota zeta delta [Ok Err].
  destruct properties as [| p0 ps]; [rewrite run_raise; reflexivity |].
  set (P := reads_within results (map Str.upper (p0 :: ps))).
  destruct (String.eqb p0 "*").
  - rewrite run_bind.
    pose proof (run_mapM_all P
                  (fun r0 => DITElement_init (inr (_namespace self)) "" (Some r0) [])
                  results
                  (fun r w0 _ => wrap_row_reads_nothing _ _ (_namespace self) r w0) w1)
      as Hm.
    unfold trace in Hm.
    destruct (run provider
                (mapM (fun r0 => DITElement_init (inr (_namespace self)) "" (Some r0) [])
                   results) w1) as [[[e | elems] w2] tr2];
      cbv beta iota zeta delta [Ok Err]; cbn [snd] in Hm.
    + destruct e; try (cbn [snd app forallb]; exact Hm).
      destruct (run_handle_error provider (R := list (list query_item)) e w2)
        as (e' & ->).
      cbn [snd app forallb]. rewrite forallb_app, Hm. reflexivity.
    + rewrite run_ret. cbn [snd app forallb]. rewrite app_nil_r. exact Hm.
  - rewrite run_bind.
    pose proof (run_mapM_all P
                  (fun r0 => mapM (fun p => call (getattr r0 (Str.upper p))) (p0 :: ps))
                  results
                  (fun r w0 Hr => reads_within_row results (p0 :: ps) r w0 Hr) w1) as Hm.
    unfold trace in Hm.
    destruct (run provider
                (mapM (fun r0 => mapM (fun p => call (getattr r0 (Str.upper p))) (p0 :: ps))
                   results) w1) as [[[e | vals] w2] tr2];
      cbv beta iota zeta delta [Ok Err]; cbn [snd] in Hm.
    + destruct e; try (cbn [snd app forallb]; exact Hm).
      destruct (run_handle_error provider (R := list (list query_item)) e w2)
        as (e' & ->).
      cbn [snd app forallb]. rewrite forallb_app, Hm. reflexivity.
    + rewrite run_ret. cbn [snd app forallb]. rewrite app_nil_r. exact Hm.
Qed.

End QueryFailures.

Lemma data_query_result_shape_witness :
  let q := "select * from Lnl_Reader where PanelID = 7" in
  outcome quiet_provider (@data_query wmii_model (Build_DITConnection 3%N) q) tt = Ok [[]]
  /\ exists results properties,
       fst (quiet_provider _ (query 3%N q) tt) = inr results
       /\ properties_of q = inr properties
       /\ if String.eqb (hd "" properties) "*"
          then exists tuple,
                 [[]] = [tuple] /\ length tuple = length results
                 /\ forallb is_elem tuple = true
          else length ([[]] : list (list query_item)) = length results
               /\ Forall (fun t => length t = length properties
                                   /\ forallb (fun x => negb (is_elem x)) t = true)
                    ([[]] : list (list query_item)).
Proof.
  cbv zeta. split; [reflexivity |].
  exact (@data_query_result_shape wmii_model unit quiet_provider (Build_DITConnection 3%N)
           "select * from Lnl_Reader where PanelID = 7" tt [[]] eq_refl).
Defined.

Lemma data_query_reads_listed_witness :
  let q := "select lastname, firstname from Lnl_Cardholder where ZIP is NULL" in
  rows_provider _ (query 3%N q) tt = (inr [101%N; 102%N], tt)
  /\ properties_of q = inr ["lastname"; "firstname"]
  /\ forallb (reads_within [101%N; 102%N] ["LASTNAME"; "FIRSTNAME"])
       (trace rows_provider (@data_query wmii_model (Build_DITConnection 3%N) q) tt) = true.
Proof.
  cbv zeta. split; [reflexivity |]. split; [reflexivity |].
  exact (@data_query_reads_listed wmii_model unit rows_provider (Build_DITConnection 3%N)
           "select lastname, firstname from Lnl_Cardholder where ZIP is NULL" tt tt
           [101%N; 102%N] ["lastname"; "firstname"] eq_refl eq_refl).
Defined.

(** ** The door pulse *)
Section DoorPulse.
Context `{Wmii} {W : Type} (provider : forall X, ext X -> W -> X * W).

Local Abbreviation element := (gmap string member).

Lemma data_query_not_raw (self : DITConnection) (wql : string) (w w' : W) e tr :
  run provider (data_query self wql) w = (Err e, w', tr) ->
  forall err, e <> Comi err.
Proof.
  intros Hrun err ->. pose proof (decodes_data_query provider self wql w) as Hd.
  rewrite Hrun in Hd. destruct Hd as [_ [Hd | [Hd _]]]; discriminate.
Qed.

Lemma not_found_reader_panel (panel reader : string) :
  not_found "reader" reader <> not_found "panel" panel.
Proof. unfold not_found. intros Heq. vm_compute in Heq. discriminate. Qed.

(** Every run of [open_door]: either no method is invoked and an
    exception other than the "panel not found" one is raised, or the last
    call is [OpenDoor] on the first row of the reader query and decides the
    outcome. *)
Lemma run_open_door (self : DITConnection) (panel reader : string) (w w' : W) r tr :
  run provider (open_door self panel reader) w = (r, w', tr) ->
  (existsb is_method tr = false
   /\ (exists e, r = Err e /\ e <> not_found "panel" panel))
  \/ (exists pre q rd rs reply,
        tr = pre ++ [Ev (method rd "OpenDoor") reply]
        /\ existsb is_method pre = false
        /\ In (Ev (query (_namespace self) q) (inr (rd :: rs))) pre
        /\ String.prefix "select * from Lnl_Reader where PanelID = " q = true
        /\ r = match reply with inl err => Err (Comi err) | inr _ => Ok tt end).
Proof.
  unfold open_door. fold (panel_wql panel). rewrite run_bind.
  destruct (run provider (data_query self (panel_wql panel)) w)
    as [[[e | panel_id] w1] tr1] eqn:Hq1;
    destruct (data_query_shape provider _ _ _ _ _ _ Hq1) as [Hno1 _];
    cbv beta iota zeta delta [Ok Err].
  { intros [= <- _ <-]. left. split; [exact Hno1 |].
    exists e. split; [reflexivity |]. apply (data_query_not_raw _ _ _ _ _ _ Hq1). }
  destruct panel_id as [| row rest].
  { unfold _not_found_error. rewrite run_raise. intros [= <- _ <-]. left.
    rewrite app_nil_r. split; [exact Hno1 |].
    eexists. split; [reflexivity |]. apply not_found_reader_panel. }
  cbn [item0]. run_simp.
  destruct row as [| id row'].
  { cbn [item0]. run_simp. intros [= <- _ <-]. left. rewrite app_nil_r.
    split; [exact Hno1 |]. eexists. split; [reflexivity | discriminate]. }
  cbn [item0]. run_simp.
  set (q := "select * from Lnl_Reader where PanelID = " +:+ str_item id
            +:+ " and Name = " +:+ dquote +:+ reader +:+ dquote).
  assert (Hstar : properties_of q = inr ["*"]) by (destruct id; reflexivity).
  assert (Hpre : String.prefix "select * from Lnl_Reader where PanelID = " q = true)
    by apply StrFacts.prefix_append.
  destruct (run provider (data_query self q) w1) as [[[e | lnl_reader] w2] tr2] eqn:Hq2;
    destruct (data_query_shape provider _ _ _ _ _ _ Hq2) as [Hno2 _];
    cbv beta iota zeta delta [Ok Err].
  { intros [= <- _ <-]. left. rewrite existsb_app, Hno1, Hno2.
    split; [reflexivity |].
    exists e. split; [reflexivity |]. apply (data_query_not_raw _ _ _ _ _ _ Hq2). }
  destruct (data_query_returns provider _ _ _ _ _ _ Hq2)
    as (results & p0 & ps & w1' & Hreply & Hprops & Hshape).
  rewrite Hstar in Hprops. injection Hprops as <- <-.
  change (String.eqb "*" "*") with true in Hshape. cbv beta iota in Hshape.
  destruct Hshape as (elems & -> & Hel).
  assert (Htr2 : exists tr2', tr2 = Ev (query (_namespace self) q) (inr results) :: tr2').
  { revert Hq2. unfold data_query.
    rewrite run_try_except_COMI, run_bind, run_call, Hreply.
    cbv beta iota zeta delta [Ok Err].
    destruct (run provider _ w1') as [[[e | a] w3] tr3]; cbv beta iota zeta.
    - destruct e; try (intros [= _ _ <-]; eauto);
        destruct (run_handle_error provider (R := list (list query_item)) e w3) as (e' & ->);
        intros [= _ _ <-]; eauto.
    - intros [= _ _ <-]. eauto. }
  destruct Htr2 as (tr2' & ->).
  cbn [item0]. run_simp.
  destruct Hel as [| rd e0 rs es (cache & ->) _].
  { cbn [map item0]. run_simp. intros [= <- _ <-]. left.
    rewrite ?app_nil_r, !existsb_app, Hno1, Hno2. split; [reflexivity |].
    eexists. split; [reflexivity | discriminate]. }
  cbn [map item0]. run_simp. unfold call_method, member_handle.
  assert (Hole : fresh_members (_namespace self) rd cache !! "ole_object"
                 = Some (MHandle rd)).
  { unfold fresh_members. rewrite lookup_insert_ne by discriminate.
    apply lookup_insert_eq. }
  rewrite Hole. run_simp.
  destruct (provider _ (method rd "OpenDoor") w2) as [[err | v] w3];
    cbv beta iota zeta; run_simp; intros [= <- _ <-]; right;
    exists (tr1 ++ Ev (query (_namespace self) q) (inr (rd :: rs)) :: tr2'), q, rd, rs.
  - exists (inl err). rewrite <- !app_assoc. cbn [app].
    split; [reflexivity |]. split; [rewrite existsb_app, Hno1; exact Hno2 |].
    split; [apply in_or_app; right; left; reflexivity |]. split; [exact Hpre | reflexivity].
  - exists (inr v). rewrite <- !app_assoc. cbn [app].
    split; [reflexivity |]. split; [rewrite existsb_app, Hno1; exact Hno2 |].
    split; [apply in_or_app; right; left; reflexivity |]. split; [exact Hpre | reflexivity].
Qed.

(** X13: the "panel not found" branch of [open_door] is dead.  Unless the
    provider's own [OpenDoor] was invoked (and failed with such an error),
    [open_door] never raises the x_wmi that names the panel: a "*" query
    always yields a non-empty list. *)
Theorem open_door_never_reports_panel (self : DITConnection) (panel reader : string)
    (w : W) :
  existsb is_method (trace provider (open_door self panel reader) w) = false ->
  outcome provider (open_door self panel reader) w <> Err (not_found "panel" panel).
Proof.
  unfold trace, outcome.
  destruct (run provider (open_door self panel reader) w) as [[r w'] tr] eqn:Hrun.
  cbn [fst snd]. intros Hno.
  destruct (run_open_door self panel reader w w' r tr Hrun)
    as [[_ (e & -> & Hne)] | (pre & q & rd & rs & reply & -> & _)].
  - intros [= ->]. apply Hne. reflexivity.
  - rewrite existsb_app in Hno. cbn in Hno. rewrite orb_true_r in Hno. discriminate.
Qed.

(** X14: [open_door] invokes at most one method: [OpenDoor], as its last
    call, on the first row of the reader query.  It returns only if that
    call succeeded, and a failure of that call escapes as the raw
    com_error or x_wmi, not decoded by [handle_error]. *)
Theorem open_door_pulses_first_reader (self : DITConnection) (panel reader : string)
    (w : W) :
  (existsb is_method (trace provider (open_door self panel reader) w) = false
   /\ exists e, outcome provider (open_door self panel reader) w = Err e)
  \/ (exists pre q rd rs reply,
        trace provider (open_door self panel reader) w
          = pre ++ [Ev (method rd "OpenDoor") reply]
        /\ existsb is_method pre = false
        /\ In (Ev (query (_namespace self) q) (inr (rd :: rs))) pre
        /\ String.prefix "select * from Lnl_Reader where PanelID = " q = true
        /\ outcome provider (open_door self panel reader) w
           = match reply with inl err => Err (Comi err) | inr _ => Ok tt end).
Proof.
  unfold trace, outcome.
  destruct (run provider (open_door self panel reader) w) as [[r w'] tr] eqn:Hrun.
  cbn [fst snd].
  destruct (run_open_door self panel reader w w' r tr Hrun)
    as [[Hno (e & -> & _)] | Hpulse]; [left; eauto | right; exact Hpulse].
Qed.

End DoorPulse.

Lemma open_door_never_reports_panel_witness :
  existsb is_method
    (trace door_provider (@open_door wmii_model (Build_DITConnection 3%N) "3300" "CK") tt)
  = false
  /\ outcome door_provider (@open_door wmii_model (Build_DITConnection 3%N) "3300" "CK") tt
     <> Err (not_found "panel" "3300").
Proof.
  split; [reflexivity |].
  exact (@open_door_never_reports_panel wmii_model unit door_provider
           (Build_DITConnection 3%N) "3300" "CK" tt eq_refl).
Defined.

(** ** Building and committing an element *)
Section ElementMore.
Context `{Wmii} {W : Type} (provider : forall X, ext X -> W -> X * W).

Local Abbreviation element := (gmap string member).

Lemma decodes_refresh_handle (self : element) (ns : handle) (obj_path : string) :
  self !! "_namespace" = Some (MHandle ns) ->
  decodes provider (fun _ => False) (DITElement__refresh self obj_path).
Proof.
  intros Hns. unfold DITElement__refresh, member_handle. rewrite Hns.
  apply decodes_bind; [apply decodes_ret |]. intros ns'.
  apply decodes_bind; [apply decodes_try; apply stops_call; reflexivity |].
  intros new_obj. apply decodes_bind; [apply decodes_init_base |].
  intros fresh. apply decodes_ret.
Qed.

Lemma decodes_commit_handles (self : element) (ole ns : handle) :
  self !! "ole_object" = Some (MHandle ole) ->
  self !! "_namespace" = Some (MHandle ns) ->
  decodes provider (fun _ => False) (DITElement__commit self).
Proof.
  intros Hole Hns. unfold DITElement__commit, member_handle. rewrite Hole.
  apply decodes_bind; [apply decodes_ret |]. intros ole'.
  apply decodes_bind; [apply decodes_ask; reflexivity |]. intros obj_path.
  destruct (nonempty obj_path); [exact (decodes_refresh_handle self ns _ Hns) |].
  apply decodes_bind; [apply decodes_try; apply stops_call; reflexivity |].
  intros relpath. exact (decodes_refresh_handle self ns _ Hns).
Qed.

Lemma refresh_writes_nothing (self : element) (ns : handle) (obj_path : string) (w : W) :
  self !! "_namespace" = Some (MHandle ns) ->
  writes (trace provider (DITElement__refresh self obj_path) w) = [].
Proof.
  intros Hns. unfold trace. pose proof (run_refresh provider self ns obj_path w Hns) as Hr.
  destruct (provider _ (Get ns obj_path) w) as [[err | new_obj] w1].
  - destruct Hr as (e & ->). reflexivity.
  - destruct (provider _ (wmi_object_init (Some new_obj)) w1) as [[err | cache] w2].
    + destruct Hr as (e & ->). reflexivity.
    + rewrite Hr. reflexivity.
Qed.

(** X15: [_commit] writes at most once.  It first reads the object's
    path; an object that has a path is only refreshed, one that has none
    is written with exactly one [Put_], and nothing is ever staged.  A
    failed call ends the commit with a decoded error, with nothing asked
    after it but the last error. *)
Theorem commit_writes_at_most_once (self : element) (ole ns : handle) (w : W) :
  self !! "ole_object" = Some (MHandle ole) ->
  self !! "_namespace" = Some (MHandle ns) ->
  let tr := trace provider (DITElement__commit self) w in
  hd_error tr = Some (Ev (Path ole) (fst (provider _ (Path ole) w)))
  /\ writes tr = (if nonempty (fst (provider _ (Path ole) w)) then [] else [Written])
  /\ fails_fast tr = true
  /\ (forall e, outcome provider (DITElement__commit self) w = Err e ->
        is_decoded e = true /\ clean tr = false)
  /\ (forall self', outcome provider (DITElement__commit self) w = Ok self' ->
        clean tr = true).
Proof.
  intros Hole Hns. cbv zeta.
  assert (Hhead : hd_error (trace provider (DITElement__commit self) w)
                  = Some (Ev (Path ole) (fst (provider _ (Path ole) w)))
                  /\ writes (trace provider (DITElement__commit self) w)
                     = (if nonempty (fst (provider _ (Path ole) w)) then [] else [Written])).
  { unfold trace. pose proof (run_commit provider self ole ns w Hole) as Hc.
    destruct (provider _ (Path ole) w) as [obj_path w0]. cbn [fst].
    pose proof (fun p w1 => refresh_writes_nothing self ns p w1 Hns) as Hrw.
    unfold trace in Hrw.
    destruct (nonempty obj_path).
    - rewrite Hc. specialize (Hrw obj_path w0).
      destruct (run provider (DITElement__refresh self obj_path) w0) as [[r w'] tr].
      cbn [snd hd_error] in *. split; [reflexivity |].
      rewrite writes_cons. cbn [write_of]. exact Hrw.
    - destruct (provider _ (Put_ ole) w0) as [[err | relpath] w1].
      + destruct Hc as (e & ->). split; reflexivity.
      + rewrite Hc. specialize (Hrw relpath w1).
        destruct (run provider (DITElement__refresh self relpath) w1) as [[r w'] tr].
        cbn [snd hd_error] in *. split; [reflexivity |].
        rewrite !writes_cons. cbn [write_of]. rewrite Hrw. reflexivity. }
  destruct Hhead as [Hhd Hwr]. split; [exact Hhd |]. split; [exact Hwr |].
  pose proof (decodes_commit_handles self ole ns Hole Hns w) as Hd.
  pose proof (proj1 (commit_outcome provider self ole ns w Hole Hns)) as Hlive.
  unfold trace, outcome, clean in *.
  destruct (run provider (DITElement__commit self) w) as [[[e | self'] w1] tr];
    cbn [fst snd] in *.
  - destruct Hd as [Hff [Hdec | []]]. split; [exact Hff |]. split; [| discriminate].
    intros e' [= <-]. split; [exact Hdec |].
    destruct (forallb (fun e0 => negb (failed e0)) tr); [| reflexivity].
    destruct (Hlive eq_refl) as (s & [=]).
  - split; [apply (clean_fails_fast tr); exact Hd |]. split; [discriminate |].
    intros _ _. exact Hd.
Qed.

Lemma run_init_base (ns : handle) (lnl_class : string) (ole_obj : option handle) (w : W) :
  if nonempty lnl_class then
    match provider _ (Get ns lnl_class) w with
    | (inr cls, w1) =>
        match provider _ (SpawnInstance_ cls) w1 with
        | (inr o, w2) =>
            match provider _ (wmi_object_init (Some o)) w2 with
            | (inr cache, w3) =>
                run provider (DITElement_init_base (inr ns) lnl_class ole_obj) w
                = (Ok (fresh_members ns o cache), w3,
                   [Ev (Get ns lnl_class) (inr cls); Ev (SpawnInstance_ cls) (inr o);
                    Ev (wmi_object_init (Some o)) (inr cache)])
            | (inl err, w3) =>
                exists e,
                  run provider (DITElement_init_base (inr ns) lnl_class ole_obj) w
                  = (Err e, snd (provider _ SWbemLastError w3),
                     [Ev (Get ns lnl_class) (inr cls); Ev (SpawnInstance_ cls) (inr o);
                      Ev (wmi_object_init (Some o)) (inl err);
                      Ev SWbemLastError (fst (provider _ SWbemLastError w3))])
            end
        | (inl err, w2) =>
            exists e,
              run provider (DITElement_init_base (inr ns) lnl_class ole_obj) w
              = (Err e, snd (provider _ SWbemLastError w2),
                 [Ev (Get ns lnl_class) (inr cls); Ev (SpawnInstance_ cls) (inl err);
                  Ev SWbemLastError (fst (provider _ SWbemLastError w2))])
        end
    | (inl err, w1) =>
        exists e,
          run provider (DITElement_init_base (inr ns) lnl_class ole_obj) w
          = (Err e, snd (provider _ SWbemLastError w1),
             [Ev (Get ns lnl_class) (inl err);
              Ev SWbemLastError (fst (provider _ SWbemLastError w1))])
    end
  else
    match provider _ (wmi_object_init ole_obj) w with
    | (inr cache, w1) =>
        run provider (DITElement_init_base (inr ns) lnl_class ole_obj) w
        = (Ok (<["_namespace" := MHandle ns]>
                 (<["ole_object" := match ole_obj with
                                    | Some o => MHandle o
                                    | None => MVal PNone
                                    end]> cache)), w1,
           [Ev (wmi_object_init ole_obj) (inr cache)])
    | (inl err, w1) =>
        exists e,
          run provider (DITElement_init_base (inr ns) lnl_class ole_obj) w
          = (Err e, snd (provider _ SWbemLastError w1),
             [Ev (wmi_object_init ole_obj) (inl err);
              Ev SWbemLastError (fst (provider _ SWbemLastError w1))])
    end.
Proof.
  unfold DITElement_init_base, wmi_object___init__.
  destruct (nonempty lnl_class); cbv beta iota zeta; run_simp.
  - destruct (provider _ (Get ns lnl_class) w) as [[err | cls] w1]; cbv beta iota zeta.
    { destruct (run_handle_error provider (R := element) err w1) as (e & ->).
      exists e. reflexivity. }
    run_simp.
    destruct (provider _ (SpawnInstance_ cls) w1) as [[err | o] w2]; cbv beta iota zeta.
    { destruct (run_handle_error provider (R := element) err w2) as (e & ->).
      exists e. reflexivity. }
    run_simp.
    destruct (provider _ (wmi_object_init (Some o)) w2) as [[err | cache] w3];
      cbv beta iota zeta.
    { destruct (run_handle_error provider (R := element) err w3) as (e & ->).
      exists e. reflexivity. }
    run_simp. reflexivity.
  - destruct (provider _ (wmi_object_init ole_obj) w) as [[err | cache] w1];
      cbv beta iota zeta.
    { destruct (run_handle_error provider (R := element) err w1) as (e & ->).
      exists e. reflexivity. }
    run_simp. reflexivity.
Qed.

(** X16: a [DITElement] built around an OLE object is only wrapped.  The
    keyword arguments are ignored, nothing is staged or written and no
    commit takes place: the provider is asked at most for the class, a new
    instance, the wrapper data and its last error.  The wrapper that is
    returned holds the connection's namespace. *)
Theorem init_around_object_only_wraps (connection : DITConnection + handle)
    (lnl_class : string) (o : handle) (kwargs : list (string * pyval)) (w : W) :
  let p := DITElement_init connection lnl_class (Some o) kwargs in
  let ns := match connection with inl c => namespace c | inr ns => ns end in
  run provider p w = run provider (DITElement_init connection lnl_class (Some o) []) w
  /\ only_calls [KGet; KSpawnInstance; Kinit; KLastError] (trace provider p w) = true
  /\ writes (trace provider p w) = []
  /\ (forall e, outcome provider p w = Err e -> is_decoded e = true)
  /\ (forall self, outcome provider p w = Ok self ->
        self !! "_namespace" = Some (MHandle ns)
        /\ (lnl_class = "" -> self !! "ole_object" = Some (MHandle o))).
Proof.
  cbv zeta. split; [reflexivity |].
  assert (Hsame : DITElement_init connection lnl_class (Some o) kwargs
                  = DITElement_init_base
                      (inr match connection with inl c => namespace c | inr ns => ns end)
                      lnl_class (Some o)).
  { destruct connection; reflexivity. }
  rewrite Hsame.
  set (ns := match connection with inl c => namespace c | inr ns => ns end).
  pose proof (decodes_init_base provider (fun _ => False) (inr ns) lnl_class (Some o) w)
    as Hd.
  pose proof (run_init_base ns lnl_class (Some o) w) as Hr.
  unfold trace, outcome.
  destruct (nonempty lnl_class) eqn:Hcls.
  - destruct (provider _ (Get ns lnl_class) w) as [[err | cls] w1].
    { destruct Hr as (e & Hr). rewrite Hr in *. cbn [fst snd].
      split; [reflexivity |]. split; [reflexivity |].
      split; [| discriminate]. intros e' [= <-]. destruct Hd as [_ [Hd | []]]. exact Hd. }
    destruct (provider _ (SpawnInstance_ cls) w1) as [[err | o'] w2].
    { destruct Hr as (e & Hr). rewrite Hr in *. cbn [fst snd].
      split; [reflexivity |]. split; [reflexivity |].
      split; [| discriminate]. intros e' [= <-]. destruct Hd as [_ [Hd | []]]. exact Hd. }
    destruct (provider _ (wmi_object_init (Some o')) w2) as [[err | cache] w3].
    { destruct Hr as (e & Hr). rewrite Hr in *. cbn [fst snd].
      split; [reflexivity |]. split; [reflexivity |].
      split; [| discriminate]. intros e' [= <-]. destruct Hd as [_ [Hd | []]]. exact Hd. }
    rewrite Hr. cbn [fst snd]. split; [reflexivity |]. split; [reflexivity |].
    split; [discriminate |]. intros self [= <-]. split; [apply lookup_insert_eq |].
    intros ->. discriminate.
  - destruct (provider _ (wmi_object_init (Some o)) w) as [[err | cache] w1].
    { destruct Hr as (e & Hr). rewrite Hr in *. cbn [fst snd].
      split; [reflexivity |]. split; [reflexivity |].
      split; [| discriminate]. intros e' [= <-]. destruct Hd as [_ [Hd | []]]. exact Hd. }
    rewrite Hr. cbn [fst snd]. split; [reflexivity |]. split; [reflexivity |].
    split; [discriminate |]. intros self [= <-]. split; [apply lookup_insert_eq |].
    intros _. rewrite lookup_insert_ne by discriminate. apply lookup_insert_eq.
Qed.

(** X17: a [DITElement] built from a class name is committed before the
    constructor returns, with or without keyword arguments.  The class is
    fetched and instantiated, the inherited [set] runs, and then [_commit]
    reads the new object's path, writes the object if it has none, and
    refreshes the wrapper from the stored instance. *)
Theorem init_from_class_commits (connection : DITConnection + handle)
    (lnl_class : string) (kwargs : list (string * pyval)) (w : W) (self' : element) :
  nonempty lnl_class = true ->
  outcome provider (DITElement_init connection lnl_class None kwargs) w = Ok self' ->
  let ns := match connection with inl c => namespace c | inr ns => ns end in
  exists cls o cache tr_set tr_put obj_path new_obj cache',
    trace provider (DITElement_init connection lnl_class None kwargs) w
    = [Ev (Get ns lnl_class) (inr cls); Ev (SpawnInstance_ cls) (inr o);
       Ev (wmi_object_init (Some o)) (inr cache)]
      ++ tr_set
      ++ tr_put
      ++ [Ev (Get ns obj_path) (inr new_obj);
          Ev (wmi_object_init (Some new_obj)) (inr cache')]
    /\ (obj_path <> "" /\ tr_put = [Ev (Path o) obj_path]
        \/ tr_put = [Ev (Path o) ""; Ev (Put_ o) (inr obj_path)])
    /\ trace provider (try_except_COMI (super_set (fresh_members ns o cache) kwargs))
         (snd (provider _ (wmi_object_init (Some o))
                 (snd (provider _ (SpawnInstance_ cls)
                         (snd (provider _ (Get ns lnl_class) w))))))
       = tr_set
    /\ self' = fresh_members ns new_obj cache' ∪ fresh_members ns o cache.
Proof.
  intros Hcls. cbv zeta.
  assert (Hsame : DITElement_init connection lnl_class None kwargs
                  = DITElement_init_base
                      (inr match connection with inl c => namespace c | inr ns => ns end)
                      lnl_class None
                    ≫= fun self => DITElement_set self kwargs).
  { destruct connection; reflexivity. }
  rewrite Hsame.
  set (ns := match connection with inl c => namespace c | inr ns => ns end).
  pose proof (run_init_base ns lnl_class None w) as Hr. rewrite Hcls in Hr.
  unfold outcome, trace. rewrite run_bind.
  destruct (provider _ (Get ns lnl_class) w) as [[err | cls] w1] eqn:Hget.
  { destruct Hr as (e & ->). discriminate. }
  destruct (provider _ (SpawnInstance_ cls) w1) as [[err | o] w2] eqn:Hspawn.
  { destruct Hr as (e & ->). discriminate. }
  destruct (provider _ (wmi_object_init (Some o)) w2) as [[err | cache] w3] eqn:Hinit.
  { destruct Hr as (e & ->). discriminate. }
  rewrite Hr. cbv beta iota zeta delta [Ok Err].
  destruct (run provider (DITElement_set (fresh_members ns o cache) kwargs) w3)
    as [[[e | s] w4] tr4] eqn:Hset; cbv beta iota zeta; cbn [fst snd]; [discriminate |].
  intros [= ->].
  destruct (set_then_commit provider _ _ _ _ _ _ Hset) as (w5 & tr1 & tr2 & Hs & Hc & ->).
  assert (Hole : fresh_members ns o cache !! "ole_object" = Some (MHandle o)).
  { unfold fresh_members. rewrite lookup_insert_ne by discriminate.
    apply lookup_insert_eq. }
  assert (Hns : fresh_members ns o cache !! "_namespace" = Some (MHandle ns)).
  { apply lookup_insert_eq. }
  destruct (commit_outcome provider _ o ns w5 Hole Hns) as [_ Hshape].
  unfold outcome, trace in Hshape. rewrite Hc in Hshape. cbn [fst snd] in Hshape.
  destruct (Hshape self' eq_refl)
    as (obj_path & new_obj & cache' & Htr & -> & _).
  destruct Htr as [[Hne ->] | ->].
  - exists cls, o, cache, tr1, [Ev (Path o) obj_path], obj_path, new_obj, cache'.
    cbn [snd]. rewrite Hspawn. cbn [snd]. rewrite Hinit. cbn [snd]. rewrite Hs. cbn [snd].
    split; [reflexivity |]. split; [left; auto |]. split; reflexivity.
  - exists cls, o, cache, tr1, [Ev (Path o) ""; Ev (Put_ o) (inr obj_path)],
      obj_path, new_obj, cache'.
    cbn [snd]. rewrite Hspawn. cbn [snd]. rewrite Hinit. cbn [snd]. rewrite Hs. cbn [snd].
    split; [reflexivity |]. split; [right; reflexivity |]. split; reflexivity.
Qed.

End ElementMore.

Lemma commit_writes_at_most_once_witness :
  sample_element !! "ole_object" = Some (MHandle 11%N)
  /\ sample_element !! "_namespace" = Some (MHandle 3%N)
  /\ writes (trace quiet_provider (@DITElement__commit wmii_model sample_element) tt)
     = [Written].
Proof.
  split; [reflexivity |]. split; [reflexivity |].
  destruct (@commit_writes_at_most_once wmii_model unit quiet_provider sample_element
              11%N 3%N tt eq_refl eq_refl) as (_ & Hw & _).
  exact Hw.
Defined.

Lemma init_from_class_commits_witness :
  let p := @DITElement_init wmii_model (inl (Build_DITConnection 3%N)) "Lnl_Cardholder"
             None [] in
  nonempty "Lnl_Cardholder" = true
  /\ exists self',
       outcome quiet_provider p tt = Ok self'
       /\ exists cls o cache tr_set tr_put obj_path new_obj cache',
            trace quiet_provider p tt
            = [Ev (Get 3%N "Lnl_Cardholder") (inr cls); Ev (SpawnInstance_ cls) (inr o);
               Ev (wmi_object_init (Some o)) (inr cache)]
              ++ tr_set
              ++ tr_put
              ++ [Ev (Get 3%N obj_path) (inr new_obj);
                  Ev (wmi_object_init (Some new_obj)) (inr cache')]
            /\ (obj_path <> "" /\ tr_put = [Ev (Path o) obj_path]
                \/ tr_put = [Ev (Path o) ""; Ev (Put_ o) (inr obj_path)])
            /\ trace quiet_provider
                 (@try_except_COMI wmii_model _
                    (@super_set wmii_model (fresh_members 3%N o cache) []))
                 (snd (quiet_provider _ (wmi_object_init (Some o))
                         (snd (quiet_provider _ (SpawnInstance_ cls)
                                 (snd (quiet_provider _ (Get 3%N "Lnl_Cardholder") tt))))))
               = tr_set
            /\ self' = fresh_members 3%N new_obj cache' ∪ fresh_members 3%N o cache.
Proof.
  cbv zeta. split; [reflexivity |].
  destruct (outcome quiet_provider
              (@DITElement_init wmii_model (inl (Build_DITConnection 3%N)) "Lnl_Cardholder"
                 None []) tt) as [e | self'] eqn:Ho.
  - vm_compute in Ho. discriminate Ho.
  - exists self'. split; [reflexivity |].
    exact (@init_from_class_commits wmii_model unit quiet_provider
             (inl (Build_DITConnection 3%N)) "Lnl_Cardholder" [] tt self' eq_refl Ho).
Defined.

(** ** Subscriptions, deliveries and the bootstrap under failure *)
Section WatcherMore.
Context `{Wmii} {W : Type} (provider : forall X, ext X -> W -> X * W).

(** X18: [hardware_events] subscribes without validating the class name.
    It sends exactly one notification query, "SELECT * FROM <class>" with
    Lnl_SecurityEvent as the default class, and returns an extrinsic
    watcher on the provider's answer; a refused subscription is decoded by
    [handle_error]. *)
Theorem hardware_events_subscribes (self : DITConnection) (EventClass : option string)
    (w : W) :
  let q := "SELECT * FROM " +:+ default "Lnl_SecurityEvent" EventClass in
  match provider _ (ExecNotificationQuery (_namespace self) q) w with
  | (inr h, w1) =>
      run provider (hardware_events self EventClass) w
      = (Ok (Build_watcher h true), w1,
         [Ev (ExecNotificationQuery (_namespace self) q) (inr h)])
  | (inl err, w1) =>
      exists e,
        is_decoded e = true
        /\ run provider (hardware_events self EventClass) w
           = (Err e, snd (provider _ SWbemLastError w1),
              [Ev (ExecNotificationQuery (_namespace self) q) (inl err);
               Ev SWbemLastError (fst (provider _ SWbemLastError w1))])
  end.
Proof.
  cbv zeta. unfold hardware_events, HWatcher_init, DITWatcher_init.
  change HWEvent with "Lnl_SecurityEvent".
  set (q := "SELECT * FROM " +:+ default "Lnl_SecurityEvent" EventClass).
  run_simp.
  destruct (provider _ (ExecNotificationQuery (_namespace self) q) w) as [[err | h] w1];
    cbv beta iota zeta.
  - destruct (run_handle_error_decoded provider (R := handle) err w1) as (e & Hdec & ->).
    exists e. split; [exact Hdec | reflexivity].
  - run_simp. reflexivity.
Qed.

(** X19: a hardware watcher needs the "Alarm" property.  When the event
    that arrives has no property of that name, the call raises
    [KeyError('Alarm')] after the event was taken from the provider; a
    software watcher delivers the same event. *)
Theorem hwatcher_call_without_alarm (self : watcher) (w w1 : W) (event : wmi_event) :
  provider _ (NextEvent (wmi_event_of self) (is_extrinsic self)) w = (inr event, w1) ->
  "Alarm" ∉ (Properties_ event).*1 ->
  run provider (HWatcher_call self) w
  = (Err (KeyErrorStr "Alarm"), w1,
     [Ev (NextEvent (wmi_event_of self) (is_extrinsic self)) (inr event)])
  /\ exists d,
       run provider (SWatcher_call self) w
       = (Ok d, w1, [Ev (NextEvent (wmi_event_of self) (is_extrinsic self)) (inr event)]).
Proof.
  intros Hnext Hno.
  pose proof (run_DITWatcher_call provider self w) as Hcall. rewrite Hnext in Hcall.
  split.
  - unfold HWatcher_call. rewrite run_bind, Hcall. cbv beta iota zeta delta [Ok].
    rewrite (to_dict_dom _ _ Hno), run_raise. reflexivity.
  - eexists. unfold SWatcher_call. rewrite run_bind, Hcall. cbv beta iota zeta delta [Ok].
    rewrite run_ret. reflexivity.
Qed.

Lemma last_occurrence (props : list (string * pyval)) (n : string) :
  n ∈ props.*1 ->
  exists l v rest, props = l ++ (n, v) :: rest /\ n ∉ rest.*1.
Proof.
  induction props as [| [k x] props IH]; [intros Hin; inversion Hin |].
  intros Hin. destruct (decide (n ∈ props.*1)) as [Hlater | Hno].
  - destruct (IH Hlater) as (l & v & rest & -> & Hrest).
    exists ((k, x) :: l), v, rest. auto.
  - cbn [fmap list_fmap fst] in Hin. apply elem_of_cons in Hin as [-> | Hin]; [| tauto].
    exists [], x, props. auto.
Qed.

Lemma to_dict_last (l rest : list (string * pyval)) (n : string) (v : pyval) :
  n ∉ rest.*1 -> _to_dict (l ++ (n, v) :: rest) !! n = Some v.
Proof.
  intros Hno. unfold _to_dict. rewrite fold_left_app. cbn [fold_left fst snd].
  rewrite to_dict_fold_notin by exact Hno. apply lookup_insert_eq.
Qed.

(** X20: the dict [_to_dict] makes of an event has exactly the property
    names as keys, and when a name occurs more than once the value of its
    last occurrence is the one kept. *)
Theorem to_dict_keys_and_values (props : list (string * pyval)) (n : string) :
  (_to_dict props !! n = None <-> n ∉ props.*1)
  /\ (forall l v rest,
        props = l ++ (n, v) :: rest -> n ∉ rest.*1 -> _to_dict props !! n = Some v).
Proof.
  split.
  - split; [| apply to_dict_dom].
    intros Hnone Hin. destruct (last_occurrence props n Hin) as (l & v & rest & -> & Hno).
    rewrite (to_dict_last l rest n v Hno) in Hnone. discriminate.
  - intros l v rest -> Hno. exact (to_dict_last l rest n v Hno).
Qed.

Lemma decodes_connect (server username password : option string)
    (coinitialize : option bool) :
  decodes provider (fun _ => False) (_connect_dit server username password coinitialize).
Proof.
  unfold _connect_dit. apply decodes_bind; [| intros conn; apply decodes_ret].
  apply decodes_try.
  apply stops_bind.
  { destruct (default false coinitialize); [apply stops_call; reflexivity | apply stops_ret]. }
  intros _. apply stops_bind; [apply stops_call; reflexivity |]. intros locator.
  apply stops_bind; [apply stops_call; reflexivity |]. intros wbemsvc.
  apply stops_call; reflexivity.
Qed.

(** X21: the bootstrap stops at the first call that fails.  After a
    failed call nothing is asked of the provider but its last error, and
    the failure is raised decoded; a connection is returned exactly when
    no call failed. *)
Theorem connect_stops_at_failure (server username password : option string)
    (coinitialize : option bool) (w : W) :
  let p := DIT server username password coinitialize in
  fails_fast (trace provider p w) = true
  /\ (forall e, outcome provider p w = Err e ->
        is_decoded e = true /\ clean (trace provider p w) = false)
  /\ (forall conn, outcome provider p w = Ok conn -> clean (trace provider p w) = true).
Proof.
  cbv zeta. unfold DIT.
  pose proof (decodes_connect server username password coinitialize w) as Hd.
  pose proof (connect_trace provider (default "." server) (default "" username)
                (default "" password) (default false coinitialize) w) as Htr.
  cbv zeta in Htr. destruct Htr as (_ & _ & Hlive).
  assert (Hsame :
    _connect_dit server username password coinitialize
    = _connect_dit (Some (default "." server)) (Some (default "" username))
        (Some (default "" password)) (Some (default false coinitialize))).
  { destruct server, username, password, coinitialize; reflexivity. }
  rewrite <- Hsame in Hlive. unfold trace, outcome, clean in *.
  destruct (run provider (_connect_dit server username password coinitialize) w)
    as [[[e | conn] w1] tr]; cbn [fst snd] in *.
  - destruct Hd as [Hff [Hdec | []]]. split; [exact Hff |]. split; [| discriminate].
    intros e' [= <-]. split; [exact Hdec |].
    destruct (forallb (fun e0 => negb (failed e0)) tr); [| reflexivity].
    destruct (Hlive eq_refl) as (c & [=]).
  - split; [apply (clean_fails_fast tr); exact Hd |]. split; [discriminate |].
    intros _ _. exact Hd.
Qed.

(** X22: what a [DITError] falls back on.  When the provider's error
    information has no operation, no description or no status code in its
    text, the source, the description or the code of the error are those
    of the COM error being handled. *)
Theorem handle_error_falls_back {R} (err : comi_error) (c : com_error)
    (dit_err : lnl_error) (w : W) :
  com_error_args err = Some c ->
  fst (provider _ SWbemLastError w) = Some dit_err ->
  exists i,
    outcome provider (@handle_error _ R err) w = Err (DITError i)
    /\ (truthy (Operation dit_err) = false ->
          err_source i
          = match excepinfo_of c with Some ei => ex_source ei | None => PStr "" end)
    /\ (truthy (Description dit_err) = false ->
          err_description i
          = match excepinfo_of c with Some ei => ex_description ei | None => strerror c end)
    /\ (search_stat_code (GetObjectText_ dit_err) = None ->
          err_code i = Str.hex (signed_to_unsigned (hresult c)))
    /\ err_operation i = ""
    /\ err_additional_info i = excepinfo_of c
    /\ err_param_info i = ParameterInfo dit_err.
Proof.
  intros Hc Hlast.
  unfold outcome, handle_error, dit_error_info, ask, mbind, prog_bind. simpl.
  destruct (provider _ SWbemLastError w) as [last w']. cbn [fst] in Hlast. subst last.
  simpl. unfold DITError_init, COMError_init. rewrite Hc. simpl.
  eexists. split; [reflexivity |]. simpl.
  repeat split.
  - intros ->. reflexivity.
  - intros ->. reflexivity.
  - intros ->. reflexivity.
Qed.

(** X23: an [x_wmi] that carries no [com_error] cannot be decoded.
    Whatever the provider reports, [handle_error] then ends with the
    [AttributeError] of [COMError.__init__] instead of a [COMError] or a
    [DITError]. *)
Theorem handle_error_without_com_error {R} (info : string) (w : W) :
  outcome provider (@handle_error _ R (X_wmi info None)) w
  = Err (AttributeError "'NoneType' object has no attribute 'args'").
Proof.
  unfold outcome, handle_error, dit_error_info, ask, mbind, prog_bind. simpl.
  destruct (provider _ SWbemLastError w) as [[dit_err |] w']; reflexivity.
Qed.

End WatcherMore.

Lemma hwatcher_call_without_alarm_witness :
  plain_event_provider _ (NextEvent 20%N true) tt = (inr plain_event, tt)
  /\ ("Alarm" ∉ (Properties_ plain_event).*1)
  /\ outcome plain_event_provider (@HWatcher_call wmii_model (Build_watcher 20%N true)) tt
     = Err (KeyErrorStr "Alarm").
Proof.
  assert (Hno : "Alarm" ∉ (Properties_ plain_event).*1).
  { apply (bool_decide_unpack _). vm_compute. exact I. }
  split; [reflexivity |]. split; [exact Hno |].
  destruct (@hwatcher_call_without_alarm wmii_model unit plain_event_provider
              (Build_watcher 20%N true) tt tt plain_event eq_refl Hno) as [Hrun _].
  unfold outcome. rewrite Hrun. reflexivity.
Defined.

Lemma handle_error_falls_back_witness :
  com_error_args (Pywin_com_error sample_com_error) = Some sample_com_error
  /\ fst (bare_provider _ SWbemLastError tt) = Some bare_lnl_error
  /\ exists i,
       outcome bare_provider
         (@handle_error wmii_model unit (Pywin_com_error sample_com_error)) tt
       = Err (DITError i)
       /\ err_source i = PStr "SWbemObjectEx"
       /\ err_description i = PStr "Generic failure"
       /\ err_code i = "0x80020009".
Proof.
  split; [reflexivity |]. split; [reflexivity |].
  destruct (@handle_error_falls_back wmii_model unit bare_provider unit
              (Pywin_com_error sample_com_error) sample_com_error bare_lnl_error tt
              eq_refl eq_refl) as (i & Ho & Hsrc & Hdesc & Hcode & _).
  exists i. split; [exact Ho |].
  split; [exact (Hsrc eq_refl) |]. split; [exact (Hdesc eq_refl) |].
  rewrite (Hcode eq_refl). reflexivity.
Defined.
